(** * Flight_checker: price discovery and best-price ledger

    A shallow embedding of the two programs of the repository,

    - [claude.py]: the scraper ([FlightPriceScraper]), module [Claude];
    - [weeks.py]: the flight-offers API client, module [Weeks];

    and the properties of their discovery loop, fallback chain, new-record
    test and ledger operations.

    Conventions of the embedding.
    - A Python [float] is an IEEE 754 binary64 value, [spec_float] of the
      standard library; [<] on floats is [SFltb], [float('inf')] is
      [S754_infinity false].
    - A calendar date is its day ordinal ([date.toordinal()]), an integer;
      [d + timedelta(days=n)] is [d + n] and [strftime('%Y-%m-%d')], which
      renders an ordinal as text, is [strftime] below. The dates at hand
      are days after the current one; the [OverflowError] of date
      arithmetic past the year 9999 is not modelled.
    - Python exceptions are values of [exn]; code that can raise lives in
      the monad [M], which records the observable events (external
      calls, writes to the ledger file) and stops at the first exception.
    - What the outside world answers (pages, HTTP responses, file system
      faults) is an input of the model: a record of outcomes.
    - Asynchronous [BaseException]s ([KeyboardInterrupt], [SystemExit]) and
      logging/printing of constant text are not modelled.
    - A JSON file is modelled up to what [os.path.exists], [open] and
      [json.load] see of it, [json_file]. *)

From Stdlib Require Import ZArith List String Ascii Bool Lia.
From Stdlib Require Import Floats.SpecFloat Sorting.Sorted.
Import ListNotations.
Local Open Scope string_scope.
Local Open Scope list_scope.
Local Open Scope Z_scope.

Set Implicit Arguments.

(** ** Python exceptions and the monad of effectful code *)

Inductive exn : Type :=
| WebDriverException
| TimeoutException
| NoSuchElementException
| ValueError
| KeyError
| TypeError
| AttributeError
| RequestException
| HTTPError
| RequestsJSONDecodeError
| JSONDecodeError
| OSError.

(** [except TimeoutException]. *)
Definition is_TimeoutException (e : exn) : bool :=
  match e with TimeoutException => true | _ => false end.

(** [except requests.exceptions.RequestException]: the class, [HTTPError]
    (raised by [raise_for_status]) and the decoding error of
    [response.json()] are its subclasses. *)
Definition is_RequestException (e : exn) : bool :=
  match e with
  | RequestException | HTTPError | RequestsJSONDecodeError => true
  | _ => false
  end.

(** [except Exception] and a bare [except]: every modelled exception. *)
Definition is_Exception (e : exn) : bool := true.

Inductive result (A : Type) : Type :=
| Ok (a : A)
| Raise (e : exn).
Arguments Ok {A} a.
Arguments Raise {A} e.

Section Monad.
(** [E]: the observable events (external calls, file writes). A
    computation yields its outcome and the events it caused, in order. *)
Variable E : Type.

Definition M (A : Type) : Type := (result A * list E)%type.

Definition ret {A} (a : A) : M A := (Ok a, []).

Definition raise {A} (e : exn) : M A := (Raise e, []).

Definition bind {A B} (c : M A) (k : A -> M B) : M B :=
  match c with
  | (Ok a, t) => let '(r, t') := k a in (r, (t ++ t')%list)
  | (Raise e, t) => (Raise e, t)
  end.

(** An outcome supplied by the environment enters the computation. *)
Definition lift {A} (r : result A) : M A := (r, []).

Definition emit (ev : E) : M unit := (Ok tt, [ev]).

(** [try: c  except <catches> as e: h e]. What [c] did before raising
    stays done. *)
Definition try_except {A} (c : M A) (catches : exn -> bool) (h : exn -> M A) : M A :=
  match c with
  | (Ok a, t) => (Ok a, t)
  | (Raise e, t) =>
      if catches e then let '(r, t') := h e in (r, (t ++ t')%list) else (Raise e, t)
  end.

(** [for x in xs: acc = body x acc], stopped by the first exception. *)
Fixpoint for_each {A St} (xs : list A) (body : A -> St -> M St) (acc : St) : M St :=
  match xs with
  | [] => ret acc
  | x :: xs' => bind (body x acc) (for_each xs' body)
  end.

(** [[f x for x in xs]], stopped by the first exception. *)
Fixpoint map_M {A B} (f : A -> M B) (xs : list A) : M (list B) :=
  match xs with
  | [] => ret []
  | x :: xs' => bind (f x) (fun y => bind (map_M f xs') (fun ys => ret (y :: ys)))
  end.

Definition outcome {A} (c : M A) : result A := fst c.
Definition trace {A} (c : M A) : list E := snd c.
End Monad.

Arguments ret {E A} a.
Arguments raise {E A} e.
Arguments bind {E A B} c k.
Arguments lift {E A} r.
Arguments emit {E} ev.
Arguments try_except {E A} c catches h.
Arguments for_each {E A St} xs body acc.
Arguments map_M {E A B} f xs.
Arguments outcome {E A} c.
Arguments trace {E A} c.

Declare Scope py_scope.
Delimit Scope py_scope with py.
Notation "x <- c ;; k" := (bind c (fun x => k))
  (at level 100, c at next level, right associativity) : py_scope.
Notation "c ;;; k" := (bind c (fun _ => k))
  (at level 100, right associativity) : py_scope.
Local Open Scope py_scope.

(** ** Python floats *)

Module PyFloat.

Definition float : Type := spec_float.

(** [float('inf')]. *)
Definition inf : float := S754_infinity false.

(** [x < y]. *)
Definition lt (x y : float) : bool := SFltb x y.

(** [x == y]. *)
Definition eqb (x y : float) : bool := SFeqb x y.

(** The float nearest to the integer [n] (ties to even, overflow to an
    infinity): what [float(s)] returns for a string [s] of decimal digits
    of value [n], and [float(n)] for an [int] in range. *)
Definition of_Z (n : Z) : float := binary_normalize 53 1024 n 0 false.

(** The float nearest to [n / 100], for an amount of [n] cents below
    [2^53]: the correctly rounded quotient of two floats that are exact. *)
Definition of_cents (n : Z) : float := SFdiv 53 1024 (of_Z n) (of_Z 100).

(** Finite and not negative: zero or a positive finite number. *)
Definition finite_nonneg (x : float) : bool :=
  match x with
  | S754_zero _ => true
  | S754_finite false _ _ => true
  | _ => false
  end.

End PyFloat.

Infix "<?f" := PyFloat.lt (at level 70, no associativity) : py_scope.

(** ** Python strings and sequences *)

Definition is_digit (c : ascii) : bool :=
  let n := N_of_ascii c in (48 <=? n)%N && (n <=? 57)%N.

Definition is_comma (c : ascii) : bool := (N_of_ascii c =? 44)%N.

Definition digit_value (c : ascii) : Z := Z.of_N (N_of_ascii c) - 48.

(** [range(lo, hi)]. *)
Definition py_range (lo hi : Z) : list Z :=
  map (fun i => lo + Z.of_nat i) (seq 0 (Z.to_nat (hi - lo))).

(** [min(xs, key=key)] on a non-empty list: the first element whose key no
    later element undercuts; [best] is the element held so far. *)
Fixpoint py_min_from {A} (key : A -> PyFloat.float) (best : A) (xs : list A) : A :=
  match xs with
  | [] => best
  | x :: xs' => py_min_from key (if key x <?f key best then x else best) xs'
  end.

Definition py_min {A} (key : A -> PyFloat.float) (xs : list A) : option A :=
  match xs with
  | [] => None
  | x :: xs' => Some (py_min_from key x xs')
  end.

(** [xs[:n]]. *)
Definition py_take {A} (n : nat) (xs : list A) : list A := firstn n xs.

(** [s.replace(',', '')]. *)
Fixpoint remove_commas (s : string) : string :=
  match s with
  | EmptyString => EmptyString
  | String c s' => if is_comma c then remove_commas s' else String c (remove_commas s')
  end.

(** The longest prefix of [s] made of digits and commas. *)
Fixpoint digits_commas_prefix (s : string) : string :=
  match s with
  | EmptyString => EmptyString
  | String c s' =>
      if is_digit c || is_comma c then String c (digits_commas_prefix s') else EmptyString
  end.

(** [re.search(r'[\d,]+', s)]: the leftmost, longest run of digits and
    commas, [None] when [s] has none. Text is modelled with code points
    below 256, among which the decimal digits are the ASCII ones. *)
Fixpoint re_search_digits_commas (s : string) : option string :=
  match s with
  | EmptyString => None
  | String c s' =>
      if is_digit c || is_comma c then Some (String c (digits_commas_prefix s'))
      else re_search_digits_commas s'
  end.

(** The value of a string of decimal digits, most significant first. *)
Fixpoint decimal_value (acc : Z) (s : string) : Z :=
  match s with
  | EmptyString => acc
  | String c s' => decimal_value (10 * acc + digit_value c) s'
  end.

(** [float(s)] for a string [s] of decimal digits: [ValueError] on the
    empty string. *)
Definition float_of_digits (s : string) : result PyFloat.float :=
  match s with
  | EmptyString => Raise ValueError
  | _ => Ok (PyFloat.of_Z (decimal_value 0 s))
  end.

(** ** Calendar dates *)

(** [_DAYS_BEFORE_MONTH[month]] of [datetime]. *)
Definition days_before_month (month : Z) : Z :=
  nth (Z.to_nat month) [-1; 0; 31; 59; 90; 120; 151; 181; 212; 243; 273; 304; 334] 0.

(** [_DAYS_IN_MONTH[month]]. *)
Definition days_in_month (month : Z) : Z :=
  nth (Z.to_nat month) [-1; 31; 28; 31; 30; 31; 30; 31; 31; 30; 31; 30; 31] 0.

(** [datetime._ord2ymd]: year, month and day of a proleptic Gregorian
    ordinal (day 1 is 0001-01-01). *)
Definition ord2ymd (ordinal : Z) : Z * Z * Z :=
  let n := ordinal - 1 in
  let n400 := n / 146097 in
  let n := n mod 146097 in
  let n100 := n / 36524 in
  let n := n mod 36524 in
  let n4 := n / 1461 in
  let n := n mod 1461 in
  let n1 := n / 365 in
  let n := n mod 365 in
  let year := n400 * 400 + 1 + n100 * 100 + n4 * 4 + n1 in
  if (n1 =? 4) || (n100 =? 4) then (year - 1, 12, 31)
  else
    let leapyear := (n1 =? 3) && (negb (n4 =? 24) || (n100 =? 3)) in
    let month := Z.shiftr (n + 50) 5 in
    let preceding :=
      days_before_month month + (if (2 <? month) && leapyear then 1 else 0) in
    if n <? preceding then
      let month := month - 1 in
      let preceding :=
        preceding - (days_in_month month + (if (month =? 2) && leapyear then 1 else 0)) in
      (year, month, n - preceding + 1)
    else (year, month, n - preceding + 1).

(** The last [k] decimal digits of [n], zero padded. *)
Fixpoint zero_padded (k : nat) (n : Z) : string :=
  match k with
  | O => EmptyString
  | S k' =>
      (zero_padded k' (n / 10)
         ++ String (ascii_of_N (Z.to_N (48 + n mod 10))) EmptyString)%string
  end.

(** [d.strftime('%Y-%m-%d')] for the date of ordinal [d] (years of four
    digits). *)
Definition strftime (d : Z) : string :=
  let '(y, m, dd) := ord2ymd d in
  (zero_padded 4 y ++ "-" ++ zero_padded 2 m ++ "-" ++ zero_padded 2 dd)%string.

(** * Values read from JSON *)

#[local] Unset Elimination Schemes.

(** What [json.load] and [response.json()] return. A number is kept as
    the float of its value (exact for the integers below [2^53]). A string
    carries, next to its text, what [float] makes of that text: [Some x]
    when [float(s)] is [x], [None] when it raises [ValueError]. [JObj]
    lists the items of a dict, keys distinct. *)
Inductive json : Type :=
| JNull
| JBool (b : bool)
| JNum (x : PyFloat.float)
| JStr (s : string) (as_float : option PyFloat.float)
| JArr (xs : list json)
| JObj (items : list (string * json)).
#[local] Set Elimination Schemes.

Fixpoint assoc (key : string) (items : list (string * json)) : option json :=
  match items with
  | [] => None
  | (k, v) :: items' => if String.eqb k key then Some v else assoc key items'
  end.

(** [v.get(key, default)]. *)
Definition py_get (v : json) (key : string) (default : json) : result json :=
  match v with
  | JObj items =>
      match assoc key items with
      | Some x => Ok x
      | None => Ok default
      end
  | _ => Raise AttributeError
  end.

(** [v[key]] for a string [key]. *)
Definition py_getitem (v : json) (key : string) : result json :=
  match v with
  | JObj items =>
      match assoc key items with
      | Some x => Ok x
      | None => Raise KeyError
      end
  | _ => Raise TypeError
  end.

Definition is_zero (x : PyFloat.float) : bool :=
  match x with S754_zero _ => true | _ => false end.

(** Truth value of [v], as [if not v] tests it. *)
Definition truthy (v : json) : bool :=
  match v with
  | JNull => false
  | JBool b => b
  | JNum x => negb (is_zero x)
  | JStr s _ => negb (String.eqb s "")
  | JArr xs => match xs with [] => false | _ => true end
  | JObj items => match items with [] => false | _ => true end
  end.

(** [float(v)]. *)
Definition py_float (v : json) : result PyFloat.float :=
  match v with
  | JNum x => Ok x
  | JBool b => Ok (PyFloat.of_Z (if b then 1 else 0))
  | JStr _ (Some x) => Ok x
  | JStr _ None => Raise ValueError
  | JNull | JArr _ | JObj _ => Raise TypeError
  end.

(** [x < v] for a float [x]. *)
Definition py_float_lt (x : PyFloat.float) (v : json) : result bool :=
  match v with
  | JNum y => Ok (x <?f y)
  | JBool b => Ok (x <?f PyFloat.of_Z (if b then 1 else 0))
  | _ => Raise TypeError
  end.

(** [f"{v:.2f}"], for its exceptions only. *)
Definition py_format_2f (v : json) : result unit :=
  match v with
  | JNum _ | JBool _ => Ok tt
  | JStr _ _ => Raise ValueError
  | JNull | JArr _ | JObj _ => Raise TypeError
  end.

(** A JSON file on disk, up to what [os.path.exists], [open] and
    [json.load] see of it: missing; present and not readable; present and
    empty; present with text that is not JSON; present with the text of a
    value. *)
Inductive json_file : Type :=
| Missing
| Unreadable
| Truncated
| Garbage
| Holds (v : json).

(** [os.path.exists(path)]. *)
Definition path_exists (f : json_file) : bool :=
  match f with Missing => false | _ => true end.

(** [open(path, "r")]. *)
Definition open_r (f : json_file) : result unit :=
  match f with
  | Missing | Unreadable => Raise OSError
  | _ => Ok tt
  end.

(** [json.load(f)] on the open file. *)
Definition json_load (f : json_file) : result json :=
  match f with
  | Holds v => Ok v
  | _ => Raise JSONDecodeError
  end.

(** * The scraper: claude.py *)

Module Claude.

(** The dict a search returns: the keys ['price'], ['airline'],
    ['duration'], ['departure_date'], ['return_date'] and, from Kayak
    only, ['source']. *)
Record quote : Type := {
  price : PyFloat.float;
  airline : string;
  duration : string;
  departure_date : string;
  return_date : string;
  source : option string
}.

(** What the scraper does, in order: the searches and the delays of
    [check_all_dates], and the attributes of [self] that
    [load_price_history] assigns. *)
Inductive event : Type :=
| SearchGoogle (departure_date return_date : string)
| SearchKayak (departure_date return_date : string)
| Sleep (seconds : Z)
| SetPriceHistory (v : json)
| SetBestPrice (v : json)
| SetBestFlightInfo (v : json).

(** One flight card of the Google results page: the text of its price
    element ([find_element(...).text], which raises when there is none)
    and its details, airline and duration (the inner [try] block). *)
Record flight_element : Type := {
  price_text : result string;
  details : result (string * string)
}.

(** What the browser does during one call of [search_google_flights]. *)
Record google_session : Type := {
  g_setup_driver : result unit;
  g_get : result unit;
  g_nonstop_filter : result unit;
  g_wait_results : result unit;
  g_find_elements : result (list flight_element)
}.

(** What the browser does during one call of [search_kayak];
    [k_security_check] is the test
    ["security check" in driver.page_source.lower()], each price element
    is the outcome of reading its [.text]. *)
Record kayak_session : Type := {
  k_setup_driver : result unit;
  k_get : result unit;
  k_security_check : result bool;
  k_wait_results : result unit;
  k_find_elements : result (list (result string))
}.

(** The sites, as they answer a search for a pair of dates. *)
Record world : Type := {
  google : string -> string -> google_session;
  kayak : string -> string -> kayak_session
}.

(** The fields of [self] that the discovery reads. *)
Record scraper : Type := {
  search_days : Z
}.

Definition Py (A : Type) : Type := M event A.

(** [min(history, key=lambda x: x['price'])]: each key is computed and
    compared with the key of the element held so far. The keys are
    arbitrary values; [lt] is [<] of Python on two of them, which raises
    [TypeError] on values it does not order. The elements of a string or of
    a dict are strings, which the key cannot subscript by ['price']. *)
Definition min_by_price (lt : json -> json -> result bool) (history : json) : Py json :=
  match history with
  | JArr [] => raise ValueError
  | JArr (x :: xs) =>
      k <- lift (py_getitem x "price") ;;
      best <-
        for_each xs
          (fun item best =>
             k' <- lift (py_getitem item "price") ;;
             below <- lift (lt k' (snd best)) ;;
             ret (if (below : bool) then (item, k') else best))
          (x, k) ;;
      ret (fst best)
  | JStr s _ => if String.eqb s "" then raise ValueError else raise TypeError
  | JObj items => match items with [] => raise ValueError | _ => raise TypeError end
  | JNull | JBool _ | JNum _ => raise TypeError
  end.

(** [load_price_history]: lines 57-70, on the file [price_history.json].
    The attributes [self.best_price] (initially [float('inf')]),
    [self.best_flight_info] and [self.price_history] change by the
    assignments recorded in the trace. *)
Definition load_price_history (lt : json -> json -> result bool) (file : json_file)
    : Py unit :=
  try_except
    (if path_exists file then
       lift (open_r file) ;;;
       history <- lift (json_load file) ;;
       emit (SetPriceHistory history) ;;;
       if truthy history then
         best_entry <- min_by_price lt history ;;
         best_price <- lift (py_getitem best_entry "price") ;;
         emit (SetBestPrice best_price) ;;;
         best_flight_info <- lift (py_getitem best_entry "flight_info") ;;
         emit (SetBestFlightInfo best_flight_info)
       else ret tt
     else ret tt)
    is_Exception
    (fun _ => ret tt).

(** [parse_price]: lines 89-95. [float] of the matched text without its
    commas raises [ValueError] when the match holds commas only. *)
Definition parse_price (price_text : string) : result PyFloat.float :=
  match re_search_digits_commas price_text with
  | Some matched => float_of_digits (remove_commas matched)
  | None => Ok PyFloat.inf
  end.

(** The body of the loop over the flight cards, lines 158-189. *)
Definition parse_flight (departure_date return_date : string)
    (flight : flight_element) : Py quote :=
  text <- lift (price_text flight) ;;
  price <- lift (parse_price text) ;;
  d <- try_except (lift (details flight)) is_Exception
         (fun _ => ret ("Unknown", "Unknown")) ;;
  ret {| price := price;
         airline := fst d;
         duration := snd d;
         departure_date := departure_date;
         return_date := return_date;
         source := None |}.

(** [search_google_flights]: lines 97-207. [driver.quit()] of the
    [finally] block is taken not to raise (Selenium's Chromium driver
    swallows the errors of [quit]) and has no event of its own. *)
Definition search_google_flights (w : world)
    (departure_date return_date : string) : Py (option quote) :=
  emit (SearchGoogle departure_date return_date) ;;;
  let s := google w departure_date return_date in
  try_except
    (lift (g_setup_driver s) ;;;
     lift (g_get s) ;;;
     try_except (lift (g_nonstop_filter s)) is_Exception (fun _ => ret tt) ;;;
     loaded <- try_except (lift (g_wait_results s) ;;; ret true)
                 is_TimeoutException (fun _ => ret false) ;;
     if negb loaded then ret None
     else
       flight_elements <- lift (g_find_elements s) ;;
       flight_results <-
         for_each (py_take 5 flight_elements)
           (fun flight flight_results =>
              try_except
                (q <- parse_flight departure_date return_date flight ;;
                 ret (flight_results ++ [q]))
                is_Exception
                (fun _ => ret flight_results))
           [] ;;
       ret (py_min price flight_results))
    is_Exception
    (fun _ => ret None).

(** [search_kayak]: lines 209-268. *)
Definition search_kayak (w : world)
    (departure_date return_date : string) : Py (option quote) :=
  emit (SearchKayak departure_date return_date) ;;;
  let s := kayak w departure_date return_date in
  try_except
    (lift (k_setup_driver s) ;;;
     lift (k_get s) ;;;
     blocked <- lift (k_security_check s) ;;
     if (blocked : bool) then ret None
     else
       try_except
         (lift (k_wait_results s) ;;;
          price_elements <- lift (k_find_elements s) ;;
          prices <-
            for_each (py_take 5 price_elements)
              (fun elem prices =>
                 try_except
                   (text <- lift elem ;;
                    price <- lift (parse_price text) ;;
                    if price <?f PyFloat.inf then ret (prices ++ [price])
                    else ret prices)
                   is_Exception
                   (fun _ => ret prices))
              [] ;;
          match py_min (fun p => p) prices with
          | Some best_price =>
              ret (Some {| price := best_price;
                           airline := "Multiple";
                           duration := "Check website";
                           departure_date := departure_date;
                           return_date := return_date;
                           source := Some "Kayak" |})
          | None => ret None
          end)
         is_TimeoutException
         (fun _ => ret None))
    is_Exception
    (fun _ => ret None).

(** The test and the update of lines 292-294, on the loop state
    [(best_flight, best_price)]. *)
Definition update_best (best : option quote * PyFloat.float)
    (flight_info : option quote) : option quote * PyFloat.float :=
  match flight_info with
  | Some q => if price q <?f snd best then (Some q, price q) else best
  | None => best
  end.

(** The body of the inner loop of [check_all_dates], lines 283-297. *)
Definition check_pair (w : world) (today dep_days trip_length : Z)
    (best : option quote * PyFloat.float) : Py (option quote * PyFloat.float) :=
  let departure_date := strftime (today + dep_days) in
  let return_date := strftime (today + (dep_days + trip_length)) in
  flight_info <- search_google_flights w departure_date return_date ;;
  flight_info <- match flight_info with
                 | None => search_kayak w departure_date return_date
                 | Some _ => ret flight_info
                 end ;;
  let best' := update_best best flight_info in
  emit (Sleep 3) ;;;
  ret best'.

(** [check_all_dates]: lines 270-299; [today] is the date of
    [datetime.now()]. *)
Definition check_all_dates (self : scraper) (w : world) (today : Z) : Py (option quote) :=
  best <-
    for_each (py_range 1 (search_days self + 1))
      (fun dep_days best =>
         for_each (py_range 2 8)
           (fun trip_length best => check_pair w today dep_days trip_length best)
           best)
      (None, PyFloat.inf) ;;
  ret (fst best).

End Claude.

(** * The API client: weeks.py *)

Module Weeks.

Definition ORIGIN_CITY_CODE : string := "AUS".
Definition DESTINATION_CITY_CODE : string := "SFO".
Definition TRIP_DURATION_DAYS : Z := 14.
Definition SEARCH_WITHIN_DAYS : Z := 14.
Definition CHECK_INTERVAL_SECONDS : Z := 3600.

(** The dict [cheapest_flight]: the keys ['price'], ['departure_date'],
    ['return_date'] and ['link']. *)
Record quote : Type := {
  price : PyFloat.float;
  departure_date : string;
  return_date : string;
  link : string
}.

(** The dict, as [json.dump] writes it and [json.load] reads it back. *)
Definition to_json (q : quote) : json :=
  JObj [("price", JNum (price q));
        ("departure_date", JStr (departure_date q) None);
        ("return_date", JStr (return_date q) None);
        ("link", JStr (link q) None)].

(** A response of [requests.get]: its status and its body, [None] when
    the body is not JSON. *)
Record response : Type := {
  status_code : Z;
  body : option json
}.

Inductive event : Type :=
| Get (departure_date return_date : string)
| Sleep (milliseconds : Z)
| LedgerFile (now : json_file)
| SendEmail (flight_info : quote)
| Sent (flight_info : quote).

(** What has reached the ledger file when writing the record out fails:
    nothing, a part of its text, or all of it (the failure is then that of
    closing the file). *)
Inductive written : Type :=
| NothingWritten
| PartWritten
| AllWritten.

(** The environment of one cycle of [main]: the ledger file as the cycle
    finds it, the API's answer for a pair of dates, whether opening the
    ledger for writing and writing it out succeed, what a write that fails
    leaves behind, whether the mail goes out. *)
Record world : Type := {
  ledger : json_file;
  api : string -> string -> result response;
  open_w : result unit;
  dump : result unit;
  written_on_failure : written;
  smtp : result unit
}.

Definition Py (A : Type) : Type := M event A.

(** [response.raise_for_status()]. *)
Definition raise_for_status (r : response) : result unit :=
  if (400 <=? status_code r) && (status_code r <? 600) then Raise HTTPError
  else Ok tt.

(** [response.json()]; its decoding error is a [RequestException]
    (requests 2.27 and later). *)
Definition response_json (r : response) : result json :=
  match body r with
  | Some v => Ok v
  | None => Raise RequestsJSONDecodeError
  end.

(** The key of line 112, [float(x["price"]["total"])]. *)
Definition offer_total (x : json) : result PyFloat.float :=
  match py_getitem x "price" with
  | Ok p =>
      match py_getitem p "total" with
      | Ok t => py_float t
      | Raise e => Raise e
      end
  | Raise e => Raise e
  end.

(** [min(offers, key=lambda x: float(x["price"]["total"]))]: the keys are
    computed in order and the first exception wins. The elements of a
    string or of a dict are strings, which the key cannot subscript by
    ["price"]; other values cannot be iterated. *)
Definition min_offer (offers : json) : Py json :=
  match offers with
  | JArr xs =>
      keyed <- map_M (fun x => k <- lift (offer_total x) ;; ret (x, k)) xs ;;
      match py_min snd keyed with
      | Some best => ret (fst best)
      | None => raise ValueError
      end
  | JStr s _ => if String.eqb s "" then raise ValueError else raise TypeError
  | JObj items => match items with [] => raise ValueError | _ => raise TypeError end
  | JNull | JBool _ | JNum _ => raise TypeError
  end.

Definition make_link (origin destination departure_date return_date : string) : string :=
  ("https://www.google.com/flights?hl=en#flt=" ++ origin ++ "." ++ destination
     ++ "." ++ departure_date ++ "*" ++ destination ++ "." ++ origin ++ "."
     ++ return_date)%string.

(** Lines 100-113 of the [try] block of [find_cheapest_flight]: the
    request and the price of the cheapest offer of the batch; [None]
    stands for leaving the turn by [continue]. *)
Definition fetch_price (w : world) (departure_date return_date : string)
    : Py (option PyFloat.float) :=
  emit (Get departure_date return_date) ;;;
  response <- lift (api w departure_date return_date) ;;
  if status_code response =? 400 then ret None
  else
    lift (raise_for_status response) ;;;
    v <- lift (response_json response) ;;
    offers <- lift (py_get v "data" (JArr [])) ;;
    if negb (truthy offers) then ret None
    else
      current_best_offer <- min_offer offers ;;
      current_price <- lift (offer_total current_best_offer) ;;
      ret (Some current_price).

(** One turn of the loop of [find_cheapest_flight], lines 81-129. The
    [try] block yields whether it left by [continue] (which skips the
    delay) and the cheapest flight so far. *)
Definition probe (w : world) (origin destination : string)
    (current_date trip_duration : Z) (cheapest_flight : option quote)
    : Py (option quote) :=
  let departure_date := strftime current_date in
  let return_date := strftime (current_date + trip_duration) in
  r <- try_except
         (fetched <- fetch_price w departure_date return_date ;;
          match fetched with
          | None => ret (true, cheapest_flight)
          | Some current_price =>
              if match cheapest_flight with
                 | None => true
                 | Some c => current_price <?f price c
                 end
              then ret (false,
                        Some {| price := current_price;
                                departure_date := departure_date;
                                return_date := return_date;
                                link := make_link origin destination
                                          departure_date return_date |})
              else ret (false, cheapest_flight)
          end)
         is_RequestException
         (fun _ => ret (false, cheapest_flight)) ;;
  (if fst r then ret tt else emit (Sleep 300)) ;;;
  ret (snd r).

(** [while current_date <= end_date], with the number of turns left. *)
Fixpoint sweep (w : world) (origin destination : string) (turns : nat)
    (current_date trip_duration : Z) (cheapest_flight : option quote)
    : Py (option quote) :=
  match turns with
  | O => ret cheapest_flight
  | S turns' =>
      c <- probe w origin destination current_date trip_duration cheapest_flight ;;
      sweep w origin destination turns' (current_date + 1) trip_duration c
  end.

(** [find_cheapest_flight]: lines 75-131. The token only travels in a
    header and is left out. Every path through the loop body adds one day
    to [current_date], so the loop makes [end_date - start_date + 1]
    turns, none when that is not positive. *)
Definition find_cheapest_flight (w : world) (origin destination : string)
    (start_date end_date trip_duration : Z) : Py (option quote) :=
  sweep w origin destination (Z.to_nat (end_date - start_date + 1))
    start_date trip_duration None.

(** [send_email_notification]: lines 133-156. *)
Definition send_email_notification (w : world) (flight_info : quote) : Py unit :=
  emit (SendEmail flight_info) ;;;
  try_except (lift (smtp w) ;;; emit (Sent flight_info)) is_Exception
    (fun _ => ret tt).

(** [{"price": float('inf')}], the record of a ledger that does not
    exist yet. *)
Definition no_record : json := JObj [("price", JNum PyFloat.inf)].

(** [load_best_price]: lines 158-163. *)
Definition load_best_price (w : world) : Py json :=
  if path_exists (ledger w) then
    lift (open_r (ledger w)) ;;;
    lift (json_load (ledger w))
  else ret no_record.

(** [save_best_price]: lines 165-168. Opening with mode ["w"] empties
    the file; the text of the record, a few hundred bytes, sits in the
    buffer of the file object until the [with] block closes the file.
    [dump w] is the writing out and the closing together. When it fails the
    exception leaves the function, and the file holds what had reached it:
    nothing, a proper prefix of the text (which is not JSON), or the whole
    text. *)
Definition save_best_price (w : world) (flight_info : quote) : Py unit :=
  lift (open_w w) ;;;
  emit (LedgerFile Truncated) ;;;
  match dump w with
  | Ok _ => emit (LedgerFile (Holds (to_json flight_info)))
  | Raise e =>
      match written_on_failure w with
      | NothingWritten => ret tt
      | PartWritten => emit (LedgerFile Garbage)
      | AllWritten => emit (LedgerFile (Holds (to_json flight_info)))
      end ;;;
      raise e
  end.

(** The test of line 198,
    [current_cheapest and current_cheapest["price"] < all_time_best["price"]]. *)
Definition is_new_record (current_cheapest : option quote) (all_time_best : json)
    : Py bool :=
  match current_cheapest with
  | None => ret false
  | Some c =>
      best_price <- lift (py_getitem all_time_best "price") ;;
      lift (py_float_lt (price c) best_price)
  end.

(** The first half of a turn of the loop of [main], lines 183-198: load
    the ledger, print its price, search, and evaluate the test of the
    [if]; [today] is [date.today()]. *)
Definition main_search (w : world) (today : Z) : Py (option quote * bool) :=
  all_time_best <- load_best_price w ;;
  shown <- lift (py_getitem all_time_best "price") ;;
  lift (py_format_2f shown) ;;;
  let search_start_date := today + 1 in
  let search_end_date := today + SEARCH_WITHIN_DAYS in
  current_cheapest <-
    find_cheapest_flight w ORIGIN_CITY_CODE DESTINATION_CITY_CODE
      search_start_date search_end_date TRIP_DURATION_DAYS ;;
  new_record <- is_new_record current_cheapest all_time_best ;;
  ret (current_cheapest, new_record).

(** One turn of the loop of [main], lines 180-209. *)
Definition main_cycle (w : world) (today : Z) : Py unit :=
  found <- main_search w today ;;
  match found with
  | (Some current_cheapest, true) =>
      save_best_price w current_cheapest ;;;
      send_email_notification w current_cheapest
  | _ => ret tt
  end ;;;
  emit (Sleep (CHECK_INTERVAL_SECONDS * 1000)).

End Weeks.

(** * Vocabulary of the properties *)

(** [q] is the first cheapest element of [qs]: no element is priced below
    it, and none before it is priced as low. Both comparisons are Python's,
    so that for prices that are numbers [q] is the first element of minimum
    price. *)
Definition first_cheapest {A} (price : A -> PyFloat.float) (q : A) (qs : list A) : Prop :=
  exists before after,
    qs = before ++ q :: after
    /\ Forall (fun x => SFleb (price x) (price q) = false) before
    /\ Forall (fun x => (price x <?f price q) = false) after.

(** What a discovery returned, against the quotes it had to choose from. *)
Definition cheapest_of {A} (price : A -> PyFloat.float) (returned : result (option A))
    (qs : list A) : Prop :=
  match returned with
  | Ok (Some q) => first_cheapest price q qs
  | Ok None => qs = []
  | Raise _ => False
  end.

Definition option_list {A} (o : option A) : list A :=
  match o with Some a => [a] | None => [] end.

Module ClaudeSpec.
Import Claude.

(** The quote of the fallback chain for a pair of dates: the one of
    Google when it returns one, else what Kayak returns. *)
Definition lookup (w : world) (departure_date return_date : string) : option quote :=
  match outcome (search_google_flights w departure_date return_date) with
  | Ok (Some q) => Some q
  | _ =>
      match outcome (search_kayak w departure_date return_date) with
      | Ok o => o
      | Raise _ => None
      end
  end.

(** The day offsets of the date pairs, in generation order: departures
    [1 .. search_days] days ahead, and for each the stays of 2 to 7
    days. *)
Definition offsets (search_days : Z) : list (Z * Z) :=
  flat_map (fun dep_days => map (fun trip_length => (dep_days, trip_length)) (py_range 2 8))
    (py_range 1 (search_days + 1)).

Definition date_pair (today : Z) (o : Z * Z) : string * string :=
  (strftime (today + fst o), strftime (today + (fst o + snd o))).

(** Every quote obtained over the date pairs, in generation order. *)
Definition quotes_obtained (self : scraper) (w : world) (today : Z) : list quote :=
  flat_map (fun o => option_list (lookup w (fst (date_pair today o)) (snd (date_pair today o))))
    (offsets (search_days self)).

(** The calls and the delay that one date pair causes. *)
Definition pair_events (w : world) (departure_date return_date : string) : list event :=
  SearchGoogle departure_date return_date
    :: (match outcome (search_google_flights w departure_date return_date) with
        | Ok (Some _) => []
        | _ => [SearchKayak departure_date return_date]
        end
        ++ [Sleep 3]).

(** The date pairs that the calls of a trace were made for. *)
Definition searched (ev : event) : list (string * string) :=
  match ev with
  | SearchGoogle d r | SearchKayak d r => [(d, r)]
  | _ => []
  end.

Definition googled (ev : event) : list (string * string) :=
  match ev with
  | SearchGoogle d r => [(d, r)]
  | _ => []
  end.

Definition below_inf (q : quote) : bool := price q <?f PyFloat.inf.
End ClaudeSpec.

Module WeeksSpec.
Import Weeks.

(** The quote of the departure [current_date] at the price [p]: its
    dates, and the link of lines 118-119. *)
Definition quote_at (origin destination : string) (current_date trip_duration : Z)
    (p : PyFloat.float) : quote :=
  {| price := p;
     departure_date := strftime current_date;
     return_date := strftime (current_date + trip_duration);
     link := make_link origin destination (strftime current_date)
               (strftime (current_date + trip_duration)) |}.

(** The quote obtained for the departure [current_date]: the price that
    the request for its dates gave, as a quote of that departure; none when
    the request gave no price or failed on a [RequestException]; any other
    exception is the lookup's own. *)
Definition lookup (w : world) (origin destination : string)
    (current_date trip_duration : Z) : result (option quote) :=
  match outcome (fetch_price w (strftime current_date)
                   (strftime (current_date + trip_duration))) with
  | Ok (Some p) => Ok (Some (quote_at origin destination current_date trip_duration p))
  | Ok None => Ok None
  | Raise e => if is_RequestException e then Ok None else Raise e
  end.



(** The cheapest flight after a turn that found [found], lines
    115-121: a first quote is taken, a later one only when cheaper. *)
Definition keep_cheaper (cheapest_flight found : option quote) : option quote :=
  match found, cheapest_flight with
  | None, _ => cheapest_flight
  | Some q, None => Some q
  | Some q, Some c => if price q <?f price c then Some q else Some c
  end.

(** Every quote obtained over the departures [start_date .. end_date]. *)
Definition quotes_obtained (w : world) (origin destination : string)
    (start_date end_date trip_duration : Z) : list quote :=
  flat_map (fun d =>
              match lookup w origin destination d trip_duration with
              | Ok o => option_list o
              | Raise _ => []
              end)
    (py_range start_date (end_date + 1)).

Definition probed (ev : event) : list (string * string) :=
  match ev with
  | Get d r => [(d, r)]
  | _ => []
  end.

(** The states of the ledger file that a trace goes through. *)
Definition file_states (ev : event) : list json_file :=
  match ev with
  | LedgerFile f => [f]
  | _ => []
  end.

Definition emails (ev : event) : list quote :=
  match ev with
  | SendEmail q => [q]
  | _ => []
  end.

(** A commit is atomic when a reader of the ledger file sees, at any
    moment, the record it held before or the new one. *)
Definition atomic_commit (w : world) (flight_info : quote) : Prop :=
  Forall (fun f => f = ledger w \/ f = Holds (to_json flight_info))
    (flat_map file_states (trace (save_best_price w flight_info))).
End WeeksSpec.

(** * The rest of the API client: configuration, token, the loop of main *)

(** Every character of [s] satisfies [p]. *)
Fixpoint all_chars (p : ascii -> bool) (s : string) : bool :=
  match s with
  | EmptyString => true
  | String c s' => p c && all_chars p s'
  end.

Module Config.

(** [c.isspace()] for a code point below 256: what [str.strip()] removes. *)
Definition is_space (c : ascii) : bool :=
  let n := N_of_ascii c in
  ((9 <=? n) && (n <=? 13) || (28 <=? n) && (n <=? 32) || (n =? 133) || (n =? 160))%N.

Definition is_equals (c : ascii) : bool := (N_of_ascii c =? 61)%N.

(** [s.lstrip()]. *)
Fixpoint lstrip (s : string) : string :=
  match s with
  | EmptyString => EmptyString
  | String c s' => if is_space c then lstrip s' else s
  end.

(** [s.rstrip()]. *)
Fixpoint rstrip (s : string) : string :=
  match s with
  | EmptyString => EmptyString
  | String c s' =>
      match rstrip s' with
      | EmptyString => if is_space c then EmptyString else String c EmptyString
      | r => String c r
      end
  end.

(** [s.strip()]. *)
Definition strip (s : string) : string := rstrip (lstrip s).

(** [s.startswith('#')]. *)
Definition is_comment (s : string) : bool :=
  match s with
  | String c _ => (N_of_ascii c =? 35)%N
  | EmptyString => false
  end.

(** [s.split('=', 1)], when it has two parts: the text before the first
    ['='] and the text after it; [None] when [s] has no ['=']. *)
Fixpoint split_once (s : string) : option (string * string) :=
  match s with
  | EmptyString => None
  | String c s' =>
      if is_equals c then Some (EmptyString, s')
      else
        match split_once s' with
        | Some (before, after) => Some (String c before, after)
        | None => None
        end
  end.

(** [s] has no ['=']. *)
Definition no_equals (s : string) : bool := all_chars (fun c => negb (is_equals c)) s.

(** [s] is white space only. *)
Definition blank (s : string) : bool := all_chars is_space s.

(** The line is neither blank nor a comment: the test of line 18. *)
Definition is_entry (line : string) : bool :=
  negb (String.eqb (strip line) "") && negb (is_comment (strip line)).

Definition is_none {A} (o : option A) : bool :=
  match o with None => true | Some _ => false end.

(** A dict of strings, as its items in insertion order. *)
Definition dict : Type := list (string * string).

(** [d[key] = value]. *)
Fixpoint dict_set (key value : string) (d : dict) : dict :=
  match d with
  | [] => [(key, value)]
  | (k, v) :: d' =>
      if String.eqb k key then (k, value) :: d' else (k, v) :: dict_set key value d'
  end.

(** [d.get(key)]. *)
Fixpoint dict_get (key : string) (d : dict) : option string :=
  match d with
  | [] => None
  | (k, v) :: d' => if String.eqb k key then Some v else dict_get key d'
  end.

(** The file [config.txt]: missing, present and not readable as text, or
    the lines that iterating over it yields. *)
Inductive text_file : Type :=
| NoTextFile
| UnreadableText
| TextLines (lines : list string).

(** The loop of [load_config], lines 16-20: unpacking the one part of a
    line without ['='] into [key, value] raises [ValueError]. *)
Fixpoint read_lines (lines : list string) (config : dict) : result dict :=
  match lines with
  | [] => Ok config
  | line :: rest =>
      if is_entry line then
        match split_once (strip line) with
        | Some (key, value) => read_lines rest (dict_set (strip key) (strip value) config)
        | None => Raise ValueError
        end
      else read_lines rest config
  end.

(** [load_config]: lines 11-27. Both handlers return [None]. *)
Definition load_config (file : text_file) : option dict :=
  match
    match file with
    | NoTextFile | UnreadableText => Raise OSError
    | TextLines lines => read_lines lines []
    end
  with
  | Ok config => Some config
  | Raise _ => None
  end.

(** The settings that the module reads out of the loaded configuration,
    lines 36-42. *)
Record settings : Type := {
  AMADEUS_API_KEY : option string;
  AMADEUS_API_SECRET : option string;
  SENDER_EMAIL : option string;
  RECEIVER_EMAIL : option string;
  EMAIL_APP_PASSWORD : option string
}.

(** Lines 30-42: the script stops ([exit(1)], here [None]) when
    [load_config] returned [None] or an empty dict. *)
Definition startup (file : text_file) : option settings :=
  match load_config file with
  | None | Some [] => None
  | Some config =>
      Some {| AMADEUS_API_KEY := dict_get "AMADEUS_API_KEY" config;
              AMADEUS_API_SECRET := dict_get "AMADEUS_API_SECRET" config;
              SENDER_EMAIL := dict_get "SENDER_EMAIL" config;
              RECEIVER_EMAIL := dict_get "RECEIVER_EMAIL" config;
              EMAIL_APP_PASSWORD := dict_get "EMAIL_APP_PASSWORD" config |}
  end.

End Config.

Module WeeksMain.
Import Weeks.

(** [get_amadeus_access_token]: lines 57-73, on what [requests.post]
    does. *)
Definition get_amadeus_access_token (post : result response) : Py (option json) :=
  try_except
    (response <- lift post ;;
     lift (raise_for_status response) ;;;
     v <- lift (response_json response) ;;
     access_token <- lift (py_getitem v "access_token") ;;
     ret (Some access_token))
    is_RequestException
    (fun _ => ret None).

(** What one turn of the loop of [main] meets: the date, the answers of
    the API, the faults of the file system and of the mail. *)
Record cycle_env : Type := {
  today : Z;
  api : string -> string -> result response;
  open_w : result unit;
  dump : result unit;
  written_on_failure : written;
  smtp : result unit
}.

Definition world_at (ledger : json_file) (env : cycle_env) : world :=
  {| Weeks.ledger := ledger;
     Weeks.api := api env;
     Weeks.open_w := open_w env;
     Weeks.dump := dump env;
     Weeks.written_on_failure := written_on_failure env;
     Weeks.smtp := smtp env |}.

Definition file_written (ev : event) : list json_file :=
  match ev with
  | LedgerFile f => [f]
  | _ => []
  end.

(** The ledger file after the events [t], when it was [ledger] before and
    nothing else writes it. *)
Definition ledger_after (ledger : json_file) (t : list event) : json_file :=
  last (flat_map file_written t) ledger.

(** The loop [while True] of [main], lines 179-209, for the turns that
    [cycles] describes: each turn finds the ledger file as the turn before
    left it, and an exception ends the loop. *)
Fixpoint main_loop (ledger : json_file) (cycles : list cycle_env) : Py unit :=
  match cycles with
  | [] => ret tt
  | env :: rest =>
      let turn := main_cycle (world_at ledger env) (today env) in
      turn ;;; main_loop (ledger_after ledger (trace turn)) rest
  end.

(** [main]: lines 171-209. *)
Definition main (post : result response) (ledger : json_file) (cycles : list cycle_env)
    : Py unit :=
  access_token <- get_amadeus_access_token post ;;
  if match access_token with
     | Some token => truthy token
     | None => false
     end
  then main_loop ledger cycles
  else ret tt.

(** The prices that the mails of a trace announce, in order. *)
Definition announced (ev : event) : list PyFloat.float :=
  match ev with
  | SendEmail q => [price q]
  | _ => []
  end.

Definition requested (ev : event) : list (string * string) :=
  match ev with
  | Get d r => [(d, r)]
  | _ => []
  end.

Definition delays (ev : event) : list Z :=
  match ev with
  | Sleep ms => [ms]
  | _ => []
  end.

End WeeksMain.

(** * More vocabulary for the scraper *)

Module ClaudeMore.
Import Claude.

(** The quote that a flight card stands for, read off the card: the
    price that [parse_price] finds in the text of its price element, its
    airline and duration or ["Unknown"] for both when they cannot be read
    together, and the dates asked for; none when the price element cannot be
    read or [parse_price] raises on its text. *)
Definition card_quote (departure_date return_date : string) (card : flight_element)
    : list quote :=
  match price_text card with
  | Ok text =>
      match parse_price text with
      | Ok p =>
          [{| price := p;
              airline := match details card with Ok x => fst x | Raise _ => "Unknown" end;
              duration := match details card with Ok x => snd x | Raise _ => "Unknown" end;
              departure_date := departure_date;
              return_date := return_date;
              source := None |}]
      | Raise _ => []
      end
  | Raise _ => []
  end.

(** The quotes of the first five flight cards of a results page. *)
Definition parsed_cards (departure_date return_date : string)
    (cards : list flight_element) : list quote :=
  flat_map (card_quote departure_date return_date) (firstn 5 cards).

(** What one price element contributes to the prices that [search_kayak]
    keeps. *)
Definition kept_price (elem : result string) : list PyFloat.float :=
  match elem with
  | Ok text =>
      match parse_price text with
      | Ok p => if p <?f PyFloat.inf then [p] else []
      | Raise _ => []
      end
  | Raise _ => []
  end.

(** The quote that [search_kayak] builds around a price. *)
Definition kayak_quote (departure_date return_date : string) (p : PyFloat.float) : quote :=
  {| price := p;
     airline := "Multiple";
     duration := "Check website";
     departure_date := departure_date;
     return_date := return_date;
     source := Some "Kayak" |}.

(** The prices of the price elements that [search_kayak] keeps: of the
    first five, those that parse to a price below infinity. *)
Definition kept_prices (elements : list (result string)) : list PyFloat.float :=
  flat_map kept_price (py_take 5 elements).

(** The price of an entry of the price history, when it is a number. *)
Definition entry_price (entry : json) : PyFloat.float :=
  match py_getitem entry "price" with
  | Ok (JNum p) => p
  | _ => S754_nan
  end.

(** The entry has a ['price'] that is a number. *)
Definition has_numeric_price (entry : json) : bool :=
  match py_getitem entry "price" with
  | Ok (JNum _) => true
  | _ => false
  end.

Definition kayak_searches (ev : event) : list (string * string) :=
  match ev with
  | SearchKayak d r => [(d, r)]
  | _ => []
  end.

Definition pauses (ev : event) : list Z :=
  match ev with
  | Sleep s => [s]
  | _ => []
  end.

Definition digit_or_comma (c : ascii) : bool := is_digit c || is_comma c.

(** [s] is empty or starts with a character that is neither a digit nor a
    comma. *)
Definition stops_run (s : string) : bool :=
  match s with
  | EmptyString => true
  | String c _ => negb (digit_or_comma c)
  end.

End ClaudeMore.

(** * Concrete situations *)

Module Scenario.

(** 2025-01-09. *)
Definition today : Z := 739260.

(** A flight card whose price element has no text, as Selenium reports
    for an element that is not displayed. *)
Definition card_without_price : Claude.flight_element :=
  {| Claude.price_text := Ok "";
     Claude.details := Ok ("United", "3 hr 45 min") |}.

Definition card (text : string) : Claude.flight_element :=
  {| Claude.price_text := Ok text;
     Claude.details := Raise NoSuchElementException |}.

Definition google_page (cards : list Claude.flight_element) : Claude.google_session :=
  {| Claude.g_setup_driver := Ok tt;
     Claude.g_get := Ok tt;
     Claude.g_nonstop_filter := Raise TimeoutException;
     Claude.g_wait_results := Ok tt;
     Claude.g_find_elements := Ok cards |}.

Definition kayak_page (prices : list (result string)) : Claude.kayak_session :=
  {| Claude.k_setup_driver := Ok tt;
     Claude.k_get := Ok tt;
     Claude.k_security_check := Ok false;
     Claude.k_wait_results := Ok tt;
     Claude.k_find_elements := Ok prices |}.

Definition kayak_blocked : Claude.kayak_session :=
  {| Claude.k_setup_driver := Ok tt;
     Claude.k_get := Ok tt;
     Claude.k_security_check := Ok true;
     Claude.k_wait_results := Raise TimeoutException;
     Claude.k_find_elements := Raise WebDriverException |}.

(** Google shows, for every pair of dates, one card without a price
    text; Kayak answers with its security check. *)
Definition world_unpriced : Claude.world :=
  {| Claude.google := fun _ _ => google_page [card_without_price];
     Claude.kayak := fun _ _ => kayak_blocked |}.

(** The results of Google never show up. *)
Definition google_timeout : Claude.google_session :=
  {| Claude.g_setup_driver := Ok tt;
     Claude.g_get := Ok tt;
     Claude.g_nonstop_filter := Raise TimeoutException;
     Claude.g_wait_results := Raise TimeoutException;
     Claude.g_find_elements := Ok [] |}.

(** Google finds flights for departures on 2025-01-10 only; Kayak has a
    price for returns on 2025-01-13. *)
Definition world_mixed : Claude.world :=
  {| Claude.google :=
       fun d _ =>
         if String.eqb d "2025-01-10"
         then google_page [card "$1,234"; card ","; card "$250"]
         else google_timeout;
     Claude.kayak :=
       fun _ r =>
         if String.eqb r "2025-01-13"
         then kayak_page [Ok "$123"; Raise WebDriverException; Ok "free"]
         else kayak_page [] |}.

Definition two_days : Claude.scraper := {| Claude.search_days := 2 |}.

(** An offer of the API with the given total. *)
Definition offer (total : json) : json :=
  JObj [("id", JStr "1" (Some (PyFloat.of_Z 1)));
        ("price", JObj [("currency", JStr "USD" None); ("total", total)])].

Definition offers_response (offers : list json) : result Weeks.response :=
  Ok {| Weeks.status_code := 200;
        Weeks.body := Some (JObj [("data", JArr offers)]) |}.

(** The API has an offer at 250.00 for the departure of 2025-01-10, one
    at 249.99 for 2025-01-11, answers 400 for 2025-01-12, and fails
    otherwise. *)
Definition api_fares (d r : string) : result Weeks.response :=
  if String.eqb d "2025-01-10"
  then offers_response [offer (JStr "250.00" (Some (PyFloat.of_cents 25000)))]
  else if String.eqb d "2025-01-11"
  then offers_response [offer (JStr "300.10" (Some (PyFloat.of_cents 30010)));
                        offer (JStr "249.99" (Some (PyFloat.of_cents 24999)))]
  else if String.eqb d "2025-01-12"
  then Ok {| Weeks.status_code := 400; Weeks.body := None |}
  else Raise RequestException.

Definition world_fares : Weeks.world :=
  {| Weeks.ledger := Missing;
     Weeks.api := api_fares;
     Weeks.open_w := Ok tt;
     Weeks.dump := Ok tt;
     Weeks.written_on_failure := Weeks.NothingWritten;
     Weeks.smtp := Ok tt |}.

(** The API answers 200 with one offer that has no ['price']. *)
Definition world_malformed : Weeks.world :=
  {| Weeks.ledger := Missing;
     Weeks.api := fun _ _ => offers_response [JObj [("id", JStr "1" (Some (PyFloat.of_Z 1)))]];
     Weeks.open_w := Ok tt;
     Weeks.dump := Ok tt;
     Weeks.written_on_failure := Weeks.NothingWritten;
     Weeks.smtp := Ok tt |}.

(** The ledger file exists and is empty, as a commit interrupted after
    [open] leaves it. *)
Definition world_truncated : Weeks.world :=
  {| Weeks.ledger := Truncated;
     Weeks.api := api_fares;
     Weeks.open_w := Ok tt;
     Weeks.dump := Ok tt;
     Weeks.written_on_failure := Weeks.NothingWritten;
     Weeks.smtp := Ok tt |}.

Definition fare (cents : Z) (departure return_ : Z) : Weeks.quote :=
  {| Weeks.price := PyFloat.of_cents cents;
     Weeks.departure_date := strftime departure;
     Weeks.return_date := strftime return_;
     Weeks.link := Weeks.make_link Weeks.ORIGIN_CITY_CODE Weeks.DESTINATION_CITY_CODE
                     (strftime departure) (strftime return_) |}.

(** The ledger holds a record at 300.00. *)
Definition world_recorded : Weeks.world :=
  {| Weeks.ledger := Holds (Weeks.to_json (fare 30000 739200 739214));
     Weeks.api := api_fares;
     Weeks.open_w := Ok tt;
     Weeks.dump := Ok tt;
     Weeks.written_on_failure := Weeks.NothingWritten;
     Weeks.smtp := Ok tt |}.

(** The ledger holds a record at 249.99, the cheapest fare of
    [api_fares]. *)
Definition world_equal : Weeks.world :=
  {| Weeks.ledger := Holds (Weeks.to_json (fare 24999 739200 739214));
     Weeks.api := api_fares;
     Weeks.open_w := Ok tt;
     Weeks.dump := Ok tt;
     Weeks.written_on_failure := Weeks.NothingWritten;
     Weeks.smtp := Ok tt |}.

(** [<] of Python on two numbers read from JSON. *)
Definition lt_numbers (a b : json) : result bool :=
  match a, b with
  | JNum x, JNum y => Ok (x <?f y)
  | _, _ => Raise TypeError
  end.

Definition history_entry (cents : Z) (flight_info : json) : json :=
  JObj [("timestamp", JStr "2025-01-08T09:00:00" None);
        ("price", JNum (PyFloat.of_cents cents));
        ("flight_info", flight_info)].

(** The API has one offer for each of three departures, at 400, 350 and
    420. *)
Definition world_three : Weeks.world :=
  {| Weeks.ledger := Missing;
     Weeks.api :=
       fun d _ =>
         if String.eqb d "2025-01-10"
         then offers_response [offer (JStr "400.00" (Some (PyFloat.of_cents 40000)))]
         else if String.eqb d "2025-01-11"
         then offers_response [offer (JStr "350.00" (Some (PyFloat.of_cents 35000)))]
         else offers_response [offer (JStr "420.00" (Some (PyFloat.of_cents 42000)))];
     Weeks.open_w := Ok tt;
     Weeks.dump := Ok tt;
     Weeks.written_on_failure := Weeks.NothingWritten;
     Weeks.smtp := Ok tt |}.

End Scenario.

(** * Order of the floats *)

Section FloatOrder.

Ltac order_cases :=
  repeat match goal with
         | |- context [Z.compare ?a ?b] => destruct (Z.compare_spec a b)
         | |- context [Pos.compare_cont Eq ?a ?b] =>
             change (Pos.compare_cont Eq a b) with (Pos.compare a b);
             destruct (Pos.compare_spec a b)
         end.

Lemma lt_irrefl (x : PyFloat.float) : (x <?f x) = false.
Proof.
  unfold PyFloat.lt, SFltb, SFcompare.
  destruct x as [[]|[]| |[] m e]; try reflexivity;
    rewrite Z.compare_refl; change (Pos.compare_cont Eq m m) with (Pos.compare m m);
    rewrite Pos.compare_refl; reflexivity.
Qed.

Lemma le_lt_trans (x y z : PyFloat.float) :
  SFleb x y = true -> (y <?f z) = true -> (x <?f z) = true.
Proof.
  unfold PyFloat.lt, SFleb, SFltb, SFcompare.
  destruct x as [[]|[]| |[] mx ex], y as [[]|[]| |[] my ey], z as [[]|[]| |[] mz ez];
    try reflexivity; try discriminate;
    order_cases; simpl; try reflexivity; try discriminate;
    intros _ _; exfalso; subst; lia.
Qed.

Lemma lt_le (x y : PyFloat.float) : (x <?f y) = true -> SFleb x y = true.
Proof.
  unfold PyFloat.lt, SFltb, SFleb.
  destruct (SFcompare x y) as [[]|]; auto.
Qed.

Lemma eq_not_lt (x y : PyFloat.float) : PyFloat.eqb x y = true -> (x <?f y) = false.
Proof.
  unfold PyFloat.lt, PyFloat.eqb, SFltb, SFeqb.
  destruct (SFcompare x y) as [[]|]; auto.
Qed.

(** Whatever is below some float is below infinity. *)
Lemma lt_below_inf (x y : PyFloat.float) :
  (x <?f y) = true -> (x <?f PyFloat.inf) = true.
Proof.
  unfold PyFloat.lt, PyFloat.inf, SFltb, SFcompare.
  destruct x as [[]|[]| |[] mx ex], y as [[]|[]| |[] my ey];
    try reflexivity; try discriminate.
Qed.

Lemma lt_trans (x y z : PyFloat.float) :
  (x <?f y) = true -> (y <?f z) = true -> (x <?f z) = true.
Proof. intros Hxy. apply le_lt_trans, lt_le, Hxy. Qed.

Lemma le_lt_absurd (x y : PyFloat.float) :
  SFleb x y = true -> (y <?f x) = true -> False.
Proof.
  intros Hle Hlt. pose proof (le_lt_trans _ _ _ Hle Hlt) as H.
  rewrite lt_irrefl in H. discriminate.
Qed.

(** Infinity is below nothing. *)
Lemma inf_not_lt (y : PyFloat.float) : (PyFloat.inf <?f y) = false.
Proof. destruct y as [[]|[]| |[] my ey]; reflexivity. Qed.

End FloatOrder.

(** * The first cheapest element *)

Section FirstCheapest.
Context {A : Type} (price : A -> PyFloat.float).

Lemma first_cheapest_singleton (q : A) : first_cheapest price q [q].
Proof. exists [], []. repeat split; constructor. Qed.

Lemma first_cheapest_In (q : A) (qs : list A) :
  first_cheapest price q qs -> In q qs.
Proof.
  intros (before & after & -> & _). apply in_or_app. right. left. reflexivity.
Qed.

(** A later element that is not cheaper leaves the first cheapest in
    place. *)
Lemma first_cheapest_keep (b x : A) (done : list A) :
  first_cheapest price b done ->
  (price x <?f price b) = false ->
  first_cheapest price b (done ++ [x]).
Proof.
  intros (before & after & -> & Hb & Ha) Hx.
  exists before, (after ++ [x]). repeat split.
  - rewrite <- app_assoc. reflexivity.
  - exact Hb.
  - apply Forall_app. split; [exact Ha | constructor; [exact Hx | constructor]].
Qed.

(** A later element that is cheaper becomes the first cheapest. *)
Lemma first_cheapest_replace (b x : A) (done : list A) :
  first_cheapest price b done ->
  (price x <?f price b) = true ->
  first_cheapest price x (done ++ [x]).
Proof.
  intros (before & after & -> & Hb & Ha) Hx.
  exists (before ++ b :: after), []. repeat split; [| constructor].
  apply Forall_app. split; [| constructor].
  - eapply Forall_impl; [| exact Hb]. intros y Hy. simpl in Hy.
    destruct (SFleb (price y) (price x)) eqn:E; [| reflexivity].
    rewrite (lt_le _ _ (le_lt_trans _ _ _ E Hx)) in Hy. discriminate.
  - destruct (SFleb (price b) (price x)) eqn:E; [| reflexivity].
    destruct (le_lt_absurd _ _ E Hx).
  - eapply Forall_impl; [| exact Ha]. intros y Hy. simpl in Hy.
    destruct (SFleb (price y) (price x)) eqn:E; [| reflexivity].
    rewrite (le_lt_trans _ _ _ E Hx) in Hy. discriminate.
Qed.

(** [min(xs, key=price)] is the first cheapest element of [xs]. *)
Lemma py_min_from_first_cheapest (xs done : list A) (b : A) :
  first_cheapest price b done ->
  first_cheapest price (py_min_from price b xs) (done ++ xs).
Proof.
  revert done b. induction xs as [| x xs IH]; intros done b Hb; simpl.
  - rewrite app_nil_r. exact Hb.
  - replace (done ++ x :: xs) with ((done ++ [x]) ++ xs)
      by (rewrite <- app_assoc; reflexivity).
    apply IH. destruct (price x <?f price b) eqn:E.
    + eapply first_cheapest_replace; eassumption.
    + apply first_cheapest_keep; assumption.
Qed.

Lemma py_min_first_cheapest (xs : list A) (q : A) :
  py_min price xs = Some q -> first_cheapest price q xs.
Proof.
  destruct xs as [| x xs]; simpl; [discriminate |].
  intros [= <-]. apply py_min_from_first_cheapest with (done := [x]).
  apply first_cheapest_singleton.
Qed.

Lemma py_min_none (xs : list A) : py_min price xs = None <-> xs = [].
Proof. destruct xs; simpl; split; congruence. Qed.
End FirstCheapest.

(** * Laws of the monad *)

Section MonadLaws.
Context {E : Type}.

Lemma trace_ret {A} (a : A) : trace (ret a : M E A) = [].
Proof. reflexivity. Qed.

Lemma trace_lift {A} (r : result A) : trace (lift r : M E A) = [].
Proof. reflexivity. Qed.

Lemma trace_raise {A} (e : exn) : trace (raise e : M E A) = [].
Proof. reflexivity. Qed.

Lemma trace_bind_nil {A B} (c : M E A) (k : A -> M E B) :
  trace c = [] -> (forall a, trace (k a) = []) -> trace (bind c k) = [].
Proof.
  unfold trace, bind. destruct c as [[a | e] t]; simpl; intros -> Hk; [| reflexivity].
  specialize (Hk a). destruct (k a) as [r t']. simpl in *. exact Hk.
Qed.

Lemma trace_try_except_nil {A} (c : M E A) (catches : exn -> bool) (h : exn -> M E A) :
  trace c = [] -> (forall e, trace (h e) = []) -> trace (try_except c catches h) = [].
Proof.
  unfold trace, try_except. destruct c as [[a | e] t]; simpl; intros -> Hh; [reflexivity |].
  destruct (catches e); [| reflexivity].
  specialize (Hh e). destruct (h e) as [r t']. simpl in *. exact Hh.
Qed.

Lemma trace_for_each_nil {A St} (xs : list A) (body : A -> St -> M E St) (acc : St) :
  (forall x a, trace (body x a) = []) -> trace (for_each xs body acc) = [].
Proof.
  intros Hbody. revert acc. induction xs as [| x xs IH]; intros acc; simpl.
  - reflexivity.
  - apply trace_bind_nil; [apply Hbody | exact IH].
Qed.

Lemma trace_map_M_nil {A B} (f : A -> M E B) (xs : list A) :
  (forall x, trace (f x) = []) -> trace (map_M f xs) = [].
Proof.
  intros Hf. induction xs as [| x xs IH]; simpl.
  - reflexivity.
  - apply trace_bind_nil; [apply Hf |]. intros y.
    apply trace_bind_nil; [exact IH | reflexivity].
Qed.

(** A block guarded by [except Exception] whose handler returns a value
    returns a value. *)
Lemma guarded_returns {A} (c : M E A) (x : A) :
  exists a, outcome (try_except c is_Exception (fun _ => ret x)) = Ok a.
Proof.
  unfold outcome, try_except. destruct c as [[a | e] t]; simpl; eauto.
Qed.

Lemma run_eq {A} (c : M E A) : c = (outcome c, trace c).
Proof. destruct c; reflexivity. Qed.

(** A call that announces itself and then runs a silent guarded block. *)
Lemma announced_guarded {A} (ev : E) (c : M E A) (x : A) :
  trace c = [] ->
  exists a, (emit ev ;;; try_except c is_Exception (fun _ => ret x)) = (Ok a, [ev]).
Proof.
  intros Hc. destruct (guarded_returns c x) as [a Ha].
  exists a. unfold bind, emit.
  rewrite (run_eq (try_except c is_Exception (fun _ => ret x))), Ha.
  rewrite trace_try_except_nil; auto.
Qed.

(** A loop whose body returns a value that is a function of the loop
    state, with events that do not depend on the state. *)
Lemma for_each_pure {A St} (f : A -> St -> St) (ev : A -> list E)
    (body : A -> St -> M E St) (xs : list A) (acc : St) :
  (forall x a, body x a = (Ok (f x a), ev x)) ->
  for_each xs body acc = (Ok (fold_left (fun a x => f x a) xs acc), flat_map ev xs).
Proof.
  intros Hbody. revert acc. induction xs as [| x xs IH]; intros acc; simpl.
  - reflexivity.
  - unfold bind. rewrite Hbody, IH. reflexivity.
Qed.
End MonadLaws.

(** Closes a goal [trace c = []] for a computation [c] built from
    outcomes of the environment, handlers and loops, none of which emits. *)
Ltac silent :=
  repeat first
    [ reflexivity
    | apply trace_bind_nil
    | apply trace_try_except_nil
    | apply trace_for_each_nil
    | apply trace_map_M_nil
    | intro
    | match goal with
      | |- trace (if ?b then _ else _) = [] => destruct b
      | |- trace (match ?o with _ => _ end) = [] => destruct o
      end ].

Lemma fold_left_flat_map {A B St} (f : St -> B -> St) (g : A -> list B) (xs : list A) (acc : St) :
  fold_left f (flat_map g xs) acc = fold_left (fun a x => fold_left f (g x) a) xs acc.
Proof.
  revert acc. induction xs as [| x xs IH]; intros acc; simpl.
  - reflexivity.
  - rewrite fold_left_app. apply IH.
Qed.

Lemma flat_map_flat_map {A B C} (f : B -> list C) (g : A -> list B) (xs : list A) :
  flat_map f (flat_map g xs) = flat_map (fun x => flat_map f (g x)) xs.
Proof.
  induction xs as [| x xs IH]; simpl.
  - reflexivity.
  - rewrite flat_map_app, IH. reflexivity.
Qed.

Lemma in_py_range (lo hi x : Z) : In x (py_range lo hi) <-> lo <= x < hi.
Proof.
  unfold py_range. rewrite in_map_iff. split.
  - intros (i & <- & Hi). apply in_seq in Hi. lia.
  - intros H. exists (Z.to_nat (x - lo)). split; [lia |]. apply in_seq. lia.
Qed.

(** * The scraper *)

Section ScraperLemmas.
Import Claude ClaudeSpec.

(** [search_google_flights] only announces itself and never raises. *)
Lemma search_google_flights_returns (w : world) (d r : string) :
  exists o, search_google_flights w d r = (Ok o, [SearchGoogle d r]).
Proof. unfold search_google_flights. apply announced_guarded. unfold parse_flight. silent. Qed.

Lemma search_kayak_returns (w : world) (d r : string) :
  exists o, search_kayak w d r = (Ok o, [SearchKayak d r]).
Proof. unfold search_kayak. apply announced_guarded. silent. Qed.

(** One date pair: the fallback chain, the comparison with the running
    best, the delay. *)
Lemma check_pair_eq (w : world) (today dep_days trip_length : Z)
    (best : option quote * PyFloat.float) :
  let d := strftime (today + dep_days) in
  let r := strftime (today + (dep_days + trip_length)) in
  check_pair w today dep_days trip_length best
  = (Ok (update_best best (lookup w d r)), pair_events w d r).
Proof.
  intros d r. unfold check_pair, lookup, pair_events. fold d. fold r.
  destruct (search_google_flights_returns w d r) as [og Hg].
  destruct (search_kayak_returns w d r) as [ok Hk].
  rewrite Hg. unfold bind at 1. simpl outcome.
  destruct og as [q |].
  - reflexivity.
  - rewrite Hk. reflexivity.
Qed.
End ScraperLemmas.

Section ScraperDiscovery.
Import Claude ClaudeSpec.

Lemma fold_left_map {A B St} (f : St -> B -> St) (g : A -> B) (xs : list A) (acc : St) :
  fold_left f (map g xs) acc = fold_left (fun a x => f a (g x)) xs acc.
Proof.
  revert acc. induction xs as [| x xs IH]; intros acc; simpl; [reflexivity | apply IH].
Qed.

Lemma flat_map_map {A B C} (f : B -> list C) (g : A -> B) (xs : list A) :
  flat_map f (map g xs) = flat_map (fun x => f (g x)) xs.
Proof.
  induction xs as [| x xs IH]; simpl; [reflexivity | rewrite IH; reflexivity].
Qed.

(** The whole of [check_all_dates]: a left fold of [update_best] over the
    quotes of the date pairs, and the events of the pairs in order. *)
Lemma check_all_dates_eq (self : scraper) (w : world) (today : Z) :
  check_all_dates self w today
  = (Ok (fst (fold_left
                (fun best o =>
                   update_best best
                     (lookup w (fst (date_pair today o)) (snd (date_pair today o))))
                (offsets (search_days self)) (None, PyFloat.inf))),
     flat_map (fun o => pair_events w (fst (date_pair today o)) (snd (date_pair today o)))
       (offsets (search_days self))).
Proof.
  unfold check_all_dates, offsets.
  rewrite fold_left_flat_map, flat_map_flat_map.
  erewrite (for_each_pure
              (fun dep_days best =>
                 fold_left
                   (fun best o =>
                      update_best best
                        (lookup w (fst (date_pair today o)) (snd (date_pair today o))))
                   (map (fun trip_length => (dep_days, trip_length)) (py_range 2 8)) best)
              (fun dep_days =>
                 flat_map
                   (fun o => pair_events w (fst (date_pair today o)) (snd (date_pair today o)))
                   (map (fun trip_length => (dep_days, trip_length)) (py_range 2 8)))).
  - unfold bind, ret. rewrite app_nil_r. reflexivity.
  - intros dep_days best. rewrite fold_left_map, flat_map_map.
    apply for_each_pure. intros trip_length b. apply check_pair_eq.
Qed.

(** The loop state after any number of lookups: nothing yet, with the
    running price still infinite and no quote below infinity seen, or the
    first cheapest of the quotes seen that are priced below infinity. *)
Lemma update_best_invariant {X} (look : X -> option quote) (xs : list X) :
  let st := fold_left (fun best x => update_best best (look x)) xs (None, PyFloat.inf) in
  let qs := filter below_inf (flat_map (fun x => option_list (look x)) xs) in
  match fst st with
  | None => snd st = PyFloat.inf /\ qs = []
  | Some b => snd st = price b /\ first_cheapest price b qs
  end.
Proof.
  induction xs as [| x xs IH] using rev_ind; simpl.
  - split; reflexivity.
  - rewrite fold_left_app, flat_map_app, filter_app. simpl.
    set (st := fold_left (fun best x => update_best best (look x)) xs (None, PyFloat.inf)) in *.
    set (qs := filter below_inf (flat_map (fun x => option_list (look x)) xs)) in *.
    simpl in IH. unfold update_best.
    destruct (look x) as [q |]; simpl; [| rewrite app_nil_r; exact IH].
    change (below_inf q) with (price q <?f PyFloat.inf).
    destruct (price q <?f snd st) eqn:Hlt; simpl.
    + rewrite (lt_below_inf _ _ Hlt). split; [reflexivity |].
      destruct (fst st) as [b |].
      * destruct IH as [Hb Hmin]. rewrite Hb in Hlt.
        eapply first_cheapest_replace; eassumption.
      * destruct IH as [_ ->]. apply first_cheapest_singleton.
    + destruct (fst st) as [b |].
      * destruct IH as [Hb Hmin]. split; [exact Hb |]. rewrite Hb in Hlt.
        destruct (price q <?f PyFloat.inf).
        -- apply first_cheapest_keep; assumption.
        -- rewrite app_nil_r. exact Hmin.
      * destruct IH as [Hinf ->]. split; [exact Hinf |].
        rewrite Hinf in Hlt. rewrite Hlt. reflexivity.
Qed.

Lemma check_all_dates_cheapest (self : scraper) (w : world) (today : Z) :
  cheapest_of price (outcome (check_all_dates self w today))
    (filter below_inf (quotes_obtained self w today)).
Proof.
  rewrite check_all_dates_eq. unfold outcome, fst at 1, cheapest_of, quotes_obtained.
  pose proof (update_best_invariant
                (fun o => lookup w (fst (date_pair today o)) (snd (date_pair today o)))
                (offsets (search_days self))) as H.
  simpl in H.
  destruct (fst (fold_left _ _ _)) as [b |]; [exact (proj2 H) | exact (proj2 H)].
Qed.
End ScraperDiscovery.

(** * The API client *)

Section MoreMonadLaws.
Context {E : Type}.

Lemma trace_bind {A B} (c : M E A) (k : A -> M E B) :
  trace (bind c k)
  = trace c ++ match outcome c with Ok a => trace (k a) | Raise _ => [] end.
Proof.
  unfold trace, outcome, bind. destruct c as [[a | e] t]; simpl.
  - destruct (k a); reflexivity.
  - rewrite app_nil_r. reflexivity.
Qed.

Lemma outcome_bind {A B} (c : M E A) (k : A -> M E B) :
  outcome (bind c k)
  = match outcome c with Ok a => outcome (k a) | Raise e => Raise e end.
Proof.
  unfold outcome, bind. destruct c as [[a | e] t]; simpl; [| reflexivity].
  destruct (k a); reflexivity.
Qed.
End MoreMonadLaws.

Lemma py_range_cons (lo hi : Z) : lo < hi -> py_range lo hi = lo :: py_range (lo + 1) hi.
Proof.
  intros H. unfold py_range.
  replace (Z.to_nat (hi - lo)) with (S (Z.to_nat (hi - (lo + 1)))) by lia.
  simpl. rewrite Z.add_0_r. f_equal. rewrite <- seq_shift, map_map.
  apply map_ext. intros i. lia.
Qed.

Lemma py_range_nil (lo hi : Z) : hi <= lo -> py_range lo hi = [].
Proof. intros H. unfold py_range. replace (Z.to_nat (hi - lo)) with O by lia. reflexivity. Qed.

Section ApiLemmas.
Import Weeks WeeksSpec.

Lemma min_offer_silent (offers : json) : trace (min_offer offers) = [].
Proof. unfold min_offer. silent. Qed.

(** A lookup makes one request. *)
Lemma fetch_price_trace (w : world) (d r : string) :
  trace (fetch_price w d r) = [Get d r].
Proof.
  unfold fetch_price. rewrite trace_bind. simpl outcome. cbv iota.
  replace (trace (emit (Get d r))) with [Get d r] by reflexivity.
  match goal with |- _ ++ ?t = _ => assert (t = []) as ->; [| reflexivity] end.
  repeat (silent; try apply min_offer_silent).
Qed.

(** A turn of the loop, from the turn that starts with nothing. *)
Lemma probe_eq (w : world) (origin destination : string) (current_date trip_duration : Z)
    (cheapest_flight : option quote) :
  probe w origin destination current_date trip_duration cheapest_flight
  = (match lookup w origin destination current_date trip_duration with
     | Ok found => Ok (keep_cheaper cheapest_flight found)
     | Raise e => Raise e
     end,
     trace (probe w origin destination current_date trip_duration None)).
Proof.
  unfold lookup, probe.
  destruct (fetch_price w (strftime current_date) (strftime (current_date + trip_duration)))
    as [[[p |] | e] t]; simpl.
  - destruct cheapest_flight as [c |]; simpl; [| reflexivity].
    destruct (p <?f price c); reflexivity.
  - destruct cheapest_flight; reflexivity.
  - destruct (is_RequestException e); simpl; destruct cheapest_flight; reflexivity.
Qed.

Lemma probe_probed (w : world) (origin destination : string) (current_date trip_duration : Z)
    (cheapest_flight : option quote) :
  flat_map probed (trace (probe w origin destination current_date trip_duration cheapest_flight))
  = [(strftime current_date, strftime (current_date + trip_duration))].
Proof.
  rewrite probe_eq. unfold trace at 1, snd. unfold probe.
  pose proof (fetch_price_trace w (strftime current_date)
                (strftime (current_date + trip_duration))) as Ht.
  destruct (fetch_price w (strftime current_date) (strftime (current_date + trip_duration)))
    as [[[p |] | e] t]; unfold trace in Ht; simpl in Ht; subst t; simpl;
    try destruct (is_RequestException e); reflexivity.
Qed.

(** The events of a turn are a request and, maybe, the delay. *)
Lemma probe_events (w : world) (origin destination : string) (current_date trip_duration : Z)
    (cheapest_flight : option quote) :
  Forall (fun ev => file_states ev = [] /\ emails ev = [])
    (trace (probe w origin destination current_date trip_duration cheapest_flight)).
Proof.
  rewrite probe_eq. unfold trace at 1, snd. unfold probe.
  pose proof (fetch_price_trace w (strftime current_date)
                (strftime (current_date + trip_duration))) as Ht.
  destruct (fetch_price w (strftime current_date) (strftime (current_date + trip_duration)))
    as [[[p |] | e] t]; unfold trace in Ht; simpl in Ht; subst t; simpl;
    try destruct (is_RequestException e); simpl; repeat constructor.
Qed.



End ApiLemmas.

Section ApiTraces.
Import Weeks WeeksSpec.

(** The pairs that a sweep of [turns] departures from [current_date]
    asks the API about. *)
Lemma sweep_probed (w : world) (origin destination : string) (trip_duration : Z)
    (turns : nat) (current_date : Z) (cheapest_flight : option quote) :
  Forall (fun p => exists d,
              current_date <= d < current_date + Z.of_nat turns
              /\ p = (strftime d, strftime (d + trip_duration)))
    (flat_map probed
       (trace (sweep w origin destination turns current_date trip_duration cheapest_flight))).
Proof.
  revert current_date cheapest_flight.
  induction turns as [| turns IH]; intros current_date cheapest_flight.
  - constructor.
  - cbn [sweep]. rewrite trace_bind, flat_map_app, probe_probed.
    constructor.
    + exists current_date. split; [lia | reflexivity].
    + destruct (outcome _) as [c | e]; [| constructor].
      eapply Forall_impl; [| apply IH]. intros p (d & Hd & ->).
      exists d. split; [lia | reflexivity].
Qed.

Lemma sweep_events (w : world) (origin destination : string) (trip_duration : Z)
    (turns : nat) (current_date : Z) (cheapest_flight : option quote) :
  Forall (fun ev => file_states ev = [] /\ emails ev = [])
    (trace (sweep w origin destination turns current_date trip_duration cheapest_flight)).
Proof.
  revert current_date cheapest_flight.
  induction turns as [| turns IH]; intros current_date cheapest_flight.
  - constructor.
  - cbn [sweep]. rewrite trace_bind. apply Forall_app. split; [apply probe_events |].
    destruct (outcome _) as [c | e]; [apply IH | constructor].
Qed.

Lemma unseen_nil {B} (f : event -> list B) (t : list event) :
  Forall (fun ev => f ev = []) t -> flat_map f t = [].
Proof.
  induction 1 as [| ev t Hev _ IH]; simpl; [reflexivity |]. rewrite Hev, IH. reflexivity.
Qed.

(** Until the test of the [if], a cycle neither writes the ledger nor
    sends mail. *)
Lemma main_search_events (w : world) (today : Z) :
  flat_map file_states (trace (main_search w today)) = []
  /\ flat_map emails (trace (main_search w today)) = [].
Proof.
  assert (Forall (fun ev => file_states ev = [] /\ emails ev = [])
            (trace (main_search w today))) as H.
  { unfold main_search, find_cheapest_flight.
    assert (trace (load_best_price w) = []) as Hload
        by (unfold load_best_price; destruct (ledger w); reflexivity).
    rewrite trace_bind, Hload. cbn [app].
    destruct (outcome (load_best_price w)) as [best |]; [cbv beta iota | constructor].
    rewrite trace_bind, trace_lift. cbn [app].
    destruct (outcome (lift (py_getitem best "price"))) as [shown |];
      [cbv beta iota | constructor].
    rewrite trace_bind, trace_lift. cbn [app].
    destruct (outcome (lift (py_format_2f shown))) as [[] |]; [cbv beta iota | constructor].
    rewrite trace_bind. apply Forall_app. split; [apply sweep_events |].
    destruct (outcome (sweep _ _ _ _ _ _ _)) as [cur |]; [cbv beta iota | constructor].
    rewrite trace_bind.
    assert (trace (is_new_record cur best) = []) as ->.
    { unfold is_new_record. destruct cur; [| reflexivity].
      apply trace_bind_nil; [reflexivity | intros; reflexivity]. }
    destruct (outcome (is_new_record cur best)); constructor. }
  split; apply unseen_nil; eapply Forall_impl; try exact H; simpl; tauto.
Qed.
End ApiTraces.

Section ScraperTraces.
Import Claude ClaudeSpec.

Lemma pair_events_googled (w : world) (d r : string) :
  flat_map googled (pair_events w d r) = [(d, r)].
Proof.
  unfold pair_events. destruct (outcome (search_google_flights w d r)) as [[q |] | e];
    reflexivity.
Qed.

Lemma pair_events_searched (w : world) (d r : string) :
  Forall (fun p => p = (d, r)) (flat_map searched (pair_events w d r)).
Proof.
  unfold pair_events. destruct (outcome (search_google_flights w d r)) as [[q |] | e];
    simpl; repeat constructor.
Qed.

Lemma in_offsets (search_days : Z) (o : Z * Z) :
  In o (offsets search_days) <-> 1 <= fst o <= search_days /\ 2 <= snd o <= 7.
Proof.
  unfold offsets. rewrite in_flat_map. split.
  - intros (dd & Hdd & Ho). apply in_map_iff in Ho as (tl & <- & Htl).
    apply in_py_range in Hdd, Htl. simpl. lia.
  - intros [Hd Ht]. exists (fst o). split; [apply in_py_range; lia |].
    apply in_map_iff. exists (snd o). split; [destruct o; reflexivity |].
    apply in_py_range. lia.
Qed.

Lemma for_each_invariant {E A St} (Inv : St -> Prop) (xs : list A)
    (body : A -> St -> M E St) (acc : St) :
  (forall x a, Inv a -> match outcome (body x a) with Ok a' => Inv a' | Raise _ => True end) ->
  Inv acc ->
  match outcome (for_each xs body acc) with Ok a' => Inv a' | Raise _ => True end.
Proof.
  intros Hbody. revert acc. induction xs as [| x xs IH]; intros acc Hacc; simpl.
  - exact Hacc.
  - rewrite outcome_bind. specialize (Hbody x acc Hacc).
    destruct (outcome (body x acc)) as [a' |]; [apply IH; exact Hbody | trivial].
Qed.

(** [search_kayak] never returns a quote priced at infinity: the guard
    of line 243. *)
Lemma search_kayak_below_inf (w : world) (d r : string) (q : quote) :
  outcome (search_kayak w d r) = Ok (Some q) -> (price q <?f PyFloat.inf) = true.
Proof.
  unfold search_kayak. set (s := kayak w d r).
  rewrite outcome_bind. simpl outcome at 1. cbv iota.
  destruct (k_setup_driver s) as [[] |]; [| discriminate].
  destruct (k_get s) as [[] |]; [| discriminate].
  destruct (k_security_check s) as [[|] |]; try discriminate.
  destruct (k_wait_results s) as [[] | e]; [| destruct e; discriminate].
  destruct (k_find_elements s) as [elems | e]; [| destruct e; discriminate].
  unfold lift, bind at 1 2 3 4 5 6. simpl.
  match goal with
  | |- context [for_each ?xs ?body ?acc] =>
      pose proof (@for_each_invariant _ _ _
                    (Forall (fun p => (p <?f PyFloat.inf) = true)) xs body acc) as Hinv;
      destruct (for_each xs body acc) as [[prices | e] t]
  end.
  - simpl in Hinv. assert (Forall (fun p => (p <?f PyFloat.inf) = true) prices) as Hall.
    { apply Hinv; [| constructor]. intros text acc Hacc.
      destruct text as [text | e]; simpl; [| exact Hacc].
      destruct (parse_price text) as [p | e]; simpl; [| exact Hacc].
      destruct (p <?f PyFloat.inf) eqn:Hp; simpl; [| exact Hacc].
      apply Forall_app. split; [exact Hacc | repeat constructor; exact Hp]. }
    simpl. destruct (py_min (fun p => p) prices) as [p |] eqn:Hmin; simpl; [| discriminate].
    intros [= <-]. simpl.
    apply py_min_first_cheapest, first_cheapest_In in Hmin.
    rewrite Forall_forall in Hall. apply Hall, Hmin.
  - simpl. destruct e; discriminate.
Qed.

(** The discovery of the scraper always returns. *)
Lemma check_all_dates_returns (self : scraper) (w : world) (today : Z) :
  exists best, outcome (check_all_dates self w today) = Ok best.
Proof. rewrite check_all_dates_eq. eexists. reflexivity. Qed.
End ScraperTraces.

(** * What the two programs absorb *)

Section Absorbed.
Import Weeks WeeksSpec.

(** [load_price_history] returns whatever the file holds and however the
    values compare. *)
Lemma load_price_history_returns (lt : json -> json -> result bool) (file : json_file) :
  outcome (Claude.load_price_history lt file) = Ok tt.
Proof.
  unfold Claude.load_price_history.
  match goal with
  | |- outcome (try_except ?c _ _) = _ => destruct (guarded_returns c tt) as [[] H]
  end.
  exact H.
Qed.

(** On a file that is missing, unreadable or not JSON it assigns nothing:
    [self.best_price] stays [float('inf')]. *)
Lemma load_price_history_keeps_sentinel (lt : json -> json -> result bool)
    (file : json_file) :
  match file with
  | Holds _ => True
  | _ => Claude.load_price_history lt file = (Ok tt, [])
  end.
Proof. destruct file; try exact I; reflexivity. Qed.

(** [load_best_price] returns on a missing file and on a file that holds
    a value, and raises on every other. *)
Lemma load_best_price_outcome (w : world) :
  outcome (load_best_price w)
  = match ledger w with
    | Missing => Ok no_record
    | Holds v => Ok v
    | Unreadable => Raise OSError
    | Truncated | Garbage => Raise JSONDecodeError
    end.
Proof. unfold load_best_price. destruct (ledger w); reflexivity. Qed.

(** Only an exception that is not a [RequestException] leaves a turn of
    the loop of [find_cheapest_flight]. *)
Lemma probe_escapes (w : world) (origin destination : string) (current_date trip_duration : Z)
    (cheapest_flight : option quote) :
  match outcome (probe w origin destination current_date trip_duration cheapest_flight) with
  | Ok _ => True
  | Raise e => is_RequestException e = false
  end.
Proof.
  unfold probe.
  destruct (fetch_price w (strftime current_date) (strftime (current_date + trip_duration)))
    as [[[p |] | e] t]; simpl.
  - destruct cheapest_flight as [c |]; simpl; [destruct (p <?f price c) |]; exact I.
  - exact I.
  - destruct (is_RequestException e) eqn:E; simpl; [exact I | exact E].
Qed.

Lemma find_cheapest_flight_escapes (w : world) (origin destination : string)
    (start_date end_date trip_duration : Z) :
  match outcome (find_cheapest_flight w origin destination start_date end_date trip_duration)
  with
  | Ok _ => True
  | Raise e => is_RequestException e = false
  end.
Proof.
  unfold find_cheapest_flight.
  generalize (Z.to_nat (end_date - start_date + 1)) as turns.
  generalize (@None quote) as cheapest_flight. generalize start_date as current_date.
  intros current_date cheapest_flight turns. revert current_date cheapest_flight.
  induction turns as [| turns IH]; intros current_date cheapest_flight; cbn [sweep].
  - exact I.
  - rewrite outcome_bind.
    pose proof (probe_escapes w origin destination current_date trip_duration
                  cheapest_flight) as H.
    destruct (outcome (probe _ _ _ _ _ _)) as [c | e]; [apply IH | exact H].
Qed.

(** When every request fails the way a request fails, the sweep still
    asks about every departure and returns [None]. *)
Lemma find_cheapest_flight_all_requests_fail (w : world) (origin destination : string)
    (start_date end_date trip_duration : Z) :
  (forall d r, exists e, api w d r = Raise e /\ is_RequestException e = true) ->
  outcome (find_cheapest_flight w origin destination start_date end_date trip_duration)
  = Ok None
  /\ flat_map probed
       (trace (find_cheapest_flight w origin destination start_date end_date trip_duration))
     = map (fun d => (strftime d, strftime (d + trip_duration)))
         (py_range start_date (end_date + 1)).
Proof.
  intros Hfail. unfold find_cheapest_flight.
  assert (py_range start_date (end_date + 1)
          = py_range start_date (start_date + Z.of_nat (Z.to_nat (end_date - start_date + 1))))
    as -> by (unfold py_range; do 2 f_equal; lia).
  generalize (Z.to_nat (end_date - start_date + 1)) as turns.
  generalize start_date as current_date.
  intros current_date turns. revert current_date.
  induction turns as [| turns IH]; intros current_date.
  - rewrite py_range_nil by lia. split; reflexivity.
  - rewrite py_range_cons by lia.
    replace (current_date + Z.of_nat (S turns)) with (current_date + 1 + Z.of_nat turns) by lia.
    cbn [sweep map]. rewrite outcome_bind, trace_bind, flat_map_app, probe_probed.
    assert (outcome (probe w origin destination current_date trip_duration None) = Ok None)
      as ->.
    { unfold probe, fetch_price.
      destruct (Hfail (strftime current_date) (strftime (current_date + trip_duration)))
        as (e & -> & He).
      unfold outcome, bind, emit, lift, try_except; simpl. rewrite He. reflexivity. }
    destruct (IH (current_date + 1)) as [Hout Htrace].
    split; [exact Hout |]. rewrite Htrace. reflexivity.
Qed.
End Absorbed.

(** * The programs at work *)

(** Three departures, a stay of seven days, offers at 400, 350 and 420:
    the discovery returns the one at 350. *)
Example three_departures :
  outcome (Weeks.find_cheapest_flight Scenario.world_three "AUS" "SFO"
             (Scenario.today + 1) (Scenario.today + 3) 7)
  = Ok (Some {| Weeks.price := PyFloat.of_cents 35000;
                Weeks.departure_date := "2025-01-11";
                Weeks.return_date := "2025-01-18";
                Weeks.link := "https://www.google.com/flights?hl=en#flt=AUS.SFO.2025-01-11*SFO.AUS.2025-01-18" |}).
Proof. reflexivity. Qed.

(** No ledger yet and a fare at 249.99: the cycle commits it and sends
    one mail. *)
Example first_record :
  flat_map WeeksSpec.file_states (trace (Weeks.main_cycle Scenario.world_fares Scenario.today))
  = [Truncated; Holds (Weeks.to_json (Scenario.fare 24999 739262 739276))]
  /\ flat_map WeeksSpec.emails (trace (Weeks.main_cycle Scenario.world_fares Scenario.today))
     = [Scenario.fare 24999 739262 739276].
Proof. split; reflexivity. Qed.

(** A history of two entries: [load_price_history] takes the price and the
    flight of the cheaper one. *)
Example history_of_two :
  Claude.load_price_history Scenario.lt_numbers
    (Holds (JArr [Scenario.history_entry 30000 (JStr "first" None);
                  Scenario.history_entry 25000 (JStr "second" None)]))
  = (Ok tt,
     [Claude.SetPriceHistory
        (JArr [Scenario.history_entry 30000 (JStr "first" None);
               Scenario.history_entry 25000 (JStr "second" None)]);
      Claude.SetBestPrice (JNum (PyFloat.of_cents 25000));
      Claude.SetBestFlightInfo (JStr "second" None)]).
Proof. reflexivity. Qed.

(** A history whose entry has no ['flight_info']: the price is assigned,
    the [KeyError] is absorbed. *)
Example history_without_flight :
  Claude.load_price_history Scenario.lt_numbers
    (Holds (JArr [JObj [("price", JNum (PyFloat.of_cents 25000))]]))
  = (Ok tt,
     [Claude.SetPriceHistory (JArr [JObj [("price", JNum (PyFloat.of_cents 25000))]]);
      Claude.SetBestPrice (JNum (PyFloat.of_cents 25000))]).
Proof. reflexivity. Qed.

(** The fallback chain at work: Google answers for the first departure,
    Kayak for one pair of the second; the cheaper quote wins. *)
Example mixed_sources :
  outcome (Claude.check_all_dates Scenario.two_days Scenario.world_mixed Scenario.today)
  = Ok (Some {| Claude.price := PyFloat.of_Z 123;
                Claude.airline := "Multiple";
                Claude.duration := "Check website";
                Claude.departure_date := "2025-01-11";
                Claude.return_date := "2025-01-13";
                Claude.source := Some "Kayak" |})
  /\ map Claude.price
       (ClaudeSpec.quotes_obtained Scenario.two_days Scenario.world_mixed Scenario.today)
     = [PyFloat.of_Z 250; PyFloat.of_Z 250; PyFloat.of_Z 250; PyFloat.of_Z 250;
        PyFloat.of_Z 250; PyFloat.of_Z 250; PyFloat.of_Z 123].
Proof. split; reflexivity. Qed.

(** * The discovery: claims C1, C10, C7 *)




(** C10. [check_all_dates] returns [None] or a quote priced strictly below
    infinity, although a lookup can return a quote priced at infinity. *)
Theorem C10_returned_price_below_infinity
    (self : Claude.scraper) (w : Claude.world) (today : Z) :
  match outcome (Claude.check_all_dates self w today) with
  | Ok None => True
  | Ok (Some q) => (Claude.price q <?f PyFloat.inf) = true
  | Raise _ => False
  end
  /\ exists q,
       outcome (Claude.search_google_flights Scenario.world_unpriced
                  "2025-01-10" "2025-01-12") = Ok (Some q)
       /\ Claude.price q = PyFloat.inf.
Proof.
  split.
  - pose proof (check_all_dates_cheapest self w today) as H.
    destruct (outcome (Claude.check_all_dates self w today)) as [[q |] | e];
      simpl in H; [| exact I | exact H].
    apply first_cheapest_In, filter_In in H. exact (proj2 H).
  - eexists. split; reflexivity.
Qed.

(** C7, at the failing input. The API answers 200 with an offer that has
    no ['price']: the [KeyError] of the key leaves [find_cheapest_flight],
    which stops after the first request of the fourteen. *)
Theorem C7_api_discovery_raises_on_malformed_offer :
  Weeks.find_cheapest_flight Scenario.world_malformed "AUS" "SFO"
    (Scenario.today + 1) (Scenario.today + 14) 14
  = (Raise KeyError, [Weeks.Get "2025-01-10" "2025-01-24"]).
Proof. reflexivity. Qed.

(** * The date pairs and the fallback chain: claims C2, C8 *)

(** C2. Every date pair that the scraper searches departs 1 to
    [search_days] days after today and returns 2 to 7 days later, hence
    within [search_days + 7] days; its Google searches are the whole grid of
    these pairs, in order. Every date pair that the API client asks about,
    for the window [today + 1 .. today + search_days] and a positive trip
    duration, departs within the window and returns [trip_duration] days
    later. *)
Theorem C2_generated_date_pairs
    (self : Claude.scraper) (w : Claude.world) (wa : Weeks.world)
    (origin destination : string) (today search_days trip_duration : Z) :
  0 < trip_duration ->
  Forall (fun p => exists dep ret,
              p = (strftime dep, strftime ret)
              /\ today + 1 <= dep <= today + Claude.search_days self
              /\ dep < ret <= today + Claude.search_days self + 7)
    (flat_map ClaudeSpec.searched (trace (Claude.check_all_dates self w today)))
  /\ flat_map ClaudeSpec.googled (trace (Claude.check_all_dates self w today))
     = map (ClaudeSpec.date_pair today) (ClaudeSpec.offsets (Claude.search_days self))
  /\ Forall (fun p => exists dep ret,
                 p = (strftime dep, strftime ret)
                 /\ today + 1 <= dep <= today + search_days
                 /\ dep < ret <= today + search_days + trip_duration)
       (flat_map WeeksSpec.probed
          (trace (Weeks.find_cheapest_flight wa origin destination
                    (today + 1) (today + search_days) trip_duration))).
Proof.
  intros Htrip. rewrite check_all_dates_eq. unfold trace at 1 2, snd. repeat split.
  - rewrite flat_map_flat_map. apply Forall_flat_map, Forall_forall.
    intros o Ho. apply in_offsets in Ho.
    eapply Forall_impl; [| apply pair_events_searched]. intros p ->.
    exists (today + fst o), (today + (fst o + snd o)). split; [reflexivity | lia].
  - rewrite flat_map_flat_map.
    induction (ClaudeSpec.offsets (Claude.search_days self)) as [| o os IH];
      cbn [flat_map map].
    + reflexivity.
    + rewrite pair_events_googled, IH. destruct o; reflexivity.
  - unfold Weeks.find_cheapest_flight.
    eapply Forall_impl; [| apply sweep_probed]. intros p (d & Hd & ->).
    exists d, (d + trip_duration). split; [reflexivity | lia].
Qed.

Lemma C2_witness :
  0 < 14
  /\ Forall (fun p => exists dep ret,
                 p = (strftime dep, strftime ret)
                 /\ Scenario.today + 1 <= dep <= Scenario.today + 2
                 /\ dep < ret <= Scenario.today + 2 + 7)
       (flat_map ClaudeSpec.searched
          (trace (Claude.check_all_dates Scenario.two_days Scenario.world_mixed
                    Scenario.today)))
  /\ Forall (fun p => exists dep ret,
                 p = (strftime dep, strftime ret)
                 /\ Scenario.today + 1 <= dep <= Scenario.today + 14
                 /\ dep < ret <= Scenario.today + 14 + 14)
       (flat_map WeeksSpec.probed
          (trace (Weeks.find_cheapest_flight Scenario.world_fares "AUS" "SFO"
                    (Scenario.today + 1) (Scenario.today + 14) 14))).
Proof.
  assert (0 < 14) as H by lia.
  destruct (C2_generated_date_pairs Scenario.two_days Scenario.world_mixed
              Scenario.world_fares "AUS" "SFO" Scenario.today 14 H) as (Hs & _ & Ha).
  split; [exact H |]. split; [exact Hs | exact Ha].
Defined.

(** C8. For a date pair, Google is searched first; when it returns a
    quote, Kayak is not searched and that quote goes into the comparison;
    when it returns none, Kayak is searched next and what it returns goes
    into the comparison. The run is these steps, pair after pair. *)
Theorem C8_fallback_order
    (self : Claude.scraper) (w : Claude.world) (today dep_days trip_length : Z)
    (best : option Claude.quote * PyFloat.float) :
  let d := strftime (today + dep_days) in
  let r := strftime (today + (dep_days + trip_length)) in
  match outcome (Claude.search_google_flights w d r) with
  | Ok (Some q) =>
      Claude.check_pair w today dep_days trip_length best
      = (Ok (Claude.update_best best (Some q)),
         [Claude.SearchGoogle d r; Claude.Sleep 3])
  | Ok None =>
      exists k,
        outcome (Claude.search_kayak w d r) = Ok k
        /\ Claude.check_pair w today dep_days trip_length best
           = (Ok (Claude.update_best best k),
              [Claude.SearchGoogle d r; Claude.SearchKayak d r; Claude.Sleep 3])
  | Raise _ => False
  end
  /\ trace (Claude.check_all_dates self w today)
     = flat_map (fun o => ClaudeSpec.pair_events w (fst (ClaudeSpec.date_pair today o))
                            (snd (ClaudeSpec.date_pair today o)))
         (ClaudeSpec.offsets (Claude.search_days self)).
Proof.
  intros d r. split.
  - pose proof (check_pair_eq w today dep_days trip_length best) as H.
    cbv zeta in H. fold d in H. fold r in H. rewrite H.
    unfold ClaudeSpec.lookup, ClaudeSpec.pair_events.
    destruct (search_google_flights_returns w d r) as [og Hg].
    destruct (search_kayak_returns w d r) as [k Hk].
    rewrite Hg. simpl outcome. destruct og as [q |]; [reflexivity |].
    exists k. rewrite Hk. split; reflexivity.
  - rewrite check_all_dates_eq. reflexivity.
Qed.

(** * Quotes and records: claims C3, C4 *)

(** C3. Against a persisted record, and against the record of a ledger
    that does not exist yet, the test of [main] is true exactly when the
    price of the candidate is strictly below the price of the record; it is
    false for equal prices and without a candidate. With a record at 250.00
    a candidate at 250.00 fails it and one at 249.99 passes; a cycle that
    finds 249.99 against a record at 249.99 neither writes the ledger nor
    sends mail. The scraper replaces its running best under the same strict
    comparison. *)
Theorem C3_new_record_test_is_strict (c r : Weeks.quote) :
  outcome (Weeks.is_new_record (Some c) (Weeks.to_json r))
  = Ok (Weeks.price c <?f Weeks.price r)
  /\ outcome (Weeks.is_new_record (Some c) Weeks.no_record)
     = Ok (Weeks.price c <?f PyFloat.inf)
  /\ outcome (Weeks.is_new_record None (Weeks.to_json r)) = Ok false
  /\ PyFloat.eqb (Weeks.price c) (Weeks.price r) && (Weeks.price c <?f Weeks.price r) = false
  /\ outcome (Weeks.is_new_record (Some (Scenario.fare 25000 739261 739275))
                (Weeks.to_json (Scenario.fare 25000 739200 739214))) = Ok false
  /\ outcome (Weeks.is_new_record (Some (Scenario.fare 24999 739261 739275))
                (Weeks.to_json (Scenario.fare 25000 739200 739214))) = Ok true
  /\ (outcome (Weeks.main_search Scenario.world_equal Scenario.today)
      = Ok (Some (Scenario.fare 24999 739262 739276), false)
      /\ flat_map WeeksSpec.file_states
           (trace (Weeks.main_cycle Scenario.world_equal Scenario.today)) = []
      /\ flat_map WeeksSpec.emails
           (trace (Weeks.main_cycle Scenario.world_equal Scenario.today)) = [])
  /\ (forall (best : option Claude.quote * PyFloat.float) (q : Claude.quote),
         Claude.update_best best (Some q)
         = if Claude.price q <?f snd best then (Some q, Claude.price q) else best).
Proof.
  repeat split; try reflexivity.
  destruct (PyFloat.eqb (Weeks.price c) (Weeks.price r)) eqn:E; [| reflexivity].
  rewrite (eq_not_lt _ _ E). reflexivity.
Qed.

(** C4, at the failing input. A card without a price text makes
    [parse_price] return infinity, and [search_google_flights] returns a
    quote at that price. *)
Theorem C4_google_quote_priced_at_infinity :
  Claude.parse_price "" = Ok PyFloat.inf
  /\ outcome (Claude.search_google_flights Scenario.world_unpriced "2025-01-10" "2025-01-12")
     = Ok (Some {| Claude.price := PyFloat.inf;
                   Claude.airline := "United";
                   Claude.duration := "3 hr 45 min";
                   Claude.departure_date := "2025-01-10";
                   Claude.return_date := "2025-01-12";
                   Claude.source := None |})
  /\ PyFloat.finite_nonneg PyFloat.inf = false.
Proof. repeat split. Qed.

(** * The ledger: claims C5, C6, C9 *)

(** C5, at the failing input. On a ledger file that exists and is empty,
    [load_best_price] raises the [JSONDecodeError] of [json.load], and the
    cycle of [main] ends on it. *)
Theorem C5_load_raises_on_truncated_ledger :
  Weeks.load_best_price Scenario.world_truncated = (Raise JSONDecodeError, [])
  /\ Weeks.main_cycle Scenario.world_truncated Scenario.today = (Raise JSONDecodeError, []).
Proof. split; reflexivity. Qed.

(** C6, as amended. A commit rewrites the ledger file in place: when the
    file opens it is emptied before anything else happens to it, so the
    empty file is what a reader sees until the record is written out, and
    the commit is atomic for no file that was not empty already; after a
    commit that completes the file holds the new record; a commit whose
    writing fails raises. When the file cannot be opened it is untouched. *)
Theorem C6_commit_truncates_then_writes (w : Weeks.world) (flight_info : Weeks.quote) :
  match Weeks.open_w w with
  | Ok _ =>
      (exists rest,
          flat_map WeeksSpec.file_states (trace (Weeks.save_best_price w flight_info))
          = Truncated :: rest)
      /\ match Weeks.ledger w with
         | Truncated => True
         | _ => ~ WeeksSpec.atomic_commit w flight_info
         end
      /\ match Weeks.dump w with
         | Ok _ =>
             Weeks.save_best_price w flight_info
             = (Ok tt, [Weeks.LedgerFile Truncated;
                        Weeks.LedgerFile (Holds (Weeks.to_json flight_info))])
         | Raise e => outcome (Weeks.save_best_price w flight_info) = Raise e
         end
  | Raise e => Weeks.save_best_price w flight_info = (Raise e, [])
  end.
Proof.
  destruct (Weeks.open_w w) as [[] | e] eqn:Hopen;
    [| unfold Weeks.save_best_price; rewrite Hopen; reflexivity].
  assert (exists rest,
             flat_map WeeksSpec.file_states (trace (Weeks.save_best_price w flight_info))
             = Truncated :: rest) as Hfirst.
  { unfold Weeks.save_best_price. rewrite Hopen.
    destruct (Weeks.dump w) as [[] | e']; [eexists; reflexivity |].
    destruct (Weeks.written_on_failure w); eexists; reflexivity. }
  split; [exact Hfirst |]. split.
  - destruct Hfirst as (rest & Hrest).
    assert (~ WeeksSpec.atomic_commit w flight_info \/ Weeks.ledger w = Truncated) as Hseen.
    { destruct (Weeks.ledger w) eqn:Hledger; try (right; reflexivity); left;
        unfold WeeksSpec.atomic_commit; rewrite Hrest, Hledger; intros Hall;
        inversion Hall as [| f fs [Hold | Hnew] _]; discriminate. }
    destruct (Weeks.ledger w); try exact I;
      destruct Hseen as [Hno | Habs]; try exact Hno; discriminate Habs.
  - unfold Weeks.save_best_price. rewrite Hopen.
    destruct (Weeks.dump w) as [[] | e']; [reflexivity |].
    destruct (Weeks.written_on_failure w); reflexivity.
Qed.

(** C6, as stated, fails: during a commit over a record at 300.00 the
    ledger file is seen empty, which is neither the old record nor the
    new. *)
Lemma C6_counterexample :
  ~ WeeksSpec.atomic_commit Scenario.world_recorded (Scenario.fare 24999 739262 739276).
Proof.
  unfold WeeksSpec.atomic_commit. intros H. vm_compute in H.
  inversion H as [| f fs [Hold | Hnew] _]; discriminate.
Qed.

(** C9. In a cycle whose test is true the ledger is committed first; when
    the commit succeeds the notification is called once, right after the
    record reached the file; when the commit fails the cycle ends on its
    exception and the notification is not called. In a cycle whose test is
    false, or that does not reach the test, neither is called. *)
Theorem C9_notification_follows_commit (w : Weeks.world) (today : Z) :
  let t := trace (Weeks.main_cycle w today) in
  match outcome (Weeks.main_search w today) with
  | Ok (Some c, true) =>
      match Weeks.open_w w, Weeks.dump w with
      | Ok _, Ok _ =>
          flat_map WeeksSpec.emails t = [c]
          /\ exists before after,
               t = before
                   ++ Weeks.LedgerFile (Holds (Weeks.to_json c))
                   :: Weeks.SendEmail c :: after
      | _, _ =>
          flat_map WeeksSpec.emails t = []
          /\ exists e, outcome (Weeks.main_cycle w today) = Raise e
      end
  | _ =>
      flat_map WeeksSpec.emails t = [] /\ flat_map WeeksSpec.file_states t = []
  end.
Proof.
  intros t. subst t. unfold Weeks.main_cycle.
  destruct (main_search_events w today) as [Hfiles Hmails].
  destruct (Weeks.main_search w today) as [found t0].
  unfold trace in Hfiles, Hmails. cbn [snd] in Hfiles, Hmails. cbn [outcome fst].
  destruct found as [[[c |] [|]] | e];
    unfold Weeks.save_best_price, Weeks.send_email_notification;
    try (unfold bind, trace, ret, emit; simpl; rewrite ?flat_map_app, ?Hfiles, ?Hmails;
         split; reflexivity).
  destruct (Weeks.open_w w) as [[] | e1], (Weeks.dump w) as [[] | e2],
      (Weeks.smtp w) as [[] | e3];
    try match goal with
        | |- context [Weeks.written_on_failure w] => destruct (Weeks.written_on_failure w)
        end;
    unfold bind, trace, ret, emit, lift, try_except, raise; simpl;
    rewrite ?flat_map_app, ?Hfiles, ?Hmails; simpl;
    (split; [reflexivity |]); try (eexists; reflexivity).
  - exists (t0 ++ [Weeks.LedgerFile Truncated]),
      [Weeks.Sent c; Weeks.Sleep (Weeks.CHECK_INTERVAL_SECONDS * 1000)].
    rewrite <- app_assoc. reflexivity.
  - exists (t0 ++ [Weeks.LedgerFile Truncated]),
      [Weeks.Sleep (Weeks.CHECK_INTERVAL_SECONDS * 1000)].
    rewrite <- app_assoc. reflexivity.
Qed.

(** * The configuration file *)

Section ConfigLemmas.
Import Config.

Lemma equals_not_space (c : ascii) : is_equals c = true -> is_space c = false.
Proof.
  unfold is_equals, is_space. intros H. apply N.eqb_eq in H. rewrite H. reflexivity.
Qed.

Lemma lstrip_spaces (p : string) : all_chars is_space p = true -> lstrip p = "".
Proof.
  induction p as [| c p IH]; simpl; [reflexivity |].
  intros H. apply andb_prop in H as [-> Hp]. auto.
Qed.

Lemma lstrip_pad (p s : string) :
  all_chars is_space p = true -> lstrip (p ++ s) = lstrip s.
Proof.
  induction p as [| c p IH]; simpl; [reflexivity |].
  intros H. apply andb_prop in H as [-> Hp]. auto.
Qed.

Lemma rstrip_spaces (p : string) : all_chars is_space p = true -> rstrip p = "".
Proof.
  induction p as [| c p IH]; simpl; [reflexivity |].
  intros H. apply andb_prop in H as [-> Hp]. rewrite IH by exact Hp. reflexivity.
Qed.

Lemma rstrip_pad (s p : string) :
  all_chars is_space p = true -> rstrip (s ++ p) = rstrip s.
Proof.
  intros Hp. induction s as [| c s IH]; simpl.
  - apply rstrip_spaces, Hp.
  - rewrite IH. reflexivity.
Qed.

(** A character that is not a space shields what follows it from
    [lstrip] and what precedes it from [rstrip]. *)
Lemma lstrip_mid (x z : string) (c : ascii) :
  is_space c = false -> lstrip (x ++ String c z) = (lstrip x ++ String c z)%string.
Proof.
  intros Hc. induction x as [| a x IH]; simpl.
  - rewrite Hc. reflexivity.
  - destruct (is_space a); [exact IH | reflexivity].
Qed.

Lemma rstrip_cons (c : ascii) (s : string) :
  rstrip s <> "" -> rstrip (String c s) = String c (rstrip s).
Proof. simpl. destruct (rstrip s); [congruence | reflexivity]. Qed.

Lemma rstrip_mid (w y : string) (c : ascii) :
  is_space c = false -> rstrip (w ++ String c y) = (w ++ String c (rstrip y))%string.
Proof.
  intros Hc.
  assert (rstrip (String c y) = String c (rstrip y)) as Hbase.
  { simpl. destruct (rstrip y); [rewrite Hc |]; reflexivity. }
  induction w as [| a w IH].
  - exact Hbase.
  - change ((String a w ++ String c y)%string) with (String a (w ++ String c y)).
    rewrite rstrip_cons; rewrite IH; [reflexivity |].
    destruct w; discriminate.
Qed.

Lemma rstrip_app (a b : string) :
  rstrip b <> "" -> rstrip (a ++ b) = (a ++ rstrip b)%string.
Proof.
  intros Hb. induction a as [| c a IH]; [reflexivity |].
  change ((String c a ++ b)%string) with (String c (a ++ b)).
  rewrite rstrip_cons; rewrite IH; [reflexivity |].
  destruct a; [exact Hb | discriminate].
Qed.

Lemma rstrip_idempotent (s : string) : rstrip (rstrip s) = rstrip s.
Proof.
  induction s as [| c s IH]; [reflexivity |]. simpl.
  destruct (rstrip s) as [| d r] eqn:E.
  - destruct (is_space c) eqn:Hc; simpl; [reflexivity | rewrite Hc; reflexivity].
  - rewrite rstrip_cons; rewrite IH; [reflexivity | discriminate].
Qed.

Lemma rstrip_head (c : ascii) (s : string) :
  rstrip (String c s) = "" \/ exists r, rstrip (String c s) = String c r.
Proof.
  simpl. destruct (rstrip s); [destruct (is_space c) |]; eauto.
Qed.

Lemma lstrip_head (s : string) :
  lstrip s = "" \/ exists c r, lstrip s = String c r /\ is_space c = false.
Proof.
  induction s as [| c s IH]; simpl; [auto |].
  destruct (is_space c) eqn:Hc; [exact IH | eauto].
Qed.

(** What [strip] returns is stripped. *)
Lemma strip_stripped (s : string) :
  lstrip (strip s) = strip s /\ rstrip (strip s) = strip s.
Proof.
  unfold strip. split; [| apply rstrip_idempotent].
  destruct (lstrip_head s) as [-> | (c & r & -> & Hc)]; [reflexivity |].
  destruct (rstrip_head c r) as [-> | [r' ->]]; [reflexivity |].
  simpl. rewrite Hc. reflexivity.
Qed.

(** [strip] of a stripped text within white space. *)
Lemma strip_padded (p k q : string) :
  all_chars is_space p = true ->
  all_chars is_space q = true ->
  lstrip k = k -> rstrip k = k ->
  strip (p ++ k ++ q) = k.
Proof.
  intros Hp Hq Hl Hr. unfold strip. rewrite lstrip_pad by exact Hp.
  destruct k as [| c k'].
  - simpl. rewrite lstrip_spaces by exact Hq. reflexivity.
  - assert (is_space c = false) as Hc.
    { simpl in Hl. destruct (is_space c); [| reflexivity].
      exfalso. assert (String.length (lstrip k') <= String.length k')%nat as Hlen.
      { clear. induction k' as [| a k IH]; simpl; [lia |].
        destruct (is_space a); simpl; lia. }
      rewrite Hl in Hlen. simpl in Hlen. lia. }
    change ((String c k' ++ q)%string) with (String c (k' ++ q)).
    simpl lstrip. rewrite Hc.
    change (String c (k' ++ q)) with ((String c k' ++ q)%string).
    rewrite rstrip_pad by exact Hq. exact Hr.
Qed.

Lemma split_once_app (k rest : string) :
  all_chars (fun c => negb (is_equals c)) k = true ->
  split_once (k ++ String "=" rest) = Some (k, rest).
Proof.
  induction k as [| c k IH]; simpl; [reflexivity |].
  intros H. apply andb_prop in H as [Hc Hk].
  apply negb_true_iff in Hc. rewrite Hc, IH by exact Hk. reflexivity.
Qed.

Lemma all_chars_app (p : ascii -> bool) (a b : string) :
  all_chars p (a ++ b) = all_chars p a && all_chars p b.
Proof.
  induction a as [| c a IH]; simpl; [reflexivity |]. rewrite IH, andb_assoc. reflexivity.
Qed.

Lemma all_chars_imp (p q : ascii -> bool) (s : string) :
  (forall c, p c = true -> q c = true) ->
  all_chars p s = true -> all_chars q s = true.
Proof.
  intros Hpq. induction s as [| c s IH]; simpl; [reflexivity |].
  intros H. apply andb_prop in H as [Hc Hs]. rewrite (Hpq c Hc), IH by exact Hs. reflexivity.
Qed.

Lemma all_chars_lstrip (p : ascii -> bool) (s : string) :
  all_chars p s = true -> all_chars p (lstrip s) = true.
Proof.
  induction s as [| c s IH]; simpl; [reflexivity |].
  intros H. destruct (is_space c); [apply andb_prop in H as [_ Hs]; auto | exact H].
Qed.

Lemma all_chars_rstrip (p : ascii -> bool) (s : string) :
  all_chars p s = true -> all_chars p (rstrip s) = true.
Proof.
  induction s as [| c s IH]; simpl; [reflexivity |].
  intros H. apply andb_prop in H as [Hc Hs]. specialize (IH Hs).
  destruct (rstrip s) as [| d r].
  - destruct (is_space c); simpl; [reflexivity | rewrite Hc; reflexivity].
  - simpl in *. rewrite Hc, IH. reflexivity.
Qed.

Lemma split_once_before (s before after : string) :
  split_once s = Some (before, after) ->
  all_chars (fun c => negb (is_equals c)) before = true.
Proof.
  revert before after. induction s as [| c s IH]; simpl; intros before after; [discriminate |].
  destruct (is_equals c) eqn:Hc.
  - intros [= <- _]. reflexivity.
  - destruct (split_once s) as [[b a] |]; [| discriminate].
    intros [= <- <-]. simpl. rewrite Hc. simpl. apply (IH b a). reflexivity.
Qed.

Lemma dict_get_set (key key' value : string) (d : dict) :
  dict_get key' (dict_set key value d)
  = if String.eqb key key' then Some value else dict_get key' d.
Proof.
  induction d as [| [k v] d IH]; simpl.
  - reflexivity.
  - destruct (String.eqb k key) eqn:E; simpl.
    + apply String.eqb_eq in E. subst k. destruct (String.eqb key key'); reflexivity.
    + rewrite IH. destruct (String.eqb k key') eqn:E'; [| reflexivity].
      apply String.eqb_eq in E'. subst k. rewrite String.eqb_sym, E. reflexivity.
Qed.

Lemma dict_set_keys (key value : string) (d : dict) (k : string) :
  In k (map fst (dict_set key value d)) <-> k = key \/ In k (map fst d).
Proof.
  induction d as [| [k0 v0] d IH]; simpl.
  - intuition auto.
  - destruct (String.eqb k0 key) eqn:E; simpl.
    + apply String.eqb_eq in E. subst k0. intuition auto.
    + rewrite IH. intuition auto.
Qed.

Lemma dict_set_NoDup (key value : string) (d : dict) :
  NoDup (map fst d) -> NoDup (map fst (dict_set key value d)).
Proof.
  induction d as [| [k0 v0] d IH]; simpl; intros H.
  - constructor; [intros [] | constructor].
  - inversion H as [| ? ? Hnotin Hd]; subst.
    destruct (String.eqb k0 key) eqn:E; simpl.
    + constructor; assumption.
    + constructor; [| auto]. rewrite dict_set_keys. intros [-> | Hin]; [| auto].
      rewrite String.eqb_refl in E. discriminate.
Qed.

Lemma dict_set_Forall (P : string * string -> Prop) (key value : string) (d : dict) :
  P (key, value) -> Forall P d -> Forall P (dict_set key value d).
Proof.
  intros Hnew. induction d as [| [k0 v0] d IH]; simpl; intros H.
  - constructor; [exact Hnew | constructor].
  - inversion H; subst. destruct (String.eqb k0 key) eqn:E.
    + apply String.eqb_eq in E. subst k0. constructor; assumption.
    + constructor; auto.
Qed.

(** The loop keeps a dict whose keys are distinct, stripped and without
    ['='], and whose values are stripped. *)
Lemma read_lines_invariant (lines : list string) (config config' : dict) :
  read_lines lines config = Ok config' ->
  NoDup (map fst config)
  /\ Forall (fun kv => strip (fst kv) = fst kv /\ strip (snd kv) = snd kv
                      /\ all_chars (fun c => negb (is_equals c)) (fst kv) = true)
       config ->
  NoDup (map fst config')
  /\ Forall (fun kv => strip (fst kv) = fst kv /\ strip (snd kv) = snd kv
                      /\ all_chars (fun c => negb (is_equals c)) (fst kv) = true)
       config'.
Proof.
  revert config. induction lines as [| line rest IH]; simpl; intros config.
  - intros [= <-]. auto.
  - destruct (is_entry line); [| apply IH].
    destruct (split_once (strip line)) as [[key value] |] eqn:Hsplit; [| discriminate].
    intros Hrest [Hnd Hall]. apply (IH _ Hrest). split.
    + apply dict_set_NoDup, Hnd.
    + apply dict_set_Forall; [| exact Hall]. simpl.
      assert (forall s, strip (strip s) = strip s) as Hidem.
      { intros s. destruct (strip_stripped s) as [Hl Hr].
        unfold strip at 1. rewrite Hl. exact Hr. }
      repeat split; [apply Hidem | apply Hidem |].
      apply all_chars_rstrip, all_chars_lstrip.
      apply (split_once_before _ Hsplit).
Qed.
End ConfigLemmas.

Section ConfigTheorems.
Import Config.

Lemma string_app_assoc (a b c : string) : ((a ++ b) ++ c = a ++ b ++ c)%string.
Proof. induction a as [| x a IH]; simpl; [reflexivity | rewrite IH; reflexivity]. Qed.

Lemma string_app_nil_r (a : string) : (a ++ "" = a)%string.
Proof. induction a as [| x a IH]; simpl; [reflexivity | rewrite IH; reflexivity]. Qed.

Lemma split_once_none (s : string) : is_none (split_once s) = no_equals s.
Proof.
  unfold no_equals. induction s as [| c s IH]; simpl; [reflexivity |].
  destruct (is_equals c); simpl; [reflexivity |].
  rewrite <- IH. destruct (split_once s) as [[b a] |]; reflexivity.
Qed.

Lemma all_chars_strip (p : ascii -> bool) (s : string) :
  (forall c, is_space c = true -> p c = true) ->
  all_chars p (strip s) = all_chars p s.
Proof.
  intros Hp. unfold strip.
  assert (forall t, all_chars p (rstrip t) = all_chars p t) as Hr.
  { induction t as [| c t IH]; simpl; [reflexivity |].
    destruct (rstrip t) as [| d r] eqn:E.
    - rewrite <- IH. simpl. destruct (is_space c) eqn:Hc; simpl.
      + rewrite (Hp c Hc). reflexivity.
      + rewrite andb_true_r. reflexivity.
    - rewrite <- IH. reflexivity. }
  rewrite Hr. induction s as [| c s IH]; simpl; [reflexivity |].
  destruct (is_space c) eqn:Hc; [| reflexivity].
  rewrite (Hp c Hc). exact IH.
Qed.

Lemma no_equals_strip (s : string) : no_equals (strip s) = no_equals s.
Proof.
  apply all_chars_strip. intros c Hc. destruct (is_equals c) eqn:E; [| reflexivity].
  rewrite (equals_not_space c E) in Hc. discriminate.
Qed.

Lemma read_lines_app (l1 l2 : list string) (config : dict) :
  read_lines (l1 ++ l2) config
  = match read_lines l1 config with
    | Ok config' => read_lines l2 config'
    | Raise e => Raise e
    end.
Proof.
  revert config. induction l1 as [| line l1 IH]; intros config; simpl; [reflexivity |].
  destruct (is_entry line); [| apply IH].
  destruct (split_once (strip line)) as [[k v] |]; [apply IH | reflexivity].
Qed.

Lemma read_lines_fails (lines : list string) (config : dict) :
  match read_lines lines config with Ok _ => false | Raise _ => true end
  = existsb (fun line => is_entry line && no_equals line) lines.
Proof.
  revert config. induction lines as [| line rest IH]; intros config; simpl; [reflexivity |].
  destruct (is_entry line); simpl; [| apply IH].
  rewrite <- no_equals_strip, <- split_once_none.
  destruct (split_once (strip line)) as [[k v] |]; simpl; [apply IH | reflexivity].
Qed.

Lemma dict_set_not_nil (key value : string) (d : dict) : dict_set key value d <> [].
Proof. destruct d as [| [k v] d]; simpl; [| destruct (String.eqb k key)]; discriminate. Qed.

Lemma read_lines_empty (lines : list string) (config config' : dict) :
  read_lines lines config = Ok config' ->
  match config' with [] => true | _ => false end
  = match config with [] => negb (existsb is_entry lines) | _ => false end.
Proof.
  revert config. induction lines as [| line rest IH]; intros config; simpl.
  - intros [= <-]. destruct config; reflexivity.
  - destruct (is_entry line); simpl; [| apply IH].
    destruct (split_once (strip line)) as [[k v] |]; [| discriminate].
    intros H. rewrite (IH _ H).
    pose proof (dict_set_not_nil (strip k) (strip v) config) as Hne.
    destruct (dict_set (strip k) (strip v) config); [congruence |].
    destruct config; reflexivity.
Qed.

(** [load_config] returns [None] exactly when the file is missing or
    unreadable, or when one of its lines that is neither blank nor a comment
    has no ['=']: one such line loses every setting of the file. *)
Theorem load_config_fails_on_a_line_without_equals (lines : list string) :
  load_config NoTextFile = None
  /\ load_config UnreadableText = None
  /\ is_none (load_config (TextLines lines))
     = existsb (fun line => is_entry line && no_equals line) lines.
Proof.
  repeat split. unfold load_config. rewrite <- (read_lines_fails lines []).
  destruct (read_lines lines []); reflexivity.
Qed.

(** In the dict that [load_config] returns the keys are distinct, keys and
    values carry no white space at either end, and no key holds a ['=']. *)
Theorem load_config_keys_and_values_are_stripped (file : text_file) (config : dict) :
  load_config file = Some config ->
  NoDup (map fst config)
  /\ Forall (fun kv => strip (fst kv) = fst kv /\ strip (snd kv) = snd kv
                      /\ no_equals (fst kv) = true)
       config.
Proof.
  unfold load_config. destruct file as [| | lines]; try discriminate.
  destruct (read_lines lines []) as [c |] eqn:H; [| discriminate].
  intros [= <-]. unfold no_equals.
  eapply read_lines_invariant; [exact H | split; constructor].
Qed.

Lemma load_config_keys_and_values_are_stripped_witness :
  load_config (TextLines ["# keys"; " A = b=c "; "X=1"; "A= 2"]) = Some [("A", "2"); ("X", "1")]
  /\ NoDup (map fst [("A", "2"); ("X", "1")])
  /\ Forall (fun kv => strip (fst kv) = fst kv /\ strip (snd kv) = snd kv
                       /\ no_equals (fst kv) = true)
       [("A", "2"); ("X", "1")].
Proof.
  split; [reflexivity |].
  apply (@load_config_keys_and_values_are_stripped
           (TextLines ["# keys"; " A = b=c "; "X=1"; "A= 2"])).
  reflexivity.
Defined.

(** A line [key = value], with any white space around the key and the
    value, binds the stripped key to the stripped value, whatever ['='] the
    value holds; it replaces the binding of an earlier line for the same key
    and leaves the other keys alone. *)
Theorem load_config_last_binding_wins
    (lines : list string) (config : dict) (p1 key p2 p3 value p4 : string) :
  load_config (TextLines lines) = Some config ->
  blank p1 = true -> blank p2 = true -> blank p3 = true -> blank p4 = true ->
  strip key = key -> strip value = value ->
  no_equals key = true -> is_comment key = false ->
  load_config
    (TextLines (lines ++ [(p1 ++ key ++ p2 ++ "=" ++ p3 ++ value ++ p4)%string]))
  = Some (dict_set key value config)
  /\ dict_get key (dict_set key value config) = Some value
  /\ (forall other, String.eqb key other = false ->
        dict_get other (dict_set key value config) = dict_get other config).
Proof.
  unfold blank, no_equals.
  intros Hload Hp1 Hp2 Hp3 Hp4 Hkey Hvalue Hne Hcomment.
  assert (forall s, strip s = s -> lstrip s = s /\ rstrip s = s) as Hinv.
  { intros s Hs. destruct (strip_stripped s) as [Hl Hr]. rewrite Hs in Hl, Hr. auto. }
  destruct (Hinv key Hkey) as [Hkl Hkr]. destruct (Hinv value Hvalue) as [Hvl Hvr].
  repeat split.
  - unfold load_config in *. rewrite read_lines_app.
    destruct (read_lines lines []) as [c |]; [| discriminate].
    injection Hload as ->. cbn [read_lines].
    pose (x := (p1 ++ key ++ p2)%string). pose (y := (p3 ++ value ++ p4)%string).
    assert ((p1 ++ key ++ p2 ++ "=" ++ p3 ++ value ++ p4)%string = (x ++ String "=" y)%string)
      as -> by (unfold x, y; rewrite !string_app_assoc; reflexivity).
    assert (strip (x ++ String "=" y) = (lstrip x ++ String "=" (rstrip y))%string) as Hstrip.
    { unfold strip. rewrite lstrip_mid by reflexivity. apply rstrip_mid. reflexivity. }
    assert (all_chars (fun c => negb (is_equals c)) (lstrip x) = true) as Hx.
    { apply all_chars_lstrip. unfold x. rewrite !all_chars_app, Hne.
      assert (forall p, all_chars is_space p = true
                        -> all_chars (fun c => negb (is_equals c)) p = true) as Hsp.
      { intros p. apply all_chars_imp. intros c Hc.
        destruct (is_equals c) eqn:E; [| reflexivity].
        rewrite (equals_not_space c E) in Hc. discriminate. }
      rewrite (Hsp p1 Hp1), (Hsp p2 Hp2). reflexivity. }
    assert (strip (lstrip x) = key) as Hk.
    { assert (strip (lstrip x) = strip x) as ->.
      { unfold strip. f_equal. destruct (lstrip_head x) as [-> | (c & r & -> & Hc)];
          [reflexivity |]. simpl. rewrite Hc. reflexivity. }
      apply strip_padded; assumption. }
    assert (strip (rstrip y) = value) as Hv.
    { unfold y. rewrite <- string_app_assoc, rstrip_pad by exact Hp4.
      destruct value as [| c v'].
      - rewrite string_app_nil_r, rstrip_spaces by exact Hp3. reflexivity.
      - rewrite rstrip_app by (rewrite Hvr; discriminate). rewrite Hvr.
        rewrite <- (string_app_nil_r (String c v')) at 1.
        apply strip_padded; [exact Hp3 | reflexivity | exact Hvl | exact Hvr]. }
    unfold is_entry. rewrite Hstrip.
    assert (negb ((lstrip x ++ String "=" (rstrip y))%string =? "")%string
            && negb (is_comment (lstrip x ++ String "=" (rstrip y))) = true) as ->.
    { unfold x. rewrite lstrip_pad by exact Hp1.
      destruct key as [| c k'].
      - simpl. rewrite lstrip_spaces by exact Hp2. reflexivity.
      - assert (is_space c = false) as Hc.
        { destruct (lstrip_head (String c k')) as [H | (c' & r & H & Hc')];
            rewrite Hkl in H; [discriminate | injection H as -> _; exact Hc']. }
        simpl. rewrite Hc. simpl in Hcomment. simpl. rewrite Hcomment. reflexivity. }
    rewrite split_once_app by exact Hx. rewrite Hk, Hv. reflexivity.
  - rewrite dict_get_set, String.eqb_refl. reflexivity.
  - intros other Hother. rewrite dict_get_set, Hother. reflexivity.
Qed.

Lemma load_config_last_binding_wins_witness :
  load_config
    (TextLines (["# credentials"; "AMADEUS_API_SECRET=old"]
                  ++ [("  " ++ "AMADEUS_API_SECRET" ++ " " ++ "=" ++ " " ++ "c2VjcmV0=="
                         ++ String (ascii_of_nat 10) "")%string]))
  = Some (dict_set "AMADEUS_API_SECRET" "c2VjcmV0==" [("AMADEUS_API_SECRET", "old")])
  /\ dict_get "AMADEUS_API_SECRET"
       (dict_set "AMADEUS_API_SECRET" "c2VjcmV0==" [("AMADEUS_API_SECRET", "old")])
     = Some "c2VjcmV0==".
Proof.
  destruct (@load_config_last_binding_wins
              ["# credentials"; "AMADEUS_API_SECRET=old"] [("AMADEUS_API_SECRET", "old")]
              "  " "AMADEUS_API_SECRET" " " " " "c2VjcmV0==" (String (ascii_of_nat 10) "")
              eq_refl eq_refl eq_refl eq_refl eq_refl eq_refl eq_refl eq_refl eq_refl)
    as (H1 & H2 & _).
  split; [exact H1 | exact H2].
Defined.

(** The script goes past its start-up exactly when the configuration file
    loads and binds at least one key: a file of comments only stops it like
    a missing one, and no particular key is asked for. *)
Theorem startup_stops_without_a_binding (lines : list string) :
  startup NoTextFile = None
  /\ startup UnreadableText = None
  /\ is_none (startup (TextLines lines))
     = existsb (fun line => is_entry line && no_equals line) lines
       || negb (existsb is_entry lines).
Proof.
  repeat split. unfold startup.
  rewrite <- (read_lines_fails lines []). unfold load_config.
  destruct (read_lines lines []) as [c |] eqn:H; [| reflexivity].
  pose proof (read_lines_empty _ _ H) as He. simpl in *.
  destruct c; simpl; rewrite <- He; reflexivity.
Qed.
End ConfigTheorems.

(** * Reading a price *)

Section ParsePrice.
Import Claude ClaudeMore.

Lemma iter_pos_invariant {A} (P : A -> Prop) (f : A -> A) :
  (forall x, P x -> P (f x)) -> forall n x, P x -> P (iter_pos f n x).
Proof.
  intros Hf. induction n as [n IH | n IH |]; intros x Hx; simpl; auto.
Qed.

Lemma shr_1_nonneg (mrs : shr_record) : 0 <= shr_m mrs -> 0 <= shr_m (shr_1 mrs).
Proof.
  destruct mrs as [m r s]. simpl. destruct m as [| [p | p |] | p]; simpl; lia.
Qed.

Lemma shr_fexp_nonneg (m e : Z) (l : location) :
  0 <= m -> 0 <= shr_m (fst (shr_fexp 53 1024 m e l)).
Proof.
  intros Hm. unfold shr_fexp, shr.
  assert (0 <= shr_m (shr_record_of_loc m l)) as H0 by (destruct l as [| []]; exact Hm).
  destruct (fexp 53 1024 (Zdigits2 m + e) - e) as [| p | p]; simpl; try exact H0.
  apply (iter_pos_invariant (fun mrs => 0 <= shr_m mrs)); [apply shr_1_nonneg | exact H0].
Qed.

Lemma round_nearest_even_nonneg (m : Z) (l : location) :
  0 <= m -> 0 <= round_nearest_even m l.
Proof.
  intros Hm. destruct l as [| []]; simpl; try lia. destruct (Z.even m); lia.
Qed.

(** The float of an integer that is not negative is zero, a positive
    finite number, or infinity. *)
Lemma of_Z_range (n : Z) :
  0 <= n -> PyFloat.of_Z n = PyFloat.inf \/ PyFloat.finite_nonneg (PyFloat.of_Z n) = true.
Proof.
  intros Hn. unfold PyFloat.of_Z, binary_normalize.
  destruct n as [| m | m]; [right; reflexivity | | lia].
  unfold binary_round.
  destruct (shl_align m 0 (fexp 53 1024 (Z.pos (digits2_pos m) + 0))) as [mz ez].
  unfold binary_round_aux.
  pose proof (@shr_fexp_nonneg (Z.pos mz) ez loc_Exact) as H1.
  destruct (shr_fexp 53 1024 (Z.pos mz) ez loc_Exact) as [mrs' e'].
  simpl fst in H1. specialize (H1 ltac:(lia)).
  pose proof (@shr_fexp_nonneg
                (round_nearest_even (shr_m mrs') (loc_of_shr_record mrs')) e' loc_Exact) as H2.
  destruct (shr_fexp 53 1024 (round_nearest_even (shr_m mrs') (loc_of_shr_record mrs'))
              e' loc_Exact) as [mrs'' e''].
  simpl fst in H2. specialize (H2 (round_nearest_even_nonneg _ H1)).
  destruct (shr_m mrs'') as [| p | p]; [right; reflexivity | | lia].
  destruct (e'' <=? 1024 - 53); [right | left]; reflexivity.
Qed.

Lemma digits_commas_prefix_chars (s : string) :
  all_chars digit_or_comma (digits_commas_prefix s) = true.
Proof.
  induction s as [| c s IH]; simpl; [reflexivity |].
  destruct (is_digit c || is_comma c) eqn:E; simpl; [| reflexivity].
  unfold digit_or_comma at 1. rewrite E. exact IH.
Qed.

Lemma re_search_chars (s matched : string) :
  re_search_digits_commas s = Some matched ->
  all_chars digit_or_comma matched = true.
Proof.
  induction s as [| c s IH]; simpl; [discriminate |].
  destruct (is_digit c || is_comma c) eqn:E; [| exact IH].
  intros [= <-]. simpl. unfold digit_or_comma at 1. rewrite E.
  apply digits_commas_prefix_chars.
Qed.

Lemma remove_commas_chars (s : string) :
  all_chars digit_or_comma s = true -> all_chars is_digit (remove_commas s) = true.
Proof.
  induction s as [| c s IH]; simpl; [reflexivity |].
  intros H. apply andb_prop in H as [Hc Hs]. unfold digit_or_comma in Hc.
  destruct (is_comma c); [auto |]. rewrite orb_false_r in Hc. simpl. rewrite Hc. auto.
Qed.

Lemma decimal_value_nonneg (s : string) (acc : Z) :
  all_chars is_digit s = true -> 0 <= acc -> 0 <= decimal_value acc s.
Proof.
  revert acc. induction s as [| c s IH]; cbn [decimal_value all_chars];
    intros acc H Hacc; [exact Hacc |].
  apply andb_prop in H as [Hc Hs]. apply IH; [exact Hs |].
  unfold is_digit in Hc. apply andb_prop in Hc as [Hlo _]. apply N.leb_le in Hlo.
  apply N2Z.inj_le in Hlo. change (Z.of_N 48) with 48 in Hlo. unfold digit_value. lia.
Qed.

(** [parse_price] returns zero, a positive finite number or infinity,
    never a negative number nor a NaN; the one exception it raises is the
    [ValueError] of [float('')]. *)
Theorem parse_price_is_never_negative (price_text : string) :
  match parse_price price_text with
  | Ok x => x = PyFloat.inf \/ PyFloat.finite_nonneg x = true
  | Raise e => e = ValueError
  end.
Proof.
  unfold parse_price.
  destruct (re_search_digits_commas price_text) as [matched |] eqn:E; [| left; reflexivity].
  unfold float_of_digits.
  pose proof (remove_commas_chars _ (re_search_chars _ E)) as Hd.
  destruct (remove_commas matched) as [| c s] eqn:Er; [reflexivity |].
  apply of_Z_range, decimal_value_nonneg; [exact Hd | lia].
Qed.

Lemma re_search_skip (pre s : string) :
  all_chars (fun c => negb (digit_or_comma c)) pre = true ->
  re_search_digits_commas (pre ++ s) = re_search_digits_commas s.
Proof.
  induction pre as [| c pre IH]; simpl; [reflexivity |].
  intros H. apply andb_prop in H as [Hc Hpre]. apply negb_true_iff in Hc.
  unfold digit_or_comma in Hc. rewrite Hc. auto.
Qed.

Lemma digits_commas_prefix_run (run post : string) :
  all_chars digit_or_comma run = true -> stops_run post = true ->
  digits_commas_prefix (run ++ post) = run.
Proof.
  intros Hrun Hpost. induction run as [| c run IH]; simpl.
  - destruct post as [| c post]; [reflexivity |]. simpl in *.
    apply negb_true_iff in Hpost. unfold digit_or_comma in Hpost. rewrite Hpost. reflexivity.
  - simpl in Hrun. apply andb_prop in Hrun as [Hc Hrun]. unfold digit_or_comma in Hc.
    rewrite Hc, IH by exact Hrun. reflexivity.
Qed.

(** [parse_price] reads the first run of digits and commas of the text
    and nothing after it: the commas are dropped, and so is whatever
    follows the run, the cents after a decimal point included. A text
    without a digit or a comma gives infinity. *)
Theorem parse_price_reads_the_first_run (pre run post : string) :
  all_chars (fun c => negb (digit_or_comma c)) pre = true ->
  all_chars digit_or_comma run = true ->
  negb (String.eqb run "") = true ->
  stops_run post = true ->
  parse_price (pre ++ run ++ post) = float_of_digits (remove_commas run)
  /\ parse_price pre = Ok PyFloat.inf.
Proof.
  intros Hpre Hrun Hne Hpost. unfold parse_price. split.
  - rewrite re_search_skip by exact Hpre.
    destruct run as [| c run]; [discriminate |]. simpl.
    simpl in Hrun. apply andb_prop in Hrun as [Hc Hrun]. unfold digit_or_comma in Hc.
    rewrite Hc, digits_commas_prefix_run by assumption. reflexivity.
  - assert (re_search_digits_commas pre = None) as ->; [| reflexivity].
    clear - Hpre. induction pre as [| c pre IH]; simpl in *; [reflexivity |].
    apply andb_prop in Hpre as [Hc Hpre]. apply negb_true_iff in Hc.
    unfold digit_or_comma in Hc. rewrite Hc. auto.
Qed.

Lemma parse_price_reads_the_first_run_witness :
  parse_price ("$" ++ "1,234" ++ ".56 per person") = Ok (PyFloat.of_Z 1234)
  /\ parse_price "$" = Ok PyFloat.inf.
Proof.
  apply (@parse_price_reads_the_first_run "$" "1,234" ".56 per person");
    reflexivity.
Defined.
End ParsePrice.

(** * One search of the scraper *)

Section OneSearch.
Import Claude ClaudeMore.

(** A loop that appends what its guarded body yields collects the
    elements that the body gets through. *)
Lemma for_each_collect {E A B} (f : A -> M E B) (xs : list A) (acc : list B) :
  (forall x, trace (f x) = []) ->
  for_each xs
    (fun x acc => try_except (q <- f x ;; ret (acc ++ [q])) is_Exception (fun _ => ret acc))
    acc
  = (Ok (acc ++ flat_map (fun x => match outcome (f x) with Ok q => [q] | Raise _ => [] end) xs),
     []).
Proof.
  intros Hf. revert acc. induction xs as [| x xs IH]; intros acc; simpl.
  - rewrite app_nil_r. reflexivity.
  - specialize (Hf x). destruct (f x) as [[q | e] t]. 
    all: unfold trace in Hf; simpl in Hf; subst t.
    all: unfold bind at 1, try_except, bind, ret; simpl; rewrite IH.
    + rewrite <- app_assoc. reflexivity.
    + reflexivity.
Qed.

Lemma parse_flight_silent (d r : string) (card : flight_element) :
  trace (parse_flight d r card) = [].
Proof. unfold parse_flight. silent. Qed.

(** The body of the loop gets through a card exactly when the card stands
    for a quote, and yields that quote. *)
Lemma parse_flight_outcome (d r : string) (card : flight_element) :
  match outcome (parse_flight d r card) with
  | Ok q => [q]
  | Raise _ => []
  end
  = card_quote d r card.
Proof.
  unfold parse_flight, card_quote.
  destruct (price_text card) as [text | e]; [| reflexivity].
  rewrite outcome_bind. cbn [outcome lift fst].
  destruct (parse_price text) as [p | e]; [| reflexivity].
  rewrite outcome_bind. cbn [outcome lift fst].
  destruct (details card) as [[a b] | e]; reflexivity.
Qed.

Lemma outcome_lift {E A} (r : result A) : outcome (lift r : M E A) = r.
Proof. reflexivity. Qed.

Lemma outcome_ret {E A} (a : A) : outcome (ret a : M E A) = Ok a.
Proof. reflexivity. Qed.

Lemma outcome_try_except {E A} (c : M E A) (catches : exn -> bool) (h : exn -> M E A) :
  outcome (try_except c catches h)
  = match outcome c with
    | Ok a => Ok a
    | Raise e => if catches e then outcome (h e) else Raise e
    end.
Proof.
  unfold outcome, try_except. destruct c as [[a | e] t]; simpl; [reflexivity |].
  destruct (catches e); [destruct (h e) |]; reflexivity.
Qed.

(** What [search_google_flights] returns. *)
Lemma search_google_flights_outcome (w : world) (d r : string) :
  outcome (search_google_flights w d r)
  = match g_setup_driver (google w d r), g_get (google w d r),
          g_wait_results (google w d r), g_find_elements (google w d r) with
    | Ok _, Ok _, Ok _, Ok cards => Ok (py_min price (parsed_cards d r cards))
    | _, _, _, _ => Ok None
    end.
Proof.
  unfold search_google_flights, parsed_cards. rewrite outcome_bind. simpl outcome at 1.
  cbv iota. set (s := google w d r). rewrite outcome_try_except.
  rewrite outcome_bind, outcome_lift.
  destruct (g_setup_driver s) as [[] | e1]; [| reflexivity].
  rewrite outcome_bind, outcome_lift.
  destruct (g_get s) as [[] | e2]; [| reflexivity].
  rewrite outcome_bind.
  assert (outcome (try_except (lift (g_nonstop_filter s)) is_Exception
                     (fun _ => ret tt : M event unit)) = Ok tt) as ->.
  { rewrite outcome_try_except, outcome_lift. destruct (g_nonstop_filter s) as [[] |];
      reflexivity. }
  rewrite outcome_bind, outcome_try_except, outcome_bind, outcome_lift.
  destruct (g_wait_results s) as [[] | e3]; [| destruct e3; reflexivity].
  rewrite outcome_ret. cbn [negb]. cbv iota.
  rewrite outcome_bind, outcome_lift.
  destruct (g_find_elements s) as [cards | e4]; [| reflexivity].
  rewrite outcome_bind.
  rewrite (for_each_collect (parse_flight d r) (py_take 5 cards) []
             (parse_flight_silent d r)).
  cbn [app outcome fst].
  rewrite (flat_map_ext _ _ (parse_flight_outcome d r)). reflexivity.
Qed.

Lemma parsed_cards_dates (d r : string) (cards : list flight_element) :
  Forall (fun q => departure_date q = d /\ return_date q = r /\ source q = None)
    (parsed_cards d r cards).
Proof.
  unfold parsed_cards. apply Forall_flat_map, Forall_forall. intros card _.
  unfold card_quote.
  destruct (price_text card) as [text | e]; [| constructor].
  destruct (parse_price text) as [p | e]; repeat constructor.
Qed.

(** Each quote of the first five cards carries the price that
    [parse_price] finds in the price text of its card. *)
Lemma parsed_cards_prices (d r : string) (cards : list flight_element) :
  Forall (fun q => exists card text,
              In card (firstn 5 cards)
              /\ price_text card = Ok text
              /\ parse_price text = Ok (price q))
    (parsed_cards d r cards).
Proof.
  unfold parsed_cards. apply Forall_flat_map, Forall_forall. intros card Hcard.
  unfold card_quote.
  destruct (price_text card) as [text | e] eqn:Htext; [| constructor].
  destruct (parse_price text) as [p | e] eqn:Hp; [| constructor].
  constructor; [| constructor]. exists card, text. repeat split; assumption.
Qed.

(** When the results page loads, [search_google_flights] returns the
    first cheapest of the quotes that the first five flight cards stand for
    and [None] when none of the five stands for one; a card after the fifth
    is never looked at. Each of these quotes carries the price that
    [parse_price] finds in the price text of its card and is labelled with
    the dates asked for. When the driver, the page load, the wait or the
    listing fails it returns [None]. *)
Theorem search_google_flights_takes_the_cheapest_card (w : world) (d r : string) :
  match g_setup_driver (google w d r), g_get (google w d r),
        g_wait_results (google w d r), g_find_elements (google w d r) with
  | Ok _, Ok _, Ok _, Ok cards =>
      cheapest_of price (outcome (search_google_flights w d r))
        (flat_map (card_quote d r) (firstn 5 cards))
      /\ Forall (fun q => departure_date q = d /\ return_date q = r /\ source q = None
                         /\ exists card text,
                              In card (firstn 5 cards)
                              /\ price_text card = Ok text
                              /\ parse_price text = Ok (price q))
           (flat_map (card_quote d r) (firstn 5 cards))
  | _, _, _, _ => outcome (search_google_flights w d r) = Ok None
  end.
Proof.
  rewrite search_google_flights_outcome.
  destruct (g_setup_driver (google w d r)) as [[] |]; [| reflexivity].
  destruct (g_get (google w d r)) as [[] |]; [| reflexivity].
  destruct (g_wait_results (google w d r)) as [[] |]; [| reflexivity].
  destruct (g_find_elements (google w d r)) as [cards |]; [| reflexivity].
  change (flat_map (card_quote d r) (firstn 5 cards)) with (parsed_cards d r cards).
  split.
  - unfold cheapest_of. destruct (py_min price (parsed_cards d r cards)) as [q |] eqn:E.
    + apply py_min_first_cheapest, E.
    + apply py_min_none in E. exact E.
  - pose proof (parsed_cards_dates d r cards) as Hdates.
    pose proof (parsed_cards_prices d r cards) as Hprices.
    rewrite Forall_forall in *. intros q Hq.
    destruct (Hdates q Hq) as (Hd & Hr & Hs). repeat split; auto.
Qed.

Lemma fold_left_append {A B} (g : A -> list B) (xs : list A) (acc : list B) :
  fold_left (fun a x => a ++ g x) xs acc = acc ++ flat_map g xs.
Proof.
  revert acc. induction xs as [| x xs IH]; intros acc; simpl.
  - rewrite app_nil_r. reflexivity.
  - rewrite IH, <- app_assoc. reflexivity.
Qed.

(** What [search_kayak] returns. *)
Lemma search_kayak_outcome (w : world) (d r : string) :
  outcome (search_kayak w d r)
  = match k_setup_driver (kayak w d r), k_get (kayak w d r),
          k_security_check (kayak w d r), k_wait_results (kayak w d r),
          k_find_elements (kayak w d r) with
    | Ok _, Ok _, Ok false, Ok _, Ok elements =>
        Ok (option_map (kayak_quote d r) (py_min (fun p => p) (kept_prices elements)))
    | _, _, _, _, _ => Ok None
    end.
Proof.
  unfold search_kayak, kept_prices. rewrite outcome_bind. simpl outcome at 1.
  cbv iota. set (s := kayak w d r). rewrite outcome_try_except.
  rewrite outcome_bind, outcome_lift.
  destruct (k_setup_driver s) as [[] | e1]; [| reflexivity].
  rewrite outcome_bind, outcome_lift.
  destruct (k_get s) as [[] | e2]; [| reflexivity].
  rewrite outcome_bind, outcome_lift.
  destruct (k_security_check s) as [[|] | e3]; try reflexivity.
  rewrite outcome_try_except, outcome_bind, outcome_lift.
  destruct (k_wait_results s) as [[] | e4]; [| destruct e4; reflexivity].
  rewrite outcome_bind, outcome_lift.
  destruct (k_find_elements s) as [elements | e5]; [| destruct e5; reflexivity].
  rewrite outcome_bind.
  rewrite (for_each_pure (fun elem prices => prices ++ kept_price elem) (fun _ => [])).
  - unfold outcome at 1, fst. rewrite fold_left_append. cbn [app].
    destruct (py_min (fun p => p) (flat_map kept_price (py_take 5 elements))); reflexivity.
  - intros elem prices. unfold kept_price.
    destruct elem as [text | e]; [| rewrite app_nil_r; reflexivity].
    unfold try_except, bind, lift, ret. simpl.
    destruct (parse_price text) as [p | e]; simpl; [| rewrite app_nil_r; reflexivity].
    destruct (p <?f PyFloat.inf); simpl; [reflexivity | rewrite app_nil_r; reflexivity].
Qed.

Lemma kept_price_below_inf (elem : result string) :
  Forall (fun p => (p <?f PyFloat.inf) = true) (kept_price elem).
Proof.
  unfold kept_price. destruct elem as [text |]; [| constructor].
  destruct (parse_price text) as [p |]; [| constructor].
  destruct (p <?f PyFloat.inf) eqn:E; repeat constructor. exact E.
Qed.

(** When the page loads without the security check, [search_kayak]
    returns a quote at the lowest of the first five prices that read as a
    number below infinity, labelled with the dates asked for and with fixed
    airline, duration and source, and [None] when no price does. When the
    driver, the page, the wait or the listing fails, or the security check
    shows, it returns [None]. *)
Theorem search_kayak_takes_the_lowest_price (w : world) (d r : string) :
  match k_setup_driver (kayak w d r), k_get (kayak w d r),
        k_security_check (kayak w d r), k_wait_results (kayak w d r),
        k_find_elements (kayak w d r) with
  | Ok _, Ok _, Ok false, Ok _, Ok elements =>
      match outcome (search_kayak w d r) with
      | Ok (Some q) =>
          q = kayak_quote d r (price q)
          /\ first_cheapest (fun p => p) (price q) (kept_prices elements)
          /\ (price q <?f PyFloat.inf) = true
      | Ok None => kept_prices elements = []
      | Raise _ => False
      end
  | _, _, _, _, _ => outcome (search_kayak w d r) = Ok None
  end.
Proof.
  rewrite search_kayak_outcome.
  destruct (k_setup_driver (kayak w d r)) as [[] |]; [| reflexivity].
  destruct (k_get (kayak w d r)) as [[] |]; [| reflexivity].
  destruct (k_security_check (kayak w d r)) as [[|] |]; try reflexivity.
  destruct (k_wait_results (kayak w d r)) as [[] |]; [| reflexivity].
  destruct (k_find_elements (kayak w d r)) as [elements |]; [| reflexivity].
  destruct (py_min (fun p => p) (kept_prices elements)) as [p |] eqn:E; simpl.
  - apply py_min_first_cheapest in E. repeat split; [exact E |].
    apply first_cheapest_In in E. unfold kept_prices in E.
    apply in_flat_map in E as (elem & _ & Hp).
    pose proof (kept_price_below_inf elem) as Hall.
    rewrite Forall_forall in Hall. apply Hall, Hp.
  - apply py_min_none in E. exact E.
Qed.

(** The quote of a search is for the dates of the search. *)
Lemma search_dates (w : world) (d r : string) (q : quote) :
  outcome (search_google_flights w d r) = Ok (Some q)
  \/ outcome (search_kayak w d r) = Ok (Some q) ->
  departure_date q = d /\ return_date q = r.
Proof.
  intros [H | H].
  - rewrite search_google_flights_outcome in H.
    destruct (g_setup_driver (google w d r)) as [[] |]; [| discriminate].
    destruct (g_get (google w d r)) as [[] |]; [| discriminate].
    destruct (g_wait_results (google w d r)) as [[] |]; [| discriminate].
    destruct (g_find_elements (google w d r)) as [cards |]; [| discriminate].
    injection H as H. apply py_min_first_cheapest, first_cheapest_In in H.
    pose proof (parsed_cards_dates d r cards) as Hall.
    rewrite Forall_forall in Hall. destruct (Hall q H) as (H1 & H2 & _). auto.
  - rewrite search_kayak_outcome in H.
    destruct (k_setup_driver (kayak w d r)) as [[] |]; [| discriminate].
    destruct (k_get (kayak w d r)) as [[] |]; [| discriminate].
    destruct (k_security_check (kayak w d r)) as [[|] |]; try discriminate.
    destruct (k_wait_results (kayak w d r)) as [[] |]; [| discriminate].
    destruct (k_find_elements (kayak w d r)) as [elements |]; [| discriminate].
    destruct (py_min (fun p => p) (kept_prices elements)); [| discriminate].
    injection H as <-. split; reflexivity.
Qed.
End OneSearch.

(** * The sweep of the scraper and its price history *)

Section ScraperSweep.
Import Claude ClaudeSpec ClaudeMore.

Lemma offsets_length (search_days : Z) :
  List.length (offsets search_days) = (6 * Z.to_nat search_days)%nat.
Proof.
  unfold offsets.
  assert (forall l : list Z,
             List.length (flat_map (fun dep_days =>
                                      map (fun trip_length => (dep_days, trip_length))
                                        (py_range 2 8)) l)
             = (6 * List.length l)%nat) as H.
  { induction l as [| x l IH]; [reflexivity |].
    cbn [flat_map]. rewrite length_app, IH, length_map. unfold py_range.
    rewrite length_map, length_seq. simpl List.length. lia. }
  rewrite H. unfold py_range. rewrite length_map, length_seq. f_equal. lia.
Qed.

Lemma pair_events_pauses (w : world) (d r : string) :
  flat_map pauses (pair_events w d r) = [3].
Proof.
  unfold pair_events. destruct (outcome (search_google_flights w d r)) as [[q |] | e];
    reflexivity.
Qed.

Lemma pair_events_kayak (w : world) (d r : string) :
  (List.length (flat_map kayak_searches (pair_events w d r)) <= 1)%nat.
Proof.
  unfold pair_events. destruct (outcome (search_google_flights w d r)) as [[q |] | e];
    simpl; lia.
Qed.

(** Whatever the sites do, [check_all_dates] makes six Google searches for
    each of the [search_days] departure days, at most as many Kayak
    searches, and pauses three seconds after each pair; with no day to
    search it does nothing. *)
Theorem check_all_dates_sweeps_the_whole_grid (self : scraper) (w : world) (today : Z) :
  let t := trace (check_all_dates self w today) in
  List.length (flat_map googled t) = (6 * Z.to_nat (search_days self))%nat
  /\ (List.length (flat_map kayak_searches t) <= 6 * Z.to_nat (search_days self))%nat
  /\ flat_map pauses t = repeat 3 (6 * Z.to_nat (search_days self)).
Proof.
  intros t. subst t. rewrite check_all_dates_eq. unfold trace. cbn [snd].
  rewrite <- offsets_length. rewrite !flat_map_flat_map.
  induction (offsets (search_days self)) as [| o os IH]; cbn [flat_map List.length repeat].
  - repeat split. lia.
  - destruct IH as (H1 & H2 & H3).
    rewrite !length_app, pair_events_googled, pair_events_pauses, H1, H3.
    pose proof (pair_events_kayak w (fst (date_pair today o)) (snd (date_pair today o))).
    split; [reflexivity |]. split; [lia | reflexivity].
Qed.

(** The quote that [check_all_dates] returns is one that a search returned
    for a pair of the grid, and it carries the dates of that pair: a
    departure 1 to [search_days] days ahead and a return 2 to 7 days
    later. *)
Theorem check_all_dates_returns_a_quote_of_the_grid
    (self : scraper) (w : world) (today : Z) :
  match outcome (check_all_dates self w today) with
  | Ok (Some q) =>
      exists dep_days trip_length,
        1 <= dep_days <= search_days self
        /\ 2 <= trip_length <= 7
        /\ departure_date q = strftime (today + dep_days)
        /\ return_date q = strftime (today + (dep_days + trip_length))
        /\ lookup w (departure_date q) (return_date q) = Some q
  | Ok None => True
  | Raise _ => False
  end.
Proof.
  pose proof (check_all_dates_cheapest self w today) as H.
  destruct (outcome (check_all_dates self w today)) as [[q |] | e];
    simpl in H; [| exact I | exact H].
  apply first_cheapest_In, filter_In in H. destruct H as [H _].
  unfold quotes_obtained in H. apply in_flat_map in H as (o & Ho & Hq).
  apply in_offsets in Ho. exists (fst o), (snd o).
  destruct (lookup w (fst (date_pair today o)) (snd (date_pair today o))) as [q' |] eqn:E;
    simpl in Hq; [| contradiction].
  destruct Hq as [-> | []].
  assert (departure_date q = fst (date_pair today o)
          /\ return_date q = snd (date_pair today o)) as [Hd Hr].
  { apply (search_dates w). unfold lookup in E.
    destruct (outcome (search_google_flights w _ _)) as [[g |] | e].
    - injection E as ->. left. reflexivity.
    - right. destruct (outcome (search_kayak w _ _)) as [k |]; [| discriminate].
      rewrite E. reflexivity.
    - right. destruct (outcome (search_kayak w _ _)) as [k |]; [| discriminate].
      rewrite E. reflexivity. }
  rewrite Hd, Hr. repeat split; try lia; try reflexivity. exact E.
Qed.

(** The loop of [min] over entries with numeric prices. *)
Lemma min_by_price_numeric (lt : json -> json -> result bool) (xs : list json) (best : json) :
  (forall x y, lt (JNum x) (JNum y) = Ok (x <?f y)) ->
  forallb has_numeric_price xs = true ->
  for_each xs
    (fun item best =>
       k' <- lift (py_getitem item "price") ;;
       below <- lift (lt k' (snd best)) ;;
       ret (if (below : bool) then (item, k') else best))
    (best, JNum (entry_price best))
  = (Ok (py_min_from entry_price best xs,
         JNum (entry_price (py_min_from entry_price best xs))),
     [] : list event).
Proof.
  intros Hlt.
  match goal with |- _ -> for_each _ ?b _ = _ => set (body := b) end.
  revert best. induction xs as [| x xs IH]; intros best Hnum;
    cbn [for_each py_min_from forallb] in *; [reflexivity |].
  apply andb_prop in Hnum as [Hx Hxs].
  assert (body x (best, JNum (entry_price best))
          = (Ok (if entry_price x <?f entry_price best
                 then (x, JNum (entry_price x))
                 else (best, JNum (entry_price best))), [])) as Hstep.
  { unfold has_numeric_price in Hx.
    assert (py_getitem x "price" = Ok (JNum (entry_price x))) as Ex.
    { unfold entry_price. destruct (py_getitem x "price") as [[| | p | | |] |];
        try discriminate. reflexivity. }
    unfold body, bind, lift, ret. rewrite Ex. cbn [snd]. rewrite Hlt.
    destruct (entry_price x <?f entry_price best); reflexivity. }
  unfold bind. rewrite Hstep.
  destruct (entry_price x <?f entry_price best); rewrite (IH _ Hxs); reflexivity.
Qed.

(** From a history whose entries all have a numeric price,
    [load_price_history] takes the first cheapest entry: it assigns the
    history, then the price of that entry, then its flight; when that entry
    has no ['flight_info'] the price is assigned all the same and the
    flight keeps its former value. *)
Theorem load_price_history_takes_the_cheapest_entry
    (lt : json -> json -> result bool) (first : json) (others : list json) :
  (forall x y, lt (JNum x) (JNum y) = Ok (x <?f y)) ->
  forallb has_numeric_price (first :: others) = true ->
  exists best,
    first_cheapest entry_price best (first :: others)
    /\ load_price_history lt (Holds (JArr (first :: others)))
       = (Ok tt,
          SetPriceHistory (JArr (first :: others))
            :: SetBestPrice (JNum (entry_price best))
            :: match py_getitem best "flight_info" with
               | Ok flight_info => [SetBestFlightInfo flight_info]
               | Raise _ => []
               end).
Proof.
  intros Hlt Hnum. exists (py_min_from entry_price first others). split.
  - apply py_min_from_first_cheapest with (done := [first]), first_cheapest_singleton.
  - cbn [forallb] in Hnum. apply andb_prop in Hnum as [Hfirst Hothers].
    pose proof (min_by_price_numeric lt others first Hlt Hothers) as Hloop.
    set (best := py_min_from entry_price first others) in *.
    assert (has_numeric_price best = true) as Hbest.
    { assert (forall xs b, has_numeric_price b = true -> forallb has_numeric_price xs = true
                           -> has_numeric_price (py_min_from entry_price b xs) = true) as H.
      { induction xs as [| x xs IH]; intros b Hb Hxs; cbn [py_min_from forallb] in *;
          [exact Hb |].
        apply andb_prop in Hxs as [Hx Hxs].
        destruct (entry_price x <?f entry_price b); auto. }
      apply H; assumption. }
    unfold has_numeric_price in Hfirst, Hbest.
    assert (py_getitem first "price" = Ok (JNum (entry_price first))) as Hf.
    { unfold entry_price. destruct (py_getitem first "price") as [[| | p | | |] |];
        try discriminate. reflexivity. }
    assert (py_getitem best "price" = Ok (JNum (entry_price best))) as Hb.
    { unfold entry_price. destruct (py_getitem best "price") as [[| | p | | |] |];
        try discriminate. reflexivity. }
    assert (min_by_price lt (JArr (first :: others)) = (Ok best, [])) as Hmin.
    { unfold min_by_price. rewrite Hf. unfold lift at 1. unfold bind at 1.
      rewrite Hloop. reflexivity. }
    unfold load_price_history, try_except, bind, lift, ret, emit.
    cbn [path_exists open_r json_load truthy fst snd app]. rewrite Hmin, Hb.
    destruct (py_getitem best "flight_info") as [fi | e]; reflexivity.
Qed.

Lemma load_price_history_takes_the_cheapest_entry_witness :
  exists best,
    first_cheapest entry_price best
      [Scenario.history_entry 30000 (JStr "first" None);
       Scenario.history_entry 25000 (JStr "second" None);
       JObj [("price", JNum (PyFloat.of_cents 25000))]]
    /\ load_price_history Scenario.lt_numbers
         (Holds (JArr [Scenario.history_entry 30000 (JStr "first" None);
                       Scenario.history_entry 25000 (JStr "second" None);
                       JObj [("price", JNum (PyFloat.of_cents 25000))]]))
       = (Ok tt,
          SetPriceHistory
            (JArr [Scenario.history_entry 30000 (JStr "first" None);
                   Scenario.history_entry 25000 (JStr "second" None);
                   JObj [("price", JNum (PyFloat.of_cents 25000))]])
            :: SetBestPrice (JNum (entry_price best))
            :: match py_getitem best "flight_info" with
               | Ok flight_info => [SetBestFlightInfo flight_info]
               | Raise _ => []
               end).
Proof.
  apply (@load_price_history_takes_the_cheapest_entry Scenario.lt_numbers).
  - intros x y. reflexivity.
  - reflexivity.
Defined.

(** [load_price_history] never raises, whatever the file holds and however
    its values compare. A file that is missing, unreadable or not JSON
    leaves every attribute as it was; a file that holds a value replaces
    [self.price_history] by it first, whatever its shape. *)
Theorem load_price_history_never_raises
    (lt : json -> json -> result bool) (file : json_file) :
  outcome (load_price_history lt file) = Ok tt
  /\ match file with
     | Holds v =>
         exists rest, trace (load_price_history lt file) = SetPriceHistory v :: rest
     | _ => trace (load_price_history lt file) = []
     end.
Proof.
  split.
  - unfold load_price_history. rewrite outcome_try_except.
    destruct (outcome _) as [[] | e]; reflexivity.
  - destruct file as [| | | | v]; try reflexivity.
    unfold load_price_history. cbn [path_exists open_r json_load].
    unfold bind at 1 2 3, lift at 1 2, emit at 1, try_except. cbn beta iota.
    match goal with
    | |- context [if truthy v then ?a else ?b] =>
        destruct (if truthy v then a else b) as [[[] | e] t']
    end; cbn; eexists; reflexivity.
Qed.
End ScraperSweep.

(** * One request of the API client *)

Section OneRequest.
Import Weeks WeeksSpec.


(** The keys of a batch up to its first offer without a total. *)
Lemma map_M_totals_raise (good : list (json * PyFloat.float)) (bad : json) (rest : list json)
    (e : exn) :
  Forall (fun p => offer_total (fst p) = Ok (snd p)) good ->
  offer_total bad = Raise e ->
  map_M (E := event) (fun x => k <- lift (offer_total x) ;; ret (x, k))
    (map fst good ++ bad :: rest)
  = (Raise e, []).
Proof.
  intros Hgood Hbad. induction Hgood as [| [x k] good Hx _ IH].
  - cbn [map app map_M]. unfold bind, lift. rewrite Hbad. reflexivity.
  - cbn [map app map_M fst snd] in *. rewrite IH.
    unfold bind, lift, ret. rewrite Hx. reflexivity.
Qed.

Lemma offer_total_escapes (x : json) (e : exn) :
  offer_total x = Raise e -> is_RequestException e = false.
Proof.
  unfold offer_total, py_getitem, py_float.
  destruct x as [| | | | | items]; try (intros [= <-]; reflexivity).
  destruct (assoc "price" items) as [p |]; [| intros [= <-]; reflexivity].
  destruct p as [| | | | | items']; try (intros [= <-]; reflexivity).
  destruct (assoc "total" items') as [t |]; [| intros [= <-]; reflexivity].
  destruct t as [| | | s [y |] | |]; try discriminate; intros [= <-]; reflexivity.
Qed.
Lemma fetch_price_batch (w : world) (d r : string) (resp : response) (v : json)
    (offers : list json) :
  api w d r = Ok resp ->
  raise_for_status resp = Ok tt ->
  body resp = Some v ->
  py_get v "data" (JArr []) = Ok (JArr offers) ->
  offers <> [] ->
  fetch_price w d r
  = (match outcome (min_offer (JArr offers)) with
     | Ok best =>
         match offer_total best with
         | Ok p => Ok (Some p)
         | Raise e => Raise e
         end
     | Raise e => Raise e
     end, [Get d r]).
Proof.
  intros Hapi Hstatus Hbody Hdata Hne.
  assert (trace (min_offer (JArr offers)) = []) as Hsilent by apply min_offer_silent.
  assert ((status_code resp =? 400) = false) as H400.
  { unfold raise_for_status in Hstatus.
    destruct (status_code resp =? 400) eqn:E; [| reflexivity].
    apply Z.eqb_eq in E. rewrite E in Hstatus. discriminate. }
  assert (truthy (JArr offers) = true) as Htruthy
      by (destruct offers; [congruence | reflexivity]).
  unfold fetch_price, response_json, bind, lift, emit, ret.
  rewrite Hapi. cbn [fst snd app]. rewrite H400, Hstatus. cbn [fst snd app].
  rewrite Hbody. cbn [fst snd app]. rewrite Hdata. cbn [fst snd app].
  rewrite Htruthy. cbn [negb].
  destruct (min_offer (JArr offers)) as [[best | e] t]; unfold trace in Hsilent;
    cbn [snd] in Hsilent; subst t; cbn [outcome fst snd app]; [| reflexivity].
  destruct (offer_total best); reflexivity.
Qed.



(** An offer without a usable total anywhere in a batch ends the whole
    discovery, whatever the other offers of the batch and the quotes found
    before are: the exception is not a [RequestException] and leaves
    [find_cheapest_flight] at the first departure. *)
Theorem a_malformed_offer_ends_the_discovery (w : world) (origin destination : string)
    (start_date end_date trip_duration : Z) (resp : response) (v : json)
    (good : list (json * PyFloat.float)) (bad : json) (rest : list json) (e : exn) :
  start_date <= end_date ->
  api w (strftime start_date) (strftime (start_date + trip_duration)) = Ok resp ->
  raise_for_status resp = Ok tt ->
  body resp = Some v ->
  py_get v "data" (JArr []) = Ok (JArr (map fst good ++ bad :: rest)) ->
  Forall (fun p => offer_total (fst p) = Ok (snd p)) good ->
  offer_total bad = Raise e ->
  find_cheapest_flight w origin destination start_date end_date trip_duration
  = (Raise e, [Get (strftime start_date) (strftime (start_date + trip_duration))]).
Proof.
  intros Hle Hapi Hstatus Hbody Hdata Hgood Hbad.
  unfold find_cheapest_flight.
  destruct (Z.to_nat (end_date - start_date + 1)) as [| turns] eqn:Hturns; [lia |].
  cbn [sweep]. unfold probe.
  rewrite (fetch_price_batch w _ _ Hapi Hstatus Hbody Hdata)
    by (destruct good; discriminate).
  unfold min_offer. rewrite outcome_bind, (@map_M_totals_raise _ _ rest _ Hgood Hbad).
  cbn [outcome fst]. unfold bind, try_except. cbn [fst snd app].
  rewrite (offer_total_escapes _ Hbad). reflexivity.
Qed.

Lemma a_malformed_offer_ends_the_discovery_witness :
  find_cheapest_flight
    {| ledger := Missing;
       api := fun _ _ =>
                Scenario.offers_response
                  [Scenario.offer (JStr "250.00" (Some (PyFloat.of_cents 25000)));
                   Scenario.offer (JStr "n/a" None)];
       open_w := Ok tt; dump := Ok tt; written_on_failure := NothingWritten;
       smtp := Ok tt |}
    "AUS" "SFO" (Scenario.today + 1) (Scenario.today + 14) 14
  = (Raise ValueError, [Get "2025-01-10" "2025-01-24"]).
Proof.
  apply (@a_malformed_offer_ends_the_discovery _ "AUS" "SFO" (Scenario.today + 1)
           (Scenario.today + 14) 14
           {| status_code := 200;
              body := Some (JObj [("data",
                        JArr [Scenario.offer (JStr "250.00" (Some (PyFloat.of_cents 25000)));
                              Scenario.offer (JStr "n/a" None)])]) |}
           (JObj [("data",
                   JArr [Scenario.offer (JStr "250.00" (Some (PyFloat.of_cents 25000)));
                         Scenario.offer (JStr "n/a" None)])])
           [(Scenario.offer (JStr "250.00" (Some (PyFloat.of_cents 25000))),
             PyFloat.of_cents 25000)]
           (Scenario.offer (JStr "n/a" None)) [] ValueError);
    try reflexivity.
  - unfold Scenario.today. lia.
  - repeat constructor.
Defined.
End OneRequest.

(** * The sweep of the API client *)

Section ApiSweep.
Import Weeks WeeksSpec.

(** What a turn of the loop leaves in [cheapest_flight]. *)
Lemma probe_result (w : world) (origin destination : string) (current_date trip_duration : Z)
    (cheapest_flight after : option quote) :
  outcome (probe w origin destination current_date trip_duration cheapest_flight) = Ok after ->
  after = cheapest_flight
  \/ exists p,
       outcome (fetch_price w (strftime current_date) (strftime (current_date + trip_duration)))
       = Ok (Some p)
       /\ after = Some {| price := p;
                          departure_date := strftime current_date;
                          return_date := strftime (current_date + trip_duration);
                          link := make_link origin destination (strftime current_date)
                                    (strftime (current_date + trip_duration)) |}.
Proof.
  unfold probe.
  destruct (fetch_price w (strftime current_date) (strftime (current_date + trip_duration)))
    as [[[p |] | e] t]; cbn.
  - destruct (match cheapest_flight with None => true | Some c => p <?f price c end);
      cbn; intros [= <-]; [right; exists p; split; reflexivity | left; reflexivity].
  - intros [= <-]. left. reflexivity.
  - destruct (is_RequestException e); cbn; [| discriminate].
    intros [= <-]. left. reflexivity.
Qed.

(** The delays of a turn: at most the one of line 129. *)
Lemma probe_delays (w : world) (origin destination : string) (current_date trip_duration : Z)
    (cheapest_flight : option quote) :
  let d := flat_map WeeksMain.delays
             (trace (probe w origin destination current_date trip_duration cheapest_flight)) in
  d = [] \/ d = [300].
Proof.
  unfold probe.
  pose proof (fetch_price_trace w (strftime current_date)
                (strftime (current_date + trip_duration))) as Ht.
  destruct (fetch_price w (strftime current_date) (strftime (current_date + trip_duration)))
    as [[[p |] | e] t]; unfold trace in Ht; cbn [snd] in Ht; subst t; cbn;
    try destruct (is_RequestException e);
    try destruct (match cheapest_flight with None => true | Some c => p <?f price c end);
    cbn; auto.
Qed.

Lemma sweep_requests (w : world) (origin destination : string) (trip_duration : Z)
    (turns : nat) (current_date : Z) (cheapest_flight : option quote) :
  let run := sweep w origin destination turns current_date trip_duration cheapest_flight in
  let grid := map (fun d => (strftime d, strftime (d + trip_duration)))
                (py_range current_date (current_date + Z.of_nat turns)) in
  match outcome run with
  | Ok _ => flat_map probed (trace run) = grid
  | Raise e =>
      is_RequestException e = false
      /\ exists done rest,
           grid = done ++ rest /\ done <> [] /\ flat_map probed (trace run) = done
  end.
Proof.
  revert current_date cheapest_flight.
  induction turns as [| turns IH]; intros current_date cheapest_flight.
  - rewrite py_range_nil by lia. reflexivity.
  - rewrite py_range_cons by lia.
    replace (current_date + Z.of_nat (S turns)) with (current_date + 1 + Z.of_nat turns) by lia.
    cbn [sweep map]. cbv zeta. rewrite outcome_bind, trace_bind, flat_map_app, probe_probed.
    pose proof (probe_escapes w origin destination current_date trip_duration cheapest_flight)
      as Hesc.
    destruct (outcome (probe w origin destination current_date trip_duration cheapest_flight))
      as [c | e].
    + specialize (IH (current_date + 1) c). cbv zeta in IH.
      destruct (outcome (sweep w origin destination turns (current_date + 1) trip_duration c))
        as [found | e].
      * rewrite IH. reflexivity.
      * destruct IH as (He & done & rest & Hgrid & _ & Hdone). split; [exact He |].
        exists ((strftime current_date, strftime (current_date + trip_duration)) :: done), rest.
        rewrite Hgrid, Hdone. repeat split. discriminate.
    + split; [exact Hesc |].
      exists [(strftime current_date, strftime (current_date + trip_duration))].
      eexists. repeat split. discriminate.
Qed.

Lemma sweep_delays (w : world) (origin destination : string) (trip_duration : Z)
    (turns : nat) (current_date : Z) (cheapest_flight : option quote) :
  let run := sweep w origin destination turns current_date trip_duration cheapest_flight in
  Forall (fun ms => ms = 300) (flat_map WeeksMain.delays (trace run))
  /\ (List.length (flat_map WeeksMain.delays (trace run))
      <= List.length (flat_map probed (trace run)))%nat.
Proof.
  revert current_date cheapest_flight.
  induction turns as [| turns IH]; intros current_date cheapest_flight.
  - split; [constructor | apply le_n].
  - cbn [sweep]. cbv zeta. rewrite trace_bind, !flat_map_app, probe_probed, !length_app.
    assert (Forall (fun ms => ms = 300) (flat_map WeeksMain.delays
              (match outcome (probe w origin destination current_date trip_duration
                                cheapest_flight) with
               | Ok c => trace (sweep w origin destination turns (current_date + 1)
                                  trip_duration c)
               | Raise _ => []
               end))
            /\ (List.length (flat_map WeeksMain.delays
                  (match outcome (probe w origin destination current_date trip_duration
                                    cheapest_flight) with
                   | Ok c => trace (sweep w origin destination turns (current_date + 1)
                                      trip_duration c)
                   | Raise _ => []
                   end))
                <= List.length (flat_map probed
                  (match outcome (probe w origin destination current_date trip_duration
                                    cheapest_flight) with
                   | Ok c => trace (sweep w origin destination turns (current_date + 1)
                                      trip_duration c)
                   | Raise _ => []
                   end)))%nat) as [Hall Hlen].
    { destruct (outcome _) as [c | e]; [apply IH | split; [constructor | apply le_n]]. }
    destruct (probe_delays w origin destination current_date trip_duration cheapest_flight)
      as [-> | ->]; cbn [app List.length]; split;
      try (constructor; [reflexivity |]); try exact Hall; lia.
Qed.

(** [find_cheapest_flight] asks for the departures of the window in order,
    each once, with its return [trip_duration] days later; it stops early
    only on an exception that is not a [RequestException]. Between two
    requests it waits at most once, for 300 ms. *)
Theorem find_cheapest_flight_asks_each_departure_once (w : world)
    (origin destination : string) (start_date end_date trip_duration : Z) :
  let run := find_cheapest_flight w origin destination start_date end_date trip_duration in
  let grid := map (fun d => (strftime d, strftime (d + trip_duration)))
                (py_range start_date (end_date + 1)) in
  match outcome run with
  | Ok _ => flat_map probed (trace run) = grid
  | Raise e =>
      is_RequestException e = false
      /\ exists done rest,
           grid = done ++ rest /\ done <> [] /\ flat_map probed (trace run) = done
  end
  /\ Forall (fun ms => ms = 300) (flat_map WeeksMain.delays (trace run))
  /\ (List.length (flat_map WeeksMain.delays (trace run))
      <= List.length (flat_map probed (trace run)))%nat.
Proof.
  cbv zeta. unfold find_cheapest_flight.
  assert (py_range start_date (end_date + 1)
          = py_range start_date (start_date + Z.of_nat (Z.to_nat (end_date - start_date + 1))))
    as -> by (unfold py_range; do 2 f_equal; lia).
  split; [apply sweep_requests | apply sweep_delays].
Qed.

Lemma sweep_quote (w : world) (origin destination : string) (trip_duration : Z)
    (P : quote -> Prop) (turns : nat) (current_date : Z) (cheapest_flight : option quote)
    (q : quote) :
  (forall d p,
      current_date <= d < current_date + Z.of_nat turns ->
      outcome (fetch_price w (strftime d) (strftime (d + trip_duration))) = Ok (Some p) ->
      P {| price := p;
           departure_date := strftime d;
           return_date := strftime (d + trip_duration);
           link := make_link origin destination (strftime d)
                     (strftime (d + trip_duration)) |}) ->
  match cheapest_flight with Some c => P c | None => True end ->
  outcome (sweep w origin destination turns current_date trip_duration cheapest_flight)
  = Ok (Some q) ->
  P q.
Proof.
  revert current_date cheapest_flight.
  induction turns as [| turns IH]; intros current_date cheapest_flight Hstep Hc.
  - cbn. intros [= ->]. exact Hc.
  - cbn [sweep]. rewrite outcome_bind.
    destruct (outcome (probe w origin destination current_date trip_duration cheapest_flight))
      as [c | e] eqn:Hprobe; [| discriminate].
    apply IH.
    + intros d p Hd. apply Hstep. lia.
    + apply probe_result in Hprobe as [-> | (p & Hp & ->)]; [exact Hc |].
      apply Hstep; [lia | exact Hp].
Qed.

(** A quote that [find_cheapest_flight] returns is the one of a departure
    of the window: its dates are that departure and the day
    [trip_duration] days later, its link is the search link for these
    dates, and its price is what the request for them gave. *)
Theorem find_cheapest_flight_returns_a_quote_of_the_window (w : world)
    (origin destination : string) (start_date end_date trip_duration : Z) (q : quote) :
  outcome (find_cheapest_flight w origin destination start_date end_date trip_duration)
  = Ok (Some q) ->
  exists d,
    start_date <= d <= end_date
    /\ departure_date q = strftime d
    /\ return_date q = strftime (d + trip_duration)
    /\ link q = make_link origin destination (departure_date q) (return_date q)
    /\ outcome (fetch_price w (departure_date q) (return_date q)) = Ok (Some (price q)).
Proof.
  unfold find_cheapest_flight. intros H.
  eapply (@sweep_quote w origin destination trip_duration
            (fun q => exists d,
                 start_date <= d <= end_date
                 /\ departure_date q = strftime d
                 /\ return_date q = strftime (d + trip_duration)
                 /\ link q = make_link origin destination (departure_date q) (return_date q)
                 /\ outcome (fetch_price w (departure_date q) (return_date q))
                    = Ok (Some (price q))));
    [| | exact H]; [| exact I].
  intros d p Hd Hp. exists d. cbn [departure_date return_date link price].
  repeat split; try lia. exact Hp.
Qed.

Lemma find_cheapest_flight_returns_a_quote_of_the_window_witness :
  exists d,
    Scenario.today + 1 <= d <= Scenario.today + 14
    /\ departure_date (Scenario.fare 24999 739262 739276) = strftime d
    /\ return_date (Scenario.fare 24999 739262 739276) = strftime (d + 14)
    /\ link (Scenario.fare 24999 739262 739276)
       = make_link "AUS" "SFO" (departure_date (Scenario.fare 24999 739262 739276))
           (return_date (Scenario.fare 24999 739262 739276))
    /\ outcome (fetch_price Scenario.world_fares
                  (departure_date (Scenario.fare 24999 739262 739276))
                  (return_date (Scenario.fare 24999 739262 739276)))
       = Ok (Some (price (Scenario.fare 24999 739262 739276))).
Proof.
  apply (@find_cheapest_flight_returns_a_quote_of_the_window Scenario.world_fares "AUS" "SFO"
           (Scenario.today + 1) (Scenario.today + 14) 14
           (Scenario.fare 24999 739262 739276)).
  vm_compute. reflexivity.
Defined.
End ApiSweep.

(** * The cycles of [main] *)

Section Cycles.
Import Weeks WeeksSpec.

Lemma bind_raise {A B} (c : Py A) (k : A -> Py B) (e : exn) (t : list event) :
  c = (Raise e, t) -> bind c k = (Raise e, t).
Proof. intros ->. reflexivity. Qed.

Lemma bind_ret_nil {A B} (c : Py A) (k : A -> Py B) (a : A) :
  c = (Ok a, []) -> bind c k = k a.
Proof. intros ->. unfold bind. cbn [fst snd app]. destruct (k a); reflexivity. Qed.

(** A cycle, by what its search found: the commit, the mail and the
    outcome. *)
Lemma main_cycle_cases (w : world) (today : Z) :
  let run := main_cycle w today in
  match outcome (main_search w today) with
  | Ok (Some c, true) =>
      match open_w w, dump w with
      | Ok _, Ok _ =>
          outcome run = Ok tt
          /\ flat_map file_states (trace run) = [Truncated; Holds (to_json c)]
          /\ flat_map emails (trace run) = [c]
      | Ok _, Raise e =>
          outcome run = Raise e
          /\ flat_map file_states (trace run)
             = Truncated :: match written_on_failure w with
                            | NothingWritten => []
                            | PartWritten => [Garbage]
                            | AllWritten => [Holds (to_json c)]
                            end
          /\ flat_map emails (trace run) = []
      | Raise e, _ =>
          outcome run = Raise e
          /\ flat_map file_states (trace run) = []
          /\ flat_map emails (trace run) = []
      end
  | Ok _ =>
      outcome run = Ok tt
      /\ flat_map file_states (trace run) = []
      /\ flat_map emails (trace run) = []
  | Raise e =>
      outcome run = Raise e
      /\ flat_map file_states (trace run) = []
      /\ flat_map emails (trace run) = []
  end.
Proof.
  cbv zeta. unfold main_cycle.
  destruct (main_search_events w today) as [Hfiles Hmails].
  destruct (main_search w today) as [found t0].
  unfold trace in Hfiles, Hmails. cbn [snd] in Hfiles, Hmails. cbn [outcome fst].
  destruct found as [[[c |] [|]] | e];
    unfold save_best_price, send_email_notification;
    try (unfold bind, trace, ret, emit; simpl; rewrite ?flat_map_app, ?Hfiles, ?Hmails;
         repeat split; reflexivity).
  destruct (open_w w) as [[] | e1], (dump w) as [[] | e2], (smtp w) as [[] | e3];
    try match goal with
        | |- context [written_on_failure w] => destruct (written_on_failure w)
        end;
    unfold bind, trace, ret, emit, lift, try_except, raise; simpl;
    rewrite ?flat_map_app, ?Hfiles, ?Hmails; simpl; repeat split; reflexivity.
Qed.

(** The search of a cycle, step by step. *)
Lemma main_search_outcome (w : world) (today : Z) :
  outcome (main_search w today)
  = match outcome (load_best_price w) with
    | Ok best =>
        match py_getitem best "price" with
        | Ok shown =>
            match py_format_2f shown with
            | Ok _ =>
                match outcome (find_cheapest_flight w ORIGIN_CITY_CODE DESTINATION_CITY_CODE
                                 (today + 1) (today + SEARCH_WITHIN_DAYS) TRIP_DURATION_DAYS)
                with
                | Ok c =>
                    match outcome (is_new_record c best) with
                    | Ok b => Ok (c, b)
                    | Raise e => Raise e
                    end
                | Raise e => Raise e
                end
            | Raise e => Raise e
            end
        | Raise e => Raise e
        end
    | Raise e => Raise e
    end.
Proof.
  unfold main_search. rewrite outcome_bind.
  destruct (outcome (load_best_price w)) as [best |]; [| reflexivity].
  rewrite outcome_bind, outcome_lift.
  destruct (py_getitem best "price") as [shown |]; [| reflexivity].
  rewrite outcome_bind, outcome_lift.
  destruct (py_format_2f shown) as [[] |]; [| reflexivity].
  rewrite outcome_bind.
  destruct (outcome (find_cheapest_flight _ _ _ _ _ _)) as [c |]; [| reflexivity].
  rewrite outcome_bind.
  destruct (outcome (is_new_record c best)) as [b |]; reflexivity.
Qed.

(** The requests use the answers of the API and nothing else of the
    environment. *)
Lemma find_cheapest_flight_api (w w' : world) (origin destination : string)
    (start_date end_date trip_duration : Z) :
  api w = api w' ->
  find_cheapest_flight w origin destination start_date end_date trip_duration
  = find_cheapest_flight w' origin destination start_date end_date trip_duration.
Proof.
  intros Hapi. unfold find_cheapest_flight.
  generalize (Z.to_nat (end_date - start_date + 1)) as turns.
  generalize start_date as current_date. generalize (@None quote) as cheapest_flight.
  intros cheapest_flight current_date turns. revert current_date cheapest_flight.
  induction turns as [| turns IH]; intros current_date cheapest_flight; [reflexivity |].
  cbn [sweep].
  assert (probe w origin destination current_date trip_duration cheapest_flight
          = probe w' origin destination current_date trip_duration cheapest_flight) as ->.
  { unfold probe, fetch_price. rewrite Hapi. reflexivity. }
  unfold bind.
  destruct (probe w' origin destination current_date trip_duration cheapest_flight)
    as [[c | e] t]; [| reflexivity].
  rewrite IH. reflexivity.
Qed.

Lemma main_search_smtp (w w' : world) (today : Z) :
  ledger w = ledger w' -> api w = api w' ->
  main_search w today = main_search w' today.
Proof.
  intros Hledger Hapi. unfold main_search, load_best_price.
  rewrite Hledger.
  rewrite (find_cheapest_flight_api w w' _ _ _ _ _ Hapi). reflexivity.
Qed.
Lemma announced_emails (t : list event) :
  flat_map WeeksMain.announced t = map price (flat_map emails t).
Proof.
  induction t as [| ev t IH]; [reflexivity |].
  cbn [flat_map]. rewrite map_app, IH. destruct ev; reflexivity.
Qed.

Lemma ledger_after_files (ledger : json_file) (t : list event) :
  WeeksMain.ledger_after ledger t = last (flat_map file_states t) ledger.
Proof. reflexivity. Qed.

(** What a search that passes the test found, and against which record. *)
Lemma main_search_new_record (w : world) (today : Z) (c : quote) :
  outcome (main_search w today) = Ok (Some c, true) ->
  exists best,
    outcome (load_best_price w) = Ok best
    /\ outcome (find_cheapest_flight w ORIGIN_CITY_CODE DESTINATION_CITY_CODE
                  (today + 1) (today + SEARCH_WITHIN_DAYS) TRIP_DURATION_DAYS)
       = Ok (Some c)
    /\ outcome (is_new_record (Some c) best) = Ok true.
Proof.
  rewrite main_search_outcome.
  destruct (outcome (load_best_price w)) as [best |]; [| discriminate].
  destruct (py_getitem best "price") as [shown |]; [| discriminate].
  destruct (py_format_2f shown) as [[] |]; [| discriminate].
  destruct (outcome (find_cheapest_flight _ _ _ _ _ _)) as [found |]; [| discriminate].
  destruct (outcome (is_new_record found best)) as [b |] eqn:Htest; [| discriminate].
  intros [= -> ->]. exists best. repeat split. exact Htest.
Qed.

(** Over a record that a commit wrote, the search passes the test only
    with a strictly lower price. *)
Lemma main_search_over_a_commit (w : world) (today : Z) (r c : quote) :
  ledger w = Holds (to_json r) ->
  outcome (main_search w today) = Ok (Some c, true) ->
  (price c <?f price r) = true.
Proof.
  intros Hledger Hsearch.
  apply main_search_new_record in Hsearch as (best & Hload & _ & Htest).
  unfold load_best_price in Hload. rewrite Hledger in Hload.
  cbn in Hload. injection Hload as <-.
  cbn in Htest. congruence.
Qed.

(** A failure to send the mail changes nothing else of a cycle: its
    outcome, what it writes to the ledger and the mails it attempts are
    those of the cycle whose mail goes out. *)
Theorem main_cycle_survives_a_mail_failure (w : world) (today : Z) :
  let calm := {| ledger := ledger w; api := api w; open_w := open_w w; dump := dump w;
                 written_on_failure := written_on_failure w; smtp := Ok tt |} in
  outcome (main_cycle w today) = outcome (main_cycle calm today)
  /\ flat_map file_states (trace (main_cycle w today))
     = flat_map file_states (trace (main_cycle calm today))
  /\ flat_map emails (trace (main_cycle w today))
     = flat_map emails (trace (main_cycle calm today)).
Proof.
  intros calm.
  pose proof (main_cycle_cases w today) as Hw.
  pose proof (main_cycle_cases calm today) as Hcalm. cbv zeta in Hw, Hcalm.
  rewrite <- (main_search_smtp w calm today eq_refl eq_refl) in Hcalm.
  change (open_w calm) with (open_w w) in Hcalm.
  change (dump calm) with (dump w) in Hcalm.
  change (written_on_failure calm) with (written_on_failure w) in Hcalm.
  destruct (outcome (main_search w today)) as [[[c |] [|]] | e];
    try destruct (open_w w) as [[] | e1]; try destruct (dump w) as [[] | e2];
    destruct Hw as (-> & -> & ->), Hcalm as (-> & -> & ->); repeat split.
Qed.

(** A ledger that cannot be read, or whose record has no price that can
    be printed, ends the cycle before any request. *)
Theorem main_cycle_stops_on_an_unusable_ledger (w : world) (today : Z) :
  match ledger w with
  | Missing => True
  | Unreadable => main_cycle w today = (Raise OSError, [])
  | Truncated | Garbage => main_cycle w today = (Raise JSONDecodeError, [])
  | Holds v =>
      match py_getitem v "price" with
      | Ok shown =>
          match py_format_2f shown with
          | Ok _ => True
          | Raise e => main_cycle w today = (Raise e, [])
          end
      | Raise e => main_cycle w today = (Raise e, [])
      end
  end.
Proof.
  unfold main_cycle, main_search.
  destruct (ledger w) as [| | | | v] eqn:Hledger; try exact I;
    try (apply bind_raise, bind_raise; unfold load_best_price; rewrite Hledger; reflexivity).
  assert (load_best_price w = (Ok v, [])) as Hload
      by (unfold load_best_price; rewrite Hledger; reflexivity).
  destruct (py_getitem v "price") as [shown | e] eqn:Hprice.
  - destruct (py_format_2f shown) as [[] | e] eqn:Hformat; [exact I |].
    apply bind_raise. rewrite (bind_ret_nil _ Hload).
    rewrite Hprice. rewrite (bind_ret_nil _ (eq_refl : lift (Ok shown) = (Ok shown, []))).
    apply bind_raise. rewrite Hformat. reflexivity.
  - apply bind_raise. rewrite (bind_ret_nil _ Hload).
    apply bind_raise. rewrite Hprice. reflexivity.
Qed.

(** A cycle that does not fail while writing the record out leaves the
    ledger file as it found it, or holding a quote that its search returned
    and that passed the test against the record it had loaded; the one
    other case is a write that failed, and then the cycle raises. *)
Theorem main_cycle_commits_only_a_cheaper_quote (w : world) (today : Z) :
  let run := main_cycle w today in
  let after := WeeksMain.ledger_after (ledger w) (trace run) in
  after = ledger w
  \/ (exists e, open_w w = Ok tt /\ dump w = Raise e /\ outcome run = Raise e)
  \/ (exists best c,
         outcome (load_best_price w) = Ok best
         /\ outcome (find_cheapest_flight w ORIGIN_CITY_CODE DESTINATION_CITY_CODE
                       (today + 1) (today + SEARCH_WITHIN_DAYS) TRIP_DURATION_DAYS)
            = Ok (Some c)
         /\ outcome (is_new_record (Some c) best) = Ok true
         /\ after = Holds (to_json c)
         /\ outcome run = Ok tt).
Proof.
  cbv zeta. rewrite ledger_after_files.
  pose proof (main_cycle_cases w today) as Hcases. cbv zeta in Hcases.
  destruct (outcome (main_search w today)) as [[[c |] [|]] | e] eqn:Hsearch;
    try (destruct Hcases as (_ & -> & _); left; reflexivity).
  destruct (open_w w) as [[] | e1]; [| destruct Hcases as (_ & -> & _); left; reflexivity].
  destruct (dump w) as [[] | e2]; destruct Hcases as (Hout & Hfiles & _).
  - right. right. rewrite Hfiles.
    apply main_search_new_record in Hsearch as (best & Hload & Hfound & Htest).
    exists best, c. repeat split; assumption.
  - right. left. exists e2. repeat split. exact Hout.
Qed.

Lemma main_loop_bounded (cycles : list WeeksMain.cycle_env) (ledger : json_file) :
  StronglySorted (fun a b => (b <?f a) = true)
    (flat_map WeeksMain.announced (trace (WeeksMain.main_loop ledger cycles)))
  /\ forall bound,
       (forall env c,
           outcome (main_search (WeeksMain.world_at ledger env) (WeeksMain.today env))
           = Ok (Some c, true) ->
           (price c <?f bound) = true) ->
       Forall (fun p => (p <?f bound) = true)
         (flat_map WeeksMain.announced (trace (WeeksMain.main_loop ledger cycles))).
Proof.
  revert ledger. induction cycles as [| env rest IH]; intros ledger.
  - split; [constructor | intros; constructor].
  - cbn [WeeksMain.main_loop]. cbv zeta. rewrite trace_bind, flat_map_app, announced_emails.
    rewrite ledger_after_files.
    pose proof (main_cycle_cases (WeeksMain.world_at ledger env) (WeeksMain.today env))
      as Hcases. cbv zeta in Hcases.
    set (turn := main_cycle (WeeksMain.world_at ledger env) (WeeksMain.today env)) in *.
    destruct (outcome (main_search (WeeksMain.world_at ledger env) (WeeksMain.today env)))
      as [[[c |] [|]] | e] eqn:Hsearch.
    + change (open_w (WeeksMain.world_at ledger env)) with (WeeksMain.open_w env) in Hcases.
      change (dump (WeeksMain.world_at ledger env)) with (WeeksMain.dump env) in Hcases.
      destruct (WeeksMain.open_w env) as [[] | e1];
        [destruct (WeeksMain.dump env) as [[] | e2] |];
        destruct Hcases as (Hout & Hfiles & Hmails); rewrite Hout, Hmails, ?Hfiles;
        try solve [cbn [map app]; split; [constructor | intros; constructor]].
      cbn [map app last].
      destruct (IH (Holds (to_json c))) as [Hsorted Hbelow].
      assert (Forall (fun p => (p <?f price c) = true)
                (flat_map WeeksMain.announced
                   (trace (WeeksMain.main_loop (Holds (to_json c)) rest)))) as Hrest.
      { apply Hbelow. intros env' c' Hnext.
        eapply main_search_over_a_commit; [| exact Hnext]. reflexivity. }
      split.
      * constructor; assumption.
      * intros bound Hbound. constructor.
        -- eapply Hbound, Hsearch.
        -- eapply Forall_impl; [| exact Hrest]. cbv beta. intros p Hp.
           eapply lt_trans; [exact Hp |]. eapply Hbound, Hsearch.
    + destruct Hcases as (Hout & Hfiles & Hmails). rewrite Hout, Hfiles, Hmails.
      cbn [map app last]. apply IH.
    + destruct Hcases as (Hout & Hfiles & Hmails). rewrite Hout, Hfiles, Hmails.
      cbn [map app last]. apply IH.
    + destruct Hcases as (Hout & Hfiles & Hmails). rewrite Hout, Hfiles, Hmails.
      cbn [map app last]. apply IH.
    + destruct Hcases as (Hout & Hfiles & Hmails). rewrite Hout, Hmails.
      cbn [map app]. split; [constructor | intros; constructor].
Qed.

(** Over any number of cycles, from any ledger and whatever the API
    answers, the prices that the mails announce fall strictly from one
    mail to the next. *)
Theorem main_loop_announces_falling_prices (ledger : json_file)
    (cycles : list WeeksMain.cycle_env) :
  StronglySorted (fun earlier later => (later <?f earlier) = true)
    (flat_map WeeksMain.announced (trace (WeeksMain.main_loop ledger cycles))).
Proof. apply main_loop_bounded. Qed.

(** A cycle that is run again on the ledger it left, with the same
    answers of the API, returns without writing the ledger and without
    mail. *)
Theorem a_repeated_cycle_is_quiet (ledger : json_file) (env : WeeksMain.cycle_env) :
  let first := main_cycle (WeeksMain.world_at ledger env) (WeeksMain.today env) in
  let again := main_cycle
                 (WeeksMain.world_at (WeeksMain.ledger_after ledger (trace first)) env)
                 (WeeksMain.today env) in
  outcome first = Ok tt ->
  outcome again = Ok tt
  /\ flat_map file_states (trace again) = []
  /\ flat_map emails (trace again) = [].
Proof.
  cbv zeta. rewrite ledger_after_files. intros Hfirst.
  pose proof (main_cycle_cases (WeeksMain.world_at ledger env) (WeeksMain.today env))
    as Hcases. cbv zeta in Hcases.
  destruct (outcome (main_search (WeeksMain.world_at ledger env) (WeeksMain.today env)))
    as [[[c |] [|]] | e] eqn:Hsearch.
  - change (open_w (WeeksMain.world_at ledger env)) with (WeeksMain.open_w env) in Hcases.
    change (dump (WeeksMain.world_at ledger env)) with (WeeksMain.dump env) in Hcases.
    destruct (WeeksMain.open_w env) as [[] | e1];
      [destruct (WeeksMain.dump env) as [[] | e2] |];
      destruct Hcases as (Hout & Hfiles & _); try congruence.
    rewrite Hfiles. cbn [last].
    apply main_search_new_record in Hsearch as (best & _ & Hfound & _).
    pose proof (main_cycle_cases (WeeksMain.world_at (Holds (to_json c)) env)
                  (WeeksMain.today env)) as Hagain. cbv zeta in Hagain.
    assert (outcome (main_search (WeeksMain.world_at (Holds (to_json c)) env)
                       (WeeksMain.today env)) = Ok (Some c, false)) as Hquiet.
    { rewrite main_search_outcome.
      rewrite (find_cheapest_flight_api (WeeksMain.world_at (Holds (to_json c)) env)
                 (WeeksMain.world_at ledger env) _ _ _ _ _ eq_refl), Hfound.
      cbn. rewrite lt_irrefl. reflexivity. }
    rewrite Hquiet in Hagain. exact Hagain.
  - destruct Hcases as (_ & Hfiles & Hmails). rewrite Hfiles. cbn [last].
    repeat split; assumption.
  - destruct Hcases as (_ & Hfiles & Hmails). rewrite Hfiles. cbn [last].
    repeat split; assumption.
  - destruct Hcases as (_ & Hfiles & Hmails). rewrite Hfiles. cbn [last].
    repeat split; assumption.
  - destruct Hcases as (Hout & _). congruence.
Qed.

Lemma a_repeated_cycle_is_quiet_witness :
  outcome (main_cycle
             (WeeksMain.world_at
                (WeeksMain.ledger_after Missing
                   (trace (main_cycle Scenario.world_fares Scenario.today)))
                {| WeeksMain.today := Scenario.today;
                   WeeksMain.api := Scenario.api_fares;
                   WeeksMain.open_w := Ok tt;
                   WeeksMain.dump := Ok tt;
                   WeeksMain.written_on_failure := NothingWritten;
                   WeeksMain.smtp := Ok tt |})
             Scenario.today) = Ok tt
  /\ flat_map file_states
       (trace (main_cycle
                 (WeeksMain.world_at
                    (WeeksMain.ledger_after Missing
                       (trace (main_cycle Scenario.world_fares Scenario.today)))
                    {| WeeksMain.today := Scenario.today;
                       WeeksMain.api := Scenario.api_fares;
                       WeeksMain.open_w := Ok tt;
                       WeeksMain.dump := Ok tt;
                       WeeksMain.written_on_failure := NothingWritten;
                       WeeksMain.smtp := Ok tt |})
                 Scenario.today)) = []
  /\ flat_map emails
       (trace (main_cycle
                 (WeeksMain.world_at
                    (WeeksMain.ledger_after Missing
                       (trace (main_cycle Scenario.world_fares Scenario.today)))
                    {| WeeksMain.today := Scenario.today;
                       WeeksMain.api := Scenario.api_fares;
                       WeeksMain.open_w := Ok tt;
                       WeeksMain.dump := Ok tt;
                       WeeksMain.written_on_failure := NothingWritten;
                       WeeksMain.smtp := Ok tt |})
                 Scenario.today)) = [].
Proof.
  apply (@a_repeated_cycle_is_quiet Missing
           {| WeeksMain.today := Scenario.today;
              WeeksMain.api := Scenario.api_fares;
              WeeksMain.open_w := Ok tt;
              WeeksMain.dump := Ok tt;
              WeeksMain.written_on_failure := NothingWritten;
              WeeksMain.smtp := Ok tt |}).
  vm_compute. reflexivity.
Defined.

(** [main] starts its loop only with an access token that is not empty:
    a failed or refused token request, or a body that is not JSON, ends it
    at once without a cycle; a JSON body without ['access_token'] raises
    out of [main]. *)
Theorem main_runs_no_cycle_without_a_token (post : result response) (ledger : json_file)
    (cycles : list WeeksMain.cycle_env) :
  match post with
  | Raise e =>
      WeeksMain.main post ledger cycles
      = if is_RequestException e then (Ok tt, []) else (Raise e, [])
  | Ok resp =>
      match raise_for_status resp, body resp with
      | Raise _, _ | Ok _, None => WeeksMain.main post ledger cycles = (Ok tt, [])
      | Ok _, Some v =>
          match py_getitem v "access_token" with
          | Ok token =>
              WeeksMain.main post ledger cycles
              = if truthy token then WeeksMain.main_loop ledger cycles else (Ok tt, [])
          | Raise e =>
              WeeksMain.main post ledger cycles = (Raise e, [])
              /\ is_RequestException e = false
          end
      end
  end.
Proof.
  unfold WeeksMain.main, WeeksMain.get_amadeus_access_token, response_json.
  destruct post as [resp | e].
  - destruct (raise_for_status resp) as [[] |] eqn:Hstatus.
    + destruct (body resp) as [v |] eqn:Hbody.
      * destruct (py_getitem v "access_token") as [token | e] eqn:Htoken.
        -- unfold bind, lift, try_except, ret. cbn [fst snd app].
           rewrite Hstatus. cbn [fst snd app]. rewrite Hbody. cbn [fst snd app].
           rewrite Htoken. cbn [fst snd app].
           destruct (truthy token); [destruct (WeeksMain.main_loop ledger cycles) |];
             reflexivity.
        -- assert (is_RequestException e = false) as He.
           { unfold py_getitem in Htoken. destruct v; try (injection Htoken as <-; reflexivity).
             destruct (assoc "access_token" items); [discriminate |].
             injection Htoken as <-. reflexivity. }
           split; [| exact He].
           unfold bind, lift, try_except, ret. cbn [fst snd app].
           rewrite Hstatus. cbn [fst snd app]. rewrite Hbody. cbn [fst snd app].
           rewrite Htoken. cbn [fst snd app]. rewrite He. reflexivity.
      * unfold bind, lift, try_except, ret. cbn [fst snd app].
        rewrite Hstatus. cbn [fst snd app]. rewrite Hbody. reflexivity.
    + assert (e = HTTPError) as ->.
      { unfold raise_for_status in Hstatus. destruct (_ && _); congruence. }
      destruct (body resp); unfold bind, lift, try_except, ret; cbn [fst snd app];
        rewrite Hstatus; reflexivity.
  - unfold bind, lift, try_except, ret. cbn [fst snd app].
    destruct (is_RequestException e); reflexivity.
Qed.
End Cycles.
